(** * JAFS multi-agent system: task classifier, orchestrator, tool-call
    extraction and the direct-response tool.

    A shallow embedding of the Python sources

      - [MultiAgentAISystem/jafs.py]          ([detect_task_type])
      - [jafs/core/orchestrator.py]           ([AgentOrchestrator])
      - [bin/jafs/models/ollama_model.py]     ([OllamaModel])
      - [bin/jafs/tools/direct_response.py]   ([DirectResponseTool])

    Text is modelled as [string] over 8-bit characters and read as ASCII:
    the character classes below are Python's [str.isspace], [\w] and
    [str.lower] restricted to code points below 128.  Python dictionaries
    are insertion-ordered association lists with string keys.  A Python
    exception is a value of [exn]; a computation that may raise has type
    [result A].  Calls to the logger change neither the state nor what a
    method returns and are left out.  What the sources take from outside
    (the clock, the file system, the model's completion, the primary
    agent, [json.loads] and [json.dumps]) enters as an argument or as a
    variable of a section. *)

From Stdlib Require Import String Ascii List ZArith QArith Lia Bool Arith.
From Stdlib Require Import DecimalString DecimalNat FinFun.
Import ListNotations.

Local Close Scope Q_scope.
Local Open Scope string_scope.
Local Open Scope list_scope.

Set Implicit Arguments.

(* ===================================================================== *)
(** * Python's [str] operations *)
(* ===================================================================== *)

Module PyStr.

Definition newline : ascii := "010"%char.

Definition in_range (lo hi : nat) (c : ascii) : bool :=
  let n := nat_of_ascii c in Nat.leb lo n && Nat.leb n hi.

(** [c.isspace()]: TAB, LF, VT, FF, CR, the separators 0x1c..0x1f and
    the space. *)
Definition is_space (c : ascii) : bool :=
  in_range 9 13 c || in_range 28 31 c || in_range 32 32 c.

Definition is_upper (c : ascii) : bool := in_range 65 90 c.
Definition is_lower (c : ascii) : bool := in_range 97 122 c.
Definition is_digit (c : ascii) : bool := in_range 48 57 c.

(** The class [\w] of the [re] module. *)
Definition is_word (c : ascii) : bool :=
  is_upper c || is_lower c || is_digit c || Ascii.eqb c "_"%char.

Definition lower_char (c : ascii) : ascii :=
  if is_upper c then ascii_of_nat (nat_of_ascii c + 32) else c.

Definition upper_char (c : ascii) : ascii :=
  if is_lower c then ascii_of_nat (nat_of_ascii c - 32) else c.

(** [s.lower()] *)
Fixpoint lower (s : string) : string :=
  match s with
  | EmptyString => EmptyString
  | String c s' => String (lower_char c) (lower s')
  end.

(** [s.capitalize()]: first character upper-cased, the rest lower-cased. *)
Definition capitalize (s : string) : string :=
  match s with
  | EmptyString => EmptyString
  | String c s' => String (upper_char c) (lower s')
  end.

(** [s.lstrip()] *)
Fixpoint lstrip (s : string) : string :=
  match s with
  | EmptyString => EmptyString
  | String c s' => if is_space c then lstrip s' else s
  end.

(** [s.rstrip()] *)
Fixpoint rstrip (s : string) : string :=
  match s with
  | EmptyString => EmptyString
  | String c s' =>
      match rstrip s' with
      | EmptyString => if is_space c then EmptyString else String c EmptyString
      | r => String c r
      end
  end.

(** [s.strip()] *)
Definition strip (s : string) : string := rstrip (lstrip s).

(** [s.split("\n")] *)
Fixpoint split_lines (s : string) : list string :=
  match s with
  | EmptyString => [EmptyString]
  | String c s' =>
      if Ascii.eqb c newline then EmptyString :: split_lines s'
      else match split_lines s' with
           | l :: ls => String c l :: ls
           | [] => [String c EmptyString]
           end
  end.

(** [s.split()]: maximal runs of non-blank characters. *)
Fixpoint split_ws_aux (cur : string) (s : string) : list string :=
  match s with
  | EmptyString => match cur with EmptyString => [] | _ => [cur] end
  | String c s' =>
      if is_space c
      then match cur with
           | EmptyString => split_ws_aux EmptyString s'
           | _ => cur :: split_ws_aux EmptyString s'
           end
      else split_ws_aux (cur ++ String c EmptyString) s'
  end.

Definition split_ws (s : string) : list string := split_ws_aux EmptyString s.

(** The rest of [s] after the prefix [p], when [s] starts with [p]. *)
Fixpoint strip_prefix (p s : string) : option string :=
  match p with
  | EmptyString => Some s
  | String a p' =>
      match s with
      | EmptyString => None
      | String b s' => if Ascii.eqb a b then strip_prefix p' s' else None
      end
  end.

(** [s.startswith(p)] *)
Definition startswith (s p : string) : bool :=
  match strip_prefix p s with Some _ => true | None => false end.

(** [sub in s] *)
Fixpoint contains (sub s : string) : bool :=
  startswith s sub ||
  match s with
  | EmptyString => false
  | String _ s' => contains sub s'
  end.

Fixpoint rev_string (acc s : string) : string :=
  match s with
  | EmptyString => acc
  | String c s' => rev_string (String c acc) s'
  end.

(** [s.endswith(p)] *)
Definition endswith (s p : string) : bool :=
  startswith (rev_string EmptyString s) (rev_string EmptyString p).

(** [s.replace(old, new)] for a non-empty [old]: the occurrences of
    [old] are found left to right and do not overlap.  [skip] counts the
    characters of an occurrence still to be dropped. *)
Fixpoint replace_aux (old new : string) (skip : nat) (s : string) : string :=
  match s with
  | EmptyString => EmptyString
  | String c s' =>
      match skip with
      | S k => replace_aux old new k s'
      | O =>
          if startswith s old
          then new ++ replace_aux old new (String.length old - 1) s'
          else String c (replace_aux old new 0 s')
      end
  end.

(** With an empty [old] Python puts [new] before every character and at
    the end. *)
Fixpoint intersperse (new s : string) : string :=
  match s with
  | EmptyString => new
  | String c s' => new ++ String c (intersperse new s')
  end.

Definition replace (s old new : string) : string :=
  match old with
  | EmptyString => intersperse new s
  | _ => replace_aux old new 0 s
  end.

(** [str(n)] for a non-negative integer: its decimal digits. *)
Definition of_nat (n : nat) : string :=
  NilEmpty.string_of_uint (Nat.to_uint n).

End PyStr.

(* ===================================================================== *)
(** * The [re] searches the sources make *)
(* ===================================================================== *)

Module Re.
Import PyStr.

Definition word_opt (c : option ascii) : bool :=
  match c with Some a => is_word a | None => false end.

(** [\b] between two neighbouring positions: exactly one side is a word
    character (the outside of the text counts as a non-word). *)
Definition boundary (before after : option ascii) : bool :=
  xorb (word_opt before) (word_opt after).

Definition head (s : string) : option ascii :=
  match s with EmptyString => None | String c _ => Some c end.

Fixpoint last (s : string) (d : option ascii) : option ascii :=
  match s with
  | EmptyString => d
  | String c s' => last s' (Some c)
  end.

(** The pattern [\b kw \b] matched at the start of [s], [prev] being the
    character before it. *)
Definition word_at (kw : string) (prev : option ascii) (s : string) : bool :=
  boundary prev (head s) &&
  match strip_prefix kw s with
  | Some rest => boundary (last kw prev) (head rest)
  | None => false
  end.

Fixpoint word_search_from (kw : string) (prev : option ascii) (s : string)
  : bool :=
  word_at kw prev s ||
  match s with
  | EmptyString => false
  | String c s' => word_search_from kw (Some c) s'
  end.

(** [re.search(r'\b' + kw + r'\b', text)] finds a match; [kw] is a
    literal (letters and spaces only, as every keyword of the sources). *)
Definition search_word (kw text : string) : bool :=
  word_search_from kw None text.

End Re.

(* ===================================================================== *)
(** * [jafs.py]: the task classifier *)
(* ===================================================================== *)

Module Classifier.
Import PyStr.

Definition research_keywords : list string :=
  ["research"; "find"; "search"; "look up"; "investigate";
   "analyze"; "study"; "explore"; "learn about"].

Definition calc_keywords : list string :=
  ["calculate"; "compute"; "solve"; "evaluate"; "what is";
   "how much"; "add"; "subtract"; "multiply"; "divide"].

Definition creative_keywords : list string :=
  ["create"; "generate"; "write"; "compose"; "design";
   "develop"; "make"; "build"; "draft"].

(** One of the three loops
    [for keyword in kws: if re.search(...): mode = m; break]. *)
Fixpoint check_keywords (kws : list string) (task : string)
         (m : string) (mode : string) : string :=
  match kws with
  | [] => mode
  | keyword :: rest =>
      if Re.search_word keyword (lower task) then m
      else check_keywords rest task m mode
  end.

Definition detect_task_type (task : string) : string :=
  let mode := "auto" in
  let mode := check_keywords research_keywords task "multi" mode in
  let mode := check_keywords calc_keywords task "single" mode in
  let mode := check_keywords creative_keywords task "multi" mode in
  mode.

(** A category matches a task when one of its keywords is found. *)
Definition matches (kws : list string) (task : string) : bool :=
  existsb (fun keyword => Re.search_word keyword (lower task)) kws.

End Classifier.

(* ===================================================================== *)
(** * Python values, dictionaries and exceptions *)
(* ===================================================================== *)

Module Py.

(** The exceptions the modelled code can meet; all are subclasses of
    [Exception]. *)
Inductive exn : Type :=
| JSONDecodeError
| AttributeError
| TypeError
| KeyError
| OSError
| YAMLError
| ValueError
| RecursionError
| RuntimeError (msg : string).

Inductive result (A : Type) : Type :=
| Ok (a : A)
| Raise (e : exn).

Arguments Ok {A} a.
Arguments Raise {A} e.

Definition bind {A B : Type} (c : result A) (k : A -> result B) : result B :=
  match c with
  | Ok a => k a
  | Raise e => Raise e
  end.

(** [try: c  except Exception as e: h e] *)
Definition try_except {A : Type} (c : result A) (h : exn -> result A)
  : result A :=
  match c with
  | Ok a => Ok a
  | Raise e => h e
  end.

(** What [json.loads] and [yaml.safe_load] hand back.  A float is kept
    as a rational: the modelled code stores and copies floats and does no
    arithmetic on them beyond one subtraction of clock readings. *)
#[warnings="-register-all"]
Inductive value : Type :=
| VNone
| VBool (b : bool)
| VInt (z : Z)
| VFloat (q : Q)
| VStr (s : string)
| VList (l : list value)
| VDict (d : list (string * value)).

Definition dict : Type := list (string * value).

(** Induction over values that reaches the items of lists and dicts. *)
Section NestedInduction.
Variable P : value -> Prop.
Hypothesis HNone : P VNone.
Hypothesis HBool : forall b, P (VBool b).
Hypothesis HInt : forall z, P (VInt z).
Hypothesis HFloat : forall q, P (VFloat q).
Hypothesis HStr : forall s, P (VStr s).
Hypothesis HList : forall l, Forall P l -> P (VList l).
Hypothesis HDict : forall d, Forall (fun kv => P (snd kv)) d -> P (VDict d).

Fixpoint value_nested_ind (v : value) : P v :=
  match v with
  | VNone => HNone
  | VBool b => HBool b
  | VInt z => HInt z
  | VFloat q => HFloat q
  | VStr s => HStr s
  | VList l =>
      HList ((fix items (l : list value) : Forall P l :=
                match l with
                | [] => Forall_nil P
                | x :: rest =>
                    Forall_cons x (value_nested_ind x) (items rest)
                end) l)
  | VDict d =>
      HDict ((fix items (d : list (string * value))
              : Forall (fun kv => P (snd kv)) d :=
                match d with
                | [] => Forall_nil _
                | (k, x) :: rest =>
                    Forall_cons (k, x) (value_nested_ind x) (items rest)
                end) d)
  end.
End NestedInduction.

Definition keys (d : dict) : list string := map fst d.

(** [d[k]], when [k in d] *)
Fixpoint dict_lookup (k : string) (d : dict) : option value :=
  match d with
  | [] => None
  | (k', v) :: d' => if String.eqb k k' then Some v else dict_lookup k d'
  end.

(** [k in d] *)
Definition dict_mem (k : string) (d : dict) : bool :=
  match dict_lookup k d with Some _ => true | None => false end.

(** [d.get(k, dflt)] *)
Definition dict_get (k : string) (d : dict) (dflt : value) : value :=
  match dict_lookup k d with Some v => v | None => dflt end.

(** [d[k] = v]: an existing key keeps its place, a new one goes last. *)
Fixpoint dict_set (k : string) (v : value) (d : dict) : dict :=
  match d with
  | [] => [(k, v)]
  | (k', v') :: d' =>
      if String.eqb k k' then (k', v) :: d' else (k', v') :: dict_set k v d'
  end.

(** [x.get(k, dflt)] on an arbitrary value: only a dict has [get]. *)
Definition get (x : value) (k : string) (dflt : value) : result value :=
  match x with
  | VDict d => Ok (dict_get k d dflt)
  | _ => Raise AttributeError
  end.

Definition is_dict (x : value) : bool :=
  match x with VDict _ => true | _ => false end.

(** [lst[start:]]: a negative [start] counts from the end, and the
    bound is clipped to the list. *)
Definition slice_from {A : Type} (lst : list A) (start : Z) : list A :=
  let len := Z.of_nat (length lst) in
  let start := if (start <? 0)%Z then Z.max 0 (start + len)
               else Z.min start len in
  skipn (Z.to_nat start) lst.

End Py.

Declare Scope py_scope.
Delimit Scope py_scope with py.
Notation "x <- c ;; k" := (Py.bind c (fun x => k))
  (at level 61, c at next level, right associativity) : py_scope.

(* ===================================================================== *)
(** * [orchestrator.py]: [AgentOrchestrator] *)
(* ===================================================================== *)

Module Orchestrator.
Import Py.
Local Open Scope py_scope.

(** [_merge_configs(default, override)].  [default.copy()] is the start
    of [result]; [override.items()] raises [AttributeError] on anything
    but a dict; the loop body recurses when both sides are dicts. *)
Fixpoint _merge_configs (default : dict) (override : value) {struct override}
  : result dict :=
  match override with
  | VDict items =>
      (fix loop (result : dict) (items : dict) {struct items} : Py.result dict :=
         match items with
         | [] => Ok result
         | (key, value) :: rest =>
             match dict_lookup key result, value with
             | Some (VDict sub), VDict _ =>
                 merged <- _merge_configs sub value ;;
                 loop (dict_set key (VDict merged) result) rest
             | _, _ => loop (dict_set key value result) rest
             end
         end) default items
  | _ => Raise AttributeError
  end.

(** The loop of [_merge_configs] under a name of its own. *)
Fixpoint merge_items (result : dict) (items : dict) : Py.result dict :=
  match items with
  | [] => Ok result
  | (key, value) :: rest =>
      match dict_lookup key result, value with
      | Some (VDict sub), VDict _ =>
          merged <- _merge_configs sub value ;;
          merge_items (dict_set key (VDict merged) result) rest
      | _, _ => merge_items (dict_set key value result) rest
      end
  end.

Definition default_config : dict :=
  [ ("agent", VDict [ ("name", VStr "jafs");
                      ("mode", VStr "single");
                      ("max_iterations", VInt 10);
                      ("complexity_threshold", VInt 7) ]);
    ("memory", VDict [ ("short_term", VDict [ ("capacity", VInt 1000);
                                               ("ttl", VInt 3600) ]);
                       ("long_term", VDict [ ("enabled", VBool true);
                                              ("storage_path", VNone);
                                              ("index_in_memory", VBool true) ]) ]);
    ("models", VDict [ ("default", VDict [ ("provider", VStr "openai");
                                            ("model", VStr "gpt-4");
                                            ("temperature", VFloat 0) ]) ]);
    ("tools", VDict [ ("enabled", VList []) ]) ].

(** [_load_config(config_path)].  The file system is the environment:
    [path_exists] is [os.path.exists(config_path)] and [safe_load] the
    outcome of opening the file and running [yaml.safe_load] on it. *)
Definition _load_config (path_exists : bool) (safe_load : result value)
  : result dict :=
  if negb path_exists then Ok default_config
  else
    try_except
      (config <- safe_load ;;
       merged_config <- _merge_configs default_config config ;;
       _ <- (agent <- get (VDict merged_config) "agent" (VDict []) ;;
             get agent "mode" VNone) ;;
       Ok merged_config)
      (fun _ => Ok default_config).

(** A task record, the dict literal built by [execute_task]. *)
Record TaskRecord : Type := mkTaskRecord {
  task : string;
  mode : value;
  start_time : Q;
  execution_time : Q;
  status : string;
  result : value
}.

Section WithAgent.

(** The primary agent ([jafs.core.agent.HybridAgent]) is a collaborator:
    a state and an [execute] method that returns a result or raises. *)
Variable Agent : Type.
Variable agent_execute :
  Agent -> string -> value -> Agent * Py.result value.

(** The fields of the orchestrator the modelled methods touch. *)
Record State : Type := mkState {
  config : dict;
  primary_agent : Agent;
  last_result : value;
  task_history : list TaskRecord
}.

(** The end of [__init__]. *)
Definition init (cfg : dict) (agent : Agent) : State :=
  mkState cfg agent (VDict []) [].

(** [execute_task(task, mode)]; [t0] and [t1] are the two readings of
    [time.time()].  The state comes back also when the call raises. *)
Definition execute_task (self : State) (task : string) (mode : value)
           (t0 t1 : Q) : State * Py.result value :=
  let mode_r :=
    match mode with
    | VNone => agent <- get (VDict (config self)) "agent" (VDict []) ;;
               get agent "mode" (VStr "single")
    | _ => Ok mode
    end in
  match mode_r with
  | Raise e => (self, Raise e)
  | Ok mode =>
      let start_time := t0 in
      match agent_execute (primary_agent self) task mode with
      | (agent', Raise e) =>
          (mkState (config self) agent' (last_result self)
                   (task_history self), Raise e)
      | (agent', Ok result) =>
          let execution_time := (t1 - start_time)%Q in
          let task_record :=
            mkTaskRecord task mode start_time execution_time
                         "completed" result in
          (mkState (config self) agent' result
                   (task_history self ++ [task_record]), Ok result)
      end
  end.

(** [get_task_history(limit)] is [self.task_history[-limit:]]. *)
Definition get_task_history (self : State) (limit : Z) : list TaskRecord :=
  slice_from (task_history self) (- limit).

(** The states an orchestrator goes through: built by [__init__], then
    any number of [execute_task] calls. *)
Inductive reachable : State -> Prop :=
| reach_init : forall cfg agent, reachable (init cfg agent)
| reach_exec : forall self task mode t0 t1,
    reachable self ->
    reachable (fst (execute_task self task mode t0 t1)).

End WithAgent.

End Orchestrator.

(* ===================================================================== *)
(** * [ollama_model.py]: recovering JSON and tool calls from a completion *)
(* ===================================================================== *)

Module OllamaModel.
Import Py PyStr.

Definition nl : string := String newline EmptyString.
Definition fence : string := "```".
Definition fence_json : string := "```json".

(** A normalized tool call, the dict with keys [id], [name] and
    [arguments]; the last two are copied from the payload as they are. *)
Record ToolCall : Type := mkToolCall {
  id : string;
  name : value;
  arguments : value
}.

(** What [generate_with_tools] returns. *)
Record Extraction : Type := mkExtraction {
  content : string;
  tool_calls : list ToolCall
}.

(** The state of the loop that collects fenced blocks. *)
Record Scan : Type := mkScan {
  in_json_block : bool;
  json_content : string;
  json_blocks : list string
}.

Definition is_fence_line (line : string) : bool :=
  String.eqb (strip line) fence_json || String.eqb (strip line) fence.

Definition scan_line (st : Scan) (line : string) : Scan :=
  if is_fence_line line then
    if in_json_block st
    then mkScan false EmptyString (json_blocks st ++ [json_content st])
    else mkScan true (json_content st) (json_blocks st)
  else if in_json_block st
  then mkScan true (json_content st ++ line ++ nl) (json_blocks st)
  else st.

(** The loop [for line in response_text.split(newline)]. *)
Definition find_json_blocks (response_text : string) : list string :=
  json_blocks
    (fold_left scan_line (split_lines response_text)
               (mkScan false EmptyString [])).

(** [k in data] *)
Definition py_in (k : string) (data : value) : result bool :=
  match data with
  | VDict d => Ok (dict_mem k d)
  | VList l =>
      Ok (existsb (fun x => match x with
                            | VStr s => String.eqb s k
                            | _ => false
                            end) l)
  | VStr s => Ok (contains k s)
  | _ => Raise TypeError
  end.

(** [data[k]] for a string [k] *)
Definition getitem (data : value) (k : string) : result value :=
  match data with
  | VDict d =>
      match dict_lookup k d with
      | Some v => Ok v
      | None => Raise KeyError
      end
  | _ => Raise TypeError
  end.

(** The items [for x in v] goes through. *)
Definition iterate (v : value) : result (list value) :=
  match v with
  | VList l => Ok l
  | VDict d => Ok (map VStr (keys d))
  | VStr s =>
      Ok (map (fun c => VStr (String c EmptyString)) (list_ascii_of_string s))
  | _ => Raise TypeError
  end.

Definition call_id (n : nat) : string := "call_" ++ of_nat n.

(** The loop [for tool_call in data["tool_calls"]].  The calls appended
    before an entry raises stay in the list. *)
Fixpoint add_tool_calls (entries : list value) (tool_calls : list ToolCall)
  : list ToolCall * result unit :=
  match entries with
  | [] => (tool_calls, Ok tt)
  | tool_call :: rest =>
      match get tool_call "name" (VStr EmptyString) with
      | Raise e => (tool_calls, Raise e)
      | Ok nm =>
          match get tool_call "arguments" (VDict []) with
          | Raise e => (tool_calls, Raise e)
          | Ok args =>
              let normalized_tool_call :=
                mkToolCall (call_id (length tool_calls)) nm args in
              add_tool_calls rest (tool_calls ++ [normalized_tool_call])
          end
      end
  end.

(** The ids of a list of calls are [call_0], [call_1], ... in order. *)
Definition ids_in_order (calls : list ToolCall) : Prop :=
  map id calls = map call_id (seq 0 (length calls)).

(** The spec's wording of the normalization: the entries of one payload,
    all of them mappings, numbered from [n] on. *)
Fixpoint normalized (n : nat) (entries : list dict) : list ToolCall :=
  match entries with
  | [] => []
  | entry :: rest =>
      mkToolCall (call_id n)
                 (dict_get "name" entry (VStr EmptyString))
                 (dict_get "arguments" entry (VDict []))
      :: normalized (S n) rest
  end.

(** The entries of an array before its first entry that is not a
    mapping. *)
Fixpoint leading_mappings (entries : list value) : list dict :=
  match entries with
  | VDict entry :: rest => entry :: leading_mappings rest
  | _ => []
  end.

(** The two [content.replace(..., empty)] of a consumed block. *)
Definition remove_block (content json_block : string) : string :=
  let content :=
    replace content (fence_json ++ nl ++ json_block ++ nl ++ fence)
            EmptyString in
  replace content (fence ++ nl ++ json_block ++ nl ++ fence) EmptyString.

Section WithJson.

(** [json.loads] on a [str]: [None] stands for an exception, whichever
    it is. *)
Variable json_loads : string -> option value.
(** The exception [json.loads] raises on a text it does not read: a
    [JSONDecodeError] for text that is not JSON, a plain [ValueError] for
    an integer literal of more digits than [int] converts, a
    [RecursionError] for nesting deeper than the interpreter's stack. *)
Variable json_error : string -> exn.
(** [json.dumps] *)
Variable json_dumps : value -> string.

(** [json_blocks] after the fallback to the whole response. *)
Definition candidate_blocks (response_text : string) : list string :=
  match find_json_blocks response_text with
  | [] =>
      match json_loads response_text with
      | Some json_data => [json_dumps json_data]
      | None => []
      end
  | blocks => blocks
  end.

(** The body of [for json_block in json_blocks], whose [try] is left
    with [continue] by any exception. *)
Definition process_block (st : list ToolCall * string) (json_block : string)
  : list ToolCall * string :=
  let (tool_calls, content) := st in
  match json_loads json_block with
  | None => st
  | Some data =>
      match py_in "tool_calls" data with
      | Raise _ => st
      | Ok false => st
      | Ok true =>
          match bind (getitem data "tool_calls") iterate with
          | Raise _ => st
          | Ok entries =>
              match add_tool_calls entries tool_calls with
              | (tool_calls', Raise _) => (tool_calls', content)
              | (tool_calls', Ok _) =>
                  (tool_calls', remove_block content json_block)
              end
          end
      end
  end.

Definition parses (json_block : string) : bool :=
  match json_loads json_block with Some _ => true | None => false end.

(** The entries of a candidate payload that become tool calls, in
    words: the payload parses to a mapping whose [tool_calls] is an
    array, and the entries are those of the array before its first entry
    that is not a mapping.  Any other payload has none. *)
Definition payload_entries (json_block : string) : list dict :=
  match json_loads json_block with
  | Some (VDict d) =>
      match dict_lookup "tool_calls" d with
      | Some (VList entries) => leading_mappings entries
      | _ => []
      end
  | _ => []
  end.

(** [generate_with_tools], from the completion [response_text] that
    [self.generate] returned. *)
Definition generate_with_tools (response_text : string) : Extraction :=
  let (tool_calls, content) :=
    fold_left process_block (candidate_blocks response_text)
              ([], response_text) in
  mkExtraction (strip content) tool_calls.

Definition parse_error : value :=
  VDict [("error", VStr "Failed to parse JSON response")].

(** The loop over the lines that start with an opening and end with a
    closing brace. *)
Fixpoint first_brace_line (lines : list string) : option value :=
  match lines with
  | [] => None
  | line :: rest =>
      if startswith (strip line) "{" && endswith (strip line) "}"
      then match json_loads (strip line) with
           | Some v => Some v
           | None => first_brace_line rest
           end
      else first_brace_line rest
  end.

(** The spec's second strategy on one line: a line that, stripped,
    starts with an opening and ends with a closing brace is parsed. *)
Definition brace_line_parse (line : string) : option value :=
  if startswith (strip line) "{" && endswith (strip line) "}"
  then json_loads (strip line)
  else None.

(** The loop over the fenced blocks. *)
Fixpoint first_block (blocks : list string) : option value :=
  match blocks with
  | [] => None
  | json_block :: rest =>
      match json_loads json_block with
      | Some v => Some v
      | None => first_block rest
      end
  end.

(** The strategies after [except json.JSONDecodeError:]; their own
    [try] blocks have a bare [except:] and go on after any exception. *)
Definition extract_json_fallback (response_text : string) : value :=
  match first_brace_line (split_lines response_text) with
  | Some v => v
  | None =>
      match first_block (find_json_blocks response_text) with
      | Some v => v
      | None => parse_error
      end
  end.

(** [extract_json], from the completion [response_text].  The first
    [json.loads] stands under [except json.JSONDecodeError:] only, so that
    any other exception of it leaves the method. *)
Definition extract_json (response_text : string) : result value :=
  match json_loads response_text with
  | Some v => Ok v
  | None =>
      match json_error response_text with
      | JSONDecodeError => Ok (extract_json_fallback response_text)
      | e => Raise e
      end
  end.

End WithJson.

End OllamaModel.

(* ===================================================================== *)
(** * A JSON reader and writer for the sample completions *)
(* ===================================================================== *)

(** [json.loads] and [json.dumps] belong to Python's library and stay
    parameters of the model above.  To run the model on sample completions
    this module reads and writes a fragment of JSON: objects, arrays,
    strings with the one-letter escapes, integers and the three literals.
    On that fragment it gives what [json.loads] and [json.dumps] give,
    the exception of [json.loads] included: a [JSONDecodeError] for text
    that is not JSON, the [ValueError] of [int] for an integer literal of
    more than 4300 digits. *)

Module SimpleJson.
Import Py PyStr.

Definition dquote : ascii := "034"%char.
Definition backslash : ascii := "092"%char.

(** Sample texts are written with an apostrophe where the text has a
    double quote. *)
Fixpoint lit (s : string) : string :=
  match s with
  | EmptyString => EmptyString
  | String c s' =>
      String (if Ascii.eqb c "'"%char then dquote else c) (lit s')
  end.

Definition is_json_ws (c : ascii) : bool :=
  Ascii.eqb c " "%char || Ascii.eqb c "009"%char ||
  Ascii.eqb c "010"%char || Ascii.eqb c "013"%char.

Fixpoint skip_ws (s : string) : string :=
  match s with
  | EmptyString => EmptyString
  | String c s' => if is_json_ws c then skip_ws s' else s
  end.

Definition unescape (c : ascii) : option ascii :=
  if Ascii.eqb c dquote then Some dquote
  else if Ascii.eqb c backslash then Some backslash
  else if Ascii.eqb c "/"%char then Some "/"%char
  else if Ascii.eqb c "b"%char then Some "008"%char
  else if Ascii.eqb c "f"%char then Some "012"%char
  else if Ascii.eqb c "n"%char then Some "010"%char
  else if Ascii.eqb c "r"%char then Some "013"%char
  else if Ascii.eqb c "t"%char then Some "009"%char
  else None.

(** The characters of a string literal after its opening quote. *)
Fixpoint parse_string_body (s : string) : option (string * string) :=
  match s with
  | EmptyString => None
  | String c rest =>
      if Ascii.eqb c dquote then Some (EmptyString, rest)
      else if Ascii.eqb c backslash then
        match rest with
        | EmptyString => None
        | String e rest' =>
            match unescape e, parse_string_body rest' with
            | Some ch, Some (str, r) => Some (String ch str, r)
            | _, _ => None
            end
        end
      else if Nat.ltb (nat_of_ascii c) 32 then None
      else match parse_string_body rest with
           | Some (str, r) => Some (String c str, r)
           | None => None
           end
  end.

Definition digit_val (c : ascii) : Z := Z.of_nat (nat_of_ascii c - 48).

Fixpoint parse_digits (acc : Z) (s : string) : Z * string :=
  match s with
  | String c rest =>
      if is_digit c then parse_digits (10 * acc + digit_val c) rest
      else (acc, s)
  | EmptyString => (acc, s)
  end.

(** The length of the digit run a text starts with. *)
Fixpoint count_digits (s : string) : nat :=
  match s with
  | String c rest => if is_digit c then S (count_digits rest) else 0
  | EmptyString => 0
  end.

(** [sys.get_int_max_str_digits()]: [int] refuses a longer digit run with
    a [ValueError], which is not a [JSONDecodeError]. *)
Definition max_str_digits : nat := 4300.

(** An integer: an optional minus, then a zero or a digit run without a
    leading zero.  A fraction or exponent is outside the fragment.  The
    last component is the number of digits read. *)
Definition parse_nat_part (s : string) : result (Z * string * nat) :=
  match s with
  | String c rest =>
      if Ascii.eqb c "0"%char then Ok (0%Z, rest, 1)
      else if is_digit c
      then Ok (parse_digits 0 s, count_digits s)
      else Raise JSONDecodeError
  | EmptyString => Raise JSONDecodeError
  end.

Definition no_fraction (r : string) : bool :=
  match r with
  | String c _ =>
      negb (Ascii.eqb c "."%char || Ascii.eqb c "e"%char
            || Ascii.eqb c "E"%char)
  | EmptyString => true
  end.

Definition parse_int (s : string) : result (value * string) :=
  let signed :=
    match s with
    | String c rest =>
        if Ascii.eqb c "-"%char
        then match parse_nat_part rest with
             | Ok (n, r, digits) => Ok ((- n)%Z, r, digits)
             | Raise e => Raise e
             end
        else parse_nat_part s
    | EmptyString => Raise JSONDecodeError
    end in
  match signed with
  | Ok (n, r, digits) =>
      if no_fraction r
      then if Nat.leb digits max_str_digits
           then Ok (VInt n, r)
           else Raise ValueError
      else Raise JSONDecodeError
  | Raise e => Raise e
  end.

Definition parse_literal (s : string) : result (value * string) :=
  match strip_prefix "true" s with
  | Some r => Ok (VBool true, r)
  | None =>
      match strip_prefix "false" s with
      | Some r => Ok (VBool false, r)
      | None =>
          match strip_prefix "null" s with
          | Some r => Ok (VNone, r)
          | None => parse_int s
          end
      end
  end.

Fixpoint parse_value (fuel : nat) (s : string) : result (value * string) :=
  match fuel with
  | O => Raise JSONDecodeError
  | S fuel =>
      match s with
      | EmptyString => Raise JSONDecodeError
      | String c rest =>
          if Ascii.eqb c "{"%char then
            match skip_ws rest with
            | EmptyString => Raise JSONDecodeError
            | String c' r as body =>
                if Ascii.eqb c' "}"%char then Ok (VDict [], r)
                else parse_members fuel body []
            end
          else if Ascii.eqb c "["%char then
            match skip_ws rest with
            | EmptyString => Raise JSONDecodeError
            | String c' r as body =>
                if Ascii.eqb c' "]"%char then Ok (VList [], r)
                else parse_elements fuel body []
            end
          else if Ascii.eqb c dquote then
            match parse_string_body rest with
            | Some (str, r) => Ok (VStr str, r)
            | None => Raise JSONDecodeError
            end
          else parse_literal s
      end
  end

with parse_elements (fuel : nat) (s : string) (acc : list value)
     : result (value * string) :=
  match fuel with
  | O => Raise JSONDecodeError
  | S fuel =>
      match parse_value fuel s with
      | Raise e => Raise e
      | Ok (v, r) =>
          match skip_ws r with
          | EmptyString => Raise JSONDecodeError
          | String c r' =>
              if Ascii.eqb c ","%char
              then parse_elements fuel (skip_ws r') (acc ++ [v])
              else if Ascii.eqb c "]"%char
              then Ok (VList (acc ++ [v]), r')
              else Raise JSONDecodeError
          end
      end
  end

with parse_members (fuel : nat) (s : string) (acc : dict)
     : result (value * string) :=
  match fuel with
  | O => Raise JSONDecodeError
  | S fuel =>
      match s with
      | EmptyString => Raise JSONDecodeError
      | String q r =>
          if negb (Ascii.eqb q dquote) then Raise JSONDecodeError
          else
            match parse_string_body r with
            | None => Raise JSONDecodeError
            | Some (k, r1) =>
                match skip_ws r1 with
                | EmptyString => Raise JSONDecodeError
                | String c r2 =>
                    if negb (Ascii.eqb c ":"%char) then Raise JSONDecodeError
                    else
                      match parse_value fuel (skip_ws r2) with
                      | Raise e => Raise e
                      | Ok (v, r3) =>
                          match skip_ws r3 with
                          | EmptyString => Raise JSONDecodeError
                          | String c' r4 =>
                              if Ascii.eqb c' ","%char
                              then parse_members fuel (skip_ws r4)
                                                 (dict_set k v acc)
                              else if Ascii.eqb c' "}"%char
                              then Ok (VDict (dict_set k v acc), r4)
                              else Raise JSONDecodeError
                          end
                      end
                end
            end
      end
  end.

(** A whole document, one value between optional blanks, with the
    exception [json.loads] leaves with when it does not read the text. *)
Definition loads_result (s : string) : result value :=
  match parse_value (2 * String.length s + 2) (skip_ws s) with
  | Ok (v, r) =>
      match skip_ws r with
      | EmptyString => Ok v
      | _ => Raise JSONDecodeError
      end
  | Raise e => Raise e
  end.

(** [json.loads] under a handler that catches every exception. *)
Definition loads (s : string) : option value :=
  match loads_result s with
  | Ok v => Some v
  | Raise _ => None
  end.

(** The exception of a text [loads] does not read. *)
Definition error (s : string) : exn :=
  match loads_result s with
  | Ok _ => JSONDecodeError
  | Raise e => e
  end.

Definition escape_char (c : ascii) : string :=
  if Ascii.eqb c dquote then String backslash (String dquote EmptyString)
  else if Ascii.eqb c backslash
  then String backslash (String backslash EmptyString)
  else if Ascii.eqb c "010"%char then String backslash "n"
  else if Ascii.eqb c "013"%char then String backslash "r"
  else if Ascii.eqb c "009"%char then String backslash "t"
  else String c EmptyString.

Fixpoint escape (s : string) : string :=
  match s with
  | EmptyString => EmptyString
  | String c s' => escape_char c ++ escape s'
  end.

Definition quoted (s : string) : string :=
  String dquote (escape s ++ String dquote EmptyString).

Definition dumps_int (z : Z) : string :=
  match z with
  | Zneg p => "-" ++ of_nat (Pos.to_nat p)
  | _ => of_nat (Z.to_nat z)
  end.

(** [json.dumps] with its default separators. *)
Fixpoint dumps (v : value) : string :=
  match v with
  | VNone => "null"
  | VBool true => "true"
  | VBool false => "false"
  | VInt z => dumps_int z
  | VFloat q =>
      (dumps_int (Qnum q) ++ "/" ++ of_nat (Pos.to_nat (Qden q)))%string
  | VStr s => quoted s
  | VList l =>
      let items :=
        (fix items (l : list value) : string :=
           match l with
           | [] => EmptyString
           | [x] => dumps x
           | x :: rest => (dumps x ++ ", " ++ items rest)%string
           end) in
      ("[" ++ items l ++ "]")%string
  | VDict d =>
      let items :=
        (fix items (d : list (string * value)) : string :=
           match d with
           | [] => EmptyString
           | [(k, x)] => (quoted k ++ ": " ++ dumps x)%string
           | (k, x) :: rest =>
               (quoted k ++ ": " ++ dumps x ++ ", " ++ items rest)%string
           end) in
      ("{" ++ items d ++ "}")%string
  end.

End SimpleJson.

(* ===================================================================== *)
(** * [direct_response.py]: [DirectResponseTool] *)
(* ===================================================================== *)

Module DirectResponse.
Import Py PyStr.
Local Open Scope string_scope.
Local Open Scope py_scope.

(** Modelled from the spec: the class [ToolResult] of
    [jafs.tools.base.tool_result] is not among the sources; the spec
    gives it the three fields [success], [message] and [data]. *)
Record ToolResult : Type := mkToolResult {
  success : bool;
  message : string;
  data : value
}.

Definition creative_keywords : list string :=
  ["write"; "compose"; "create"; "generate"; "draft";
   "poem"; "story"; "essay"; "article"; "letter";
   "song"; "lyrics"; "script"; "dialogue"; "narrative";
   "fiction"; "creative"; "imagine"; "fantasy"].

(** The loop of [_is_creative_task]. *)
Fixpoint any_keyword (kws : list string) (prompt : string) : bool :=
  match kws with
  | [] => false
  | keyword :: rest =>
      if Re.search_word keyword (lower prompt) then true
      else any_keyword rest prompt
  end.

Definition _is_creative_task (prompt : string) : bool :=
  any_keyword creative_keywords prompt.

(** The spec's wording: some creative keyword occurs in the prompt as a
    whole word, whatever the case of the letters. *)
Definition has_creative_keyword (prompt : string) : bool :=
  existsb (fun keyword => Re.search_word keyword (lower prompt))
          creative_keywords.

Definition _determine_task_type (prompt : string) : string :=
  if contains "poem" (lower prompt) then "poem"
  else if contains "story" (lower prompt) then "story"
  else if contains "essay" (lower prompt) then "essay"
  else if contains "article" (lower prompt) then "article"
  else if contains "letter" (lower prompt) then "letter"
  else if contains "song" (lower prompt) || contains "lyrics" (lower prompt)
  then "song"
  else if contains "script" (lower prompt) then "script"
  else if contains "dialogue" (lower prompt) then "dialogue"
  else "creative text".

(** The longest prefix of [s] in the class [p], and what follows it. *)
Fixpoint span (p : ascii -> bool) (s : string) : string * string :=
  match s with
  | EmptyString => (EmptyString, EmptyString)
  | String c s' =>
      if p c then let (run, rest) := span p s' in (String c run, rest)
      else (EmptyString, s)
  end.

(** The greedy repetition of "blanks, then a word" at the start of [s]:
    the starred group that ends the topic pattern. *)
Fixpoint more_words (fuel : nat) (s : string) : string :=
  match fuel with
  | O => EmptyString
  | S fuel =>
      let (blanks, r) := span is_space s in
      let (word, r') := span is_word r in
      match blanks, word with
      | String _ _, String _ _ => blanks ++ word ++ more_words fuel r'
      | _, _ => EmptyString
      end
  end.

(** What follows the alternation in the topic pattern: blanks, then
    group 1, a word followed by any number of "blanks, then a word". *)
Definition topic_after (s : string) : option string :=
  let (blanks, r) := span is_space s in
  let (word, r') := span is_word r in
  match blanks, word with
  | String _ _, String _ _ =>
      Some (word ++ more_words (String.length r') r')
  | _, _ => None
  end.

(** The topic pattern of [_create_context_prompt], one of [about], [on],
    [regarding] and then [topic_after], matched at the start of [s]; the
    alternatives are tried in their order. *)
Fixpoint topic_at (alts : list string) (s : string) : option string :=
  match alts with
  | [] => None
  | alt :: rest =>
      match strip_prefix alt s with
      | Some after =>
          match topic_after after with
          | Some t => Some t
          | None => topic_at rest s
          end
      | None => topic_at rest s
      end
  end.

(** [re.search] of that pattern: the leftmost position that matches. *)
Fixpoint topic_search (s : string) : option string :=
  match topic_at ["about"; "on"; "regarding"] s with
  | Some t => Some t
  | None =>
      match s with
      | EmptyString => None
      | String _ s' => topic_search s'
      end
  end.

Definition _create_context_prompt (prompt task_type : string) : string :=
  let topic :=
    match topic_search (lower prompt) with
    | Some t => t
    | None => EmptyString
    end in
  if String.eqb task_type "poem" then
    "You are a skilled poet. Write a beautiful and thoughtful poem about "
    ++ topic ++ ". Be creative and expressive."
  else if String.eqb task_type "story" then
    "You are a talented storyteller. Write an engaging short story about "
    ++ topic ++ ". Include interesting characters and a compelling plot."
  else if String.eqb task_type "essay" then
    "You are an insightful essayist. Write a thoughtful essay about "
    ++ topic ++ ". Present clear arguments and support them with evidence."
  else if String.eqb task_type "article" then
    "You are a professional journalist. Write an informative article about "
    ++ topic ++ ". Present facts clearly and objectively."
  else if String.eqb task_type "letter" then
    "You are a skilled letter writer. Write a heartfelt letter about "
    ++ topic ++ ". Express your thoughts and feelings clearly."
  else if String.eqb task_type "song" || String.eqb task_type "lyrics" then
    "You are a talented songwriter. Write lyrics for a song about "
    ++ topic ++ ". Be creative and expressive."
  else if String.eqb task_type "script" then
    "You are an experienced screenwriter. Write a script about "
    ++ topic ++ ". Include engaging dialogue and clear stage directions."
  else if String.eqb task_type "dialogue" then
    "You are a skilled dialogue writer. Write a dialogue about "
    ++ topic ++ ". Make the conversation flow naturally and reveal character."
  else
    "You are a creative writer. Write a thoughtful and engaging piece about "
    ++ topic ++ ". Be creative and expressive.".

(** [prompt.lower()], the first thing done with the prompt: it raises
    [AttributeError] unless the prompt is a [str]. *)
Definition as_str (x : value) : result string :=
  match x with
  | VStr s => Ok s
  | _ => Raise AttributeError
  end.

Definition _execute (parameters : dict) : result ToolResult :=
  prompt <- as_str (dict_get "prompt" parameters (VStr EmptyString)) ;;
  if negb (_is_creative_task prompt) then
    Ok (mkToolResult false
          "This doesn't seem to be a creative task. Please try a different tool."
          VNone)
  else
    let task_type := _determine_task_type prompt in
    let context_prompt := _create_context_prompt prompt task_type in
    let response :=
      "This is where the language model would generate a " ++ task_type
      ++ " based on: " ++ prompt in
    Ok (mkToolResult true
          (capitalize task_type ++ " generated successfully")
          (VDict [("content", VStr response)])).

End DirectResponse.

(* ===================================================================== *)
(** * Sample data *)
(* ===================================================================== *)

Module Samples.
Import Py PyStr.

(** An agent without state whose every run reports a failure. *)
Definition failing_agent (_ : unit) (_ : string) (_ : value)
  : unit * result value :=
  (tt, Ok (VDict [("status", VStr "failed")])).

(** An orchestrator after one task. *)
Definition after_one_task : Orchestrator.State unit :=
  fst (Orchestrator.execute_task failing_agent
         (Orchestrator.init Orchestrator.default_config tt)
         "calculate 2 + 2" VNone 0 1).

(** An override that changes one nested option and adds a section. *)
Definition override_config : dict :=
  [ ("agent", VDict [ ("mode", VStr "multi") ]);
    ("tools", VList [ VStr "search" ]);
    ("specialized_agents", VDict [ ("roles", VList [ VStr "critic" ]) ]) ].

(** A completion with one fenced block that holds one tool call. *)
Definition completion_one_call : string := SimpleJson.lit
"Sure!
```json
{'tool_calls':[{'name':'search','arguments':{'q':'cats'}}]}
```".

(** The fenced block of [completion_one_call], markers included. *)
Definition fenced_block_one_call : string := SimpleJson.lit
"```json
{'tool_calls':[{'name':'search','arguments':{'q':'cats'}}]}
```".

(** A completion whose only fenced block is not JSON. *)
Definition completion_malformed : string := SimpleJson.lit
"  Let me think.
```json
{'tool_calls': [
```
".

(** Two payloads, the second with entries that leave fields out. *)
Definition completion_two_blocks : string := SimpleJson.lit
"```
{'tool_calls':[{'name':'a'}]}
```
text
```json
{'tool_calls':[{}, {'arguments': 3}]}
```".

(** A reply with words around a one-line object and a fenced one. *)
Definition completion_brace_line : string := SimpleJson.lit
"Here you go:
  {'city': 'Oslo', 'population': 700000}
```json
{'city': 'Bergen'}
```".

(** A reply with a fenced object only. *)
Definition completion_fenced_only : string := SimpleJson.lit
"The record:
```
{'city':
 'Bergen'}
```".

(** A reply without any JSON. *)
Definition completion_plain : string := "I cannot answer that.".

End Samples.

(* ===================================================================== *)
(** * [orchestrator.py]: building the agents and reading the state *)
(* ===================================================================== *)

Module OrchestratorSetup.
Import Py.
Local Open Scope py_scope.

(** [get_last_result()] *)
Definition get_last_result {Agent : Type} (self : Orchestrator.State Agent)
  : value :=
  Orchestrator.last_result self.

(** The truth value Python gives an object in [if x] and [not x]. *)
Definition truthy (x : value) : bool :=
  match x with
  | VNone => false
  | VBool b => b
  | VInt z => negb (Z.eqb z 0)
  | VFloat q => negb (Qeq_bool q 0)
  | VStr s => negb (String.eqb s EmptyString)
  | VList l => match l with [] => false | _ :: _ => true end
  | VDict d => match d with [] => false | _ :: _ => true end
  end.

(** [len(x)]: only strings, lists and dicts are sized. *)
Definition py_len (x : value) : result nat :=
  match x with
  | VStr s => Ok (String.length s)
  | VList l => Ok (length l)
  | VDict d => Ok (length d)
  | _ => Raise TypeError
  end.

(** Modelled from the spec: the classes [ShortTermMemory] and
    [LongTermMemory] of [jafs.core.memory] are not among the sources; a
    memory is kept as the arguments its constructor is called with. *)
Record ShortTermMemory : Type := mkShortTermMemory {
  capacity : value;
  ttl : value
}.

Record LongTermMemory : Type := mkLongTermMemory {
  storage_path : value;
  index_in_memory : value
}.

(** [self.config.get("memory", {}).get(section, {})] *)
Definition memory_section (config : dict) (section : string) : result value :=
  memory <- get (VDict config) "memory" (VDict []) ;;
  get memory section (VDict []).

Definition _create_short_term_memory (config : dict) : result ShortTermMemory :=
  memory_config <- memory_section config "short_term" ;;
  capacity <- get memory_config "capacity" (VInt 1000) ;;
  ttl <- get memory_config "ttl" (VInt 3600) ;;
  Ok (mkShortTermMemory capacity ttl).

(** [None] is the Python [None] returned when the memory is disabled. *)
Definition _create_long_term_memory (config : dict)
  : result (option LongTermMemory) :=
  memory_config <- memory_section config "long_term" ;;
  enabled <- get memory_config "enabled" (VBool true) ;;
  if negb (truthy enabled) then Ok None
  else
    storage_path <- get memory_config "storage_path" VNone ;;
    index_in_memory <- get memory_config "index_in_memory" (VBool true) ;;
    Ok (Some (mkLongTermMemory storage_path index_in_memory)).

(** Modelled from the spec: the class [HybridAgent] of [jafs.core.agent]
    is not among the sources.  A specialized agent is kept as the three
    attributes [_create_specialized_agents] assigns, the primary agent as
    the attributes the orchestrator reads: its [max_iterations] and the
    mapping [specialized_agents] from a role to its agent, one agent
    object per role. *)
Record RoleAgent : Type := mkRoleAgent {
  role_name : value;
  role_max_iterations : value;
  role_tools : value
}.

Record HybridAgent : Type := mkHybridAgent {
  max_iterations : value;
  specialized_agents : list (string * RoleAgent)
}.

Fixpoint role_lookup (role : string) (agents : list (string * RoleAgent))
  : option RoleAgent :=
  match agents with
  | [] => None
  | (r, a) :: rest => if String.eqb role r then Some a else role_lookup role rest
  end.

(** The assignments to the attributes of [specialized_agents[role]]. *)
Fixpoint role_update (role : string) (a' : RoleAgent)
         (agents : list (string * RoleAgent)) : list (string * RoleAgent) :=
  match agents with
  | [] => []
  | (r, a) :: rest =>
      if String.eqb role r then (r, a') :: rest
      else (r, a) :: role_update role a' rest
  end.

Definition default_roles : value :=
  VList [VStr "researcher"; VStr "planner"; VStr "executor"; VStr "critic"].

(** [self.config.get("tools", {}).get("enabled", [])] *)
Definition enabled_tools (config : dict) : result value :=
  tools_config <- get (VDict config) "tools" (VDict []) ;;
  get tools_config "enabled" (VList []).

(** The body of the loop [for role in roles].  A role that is a list or
    a dict cannot be looked up in a dict ([TypeError]); any other role
    that is not a string is not among the roles of the primary agent. *)
Definition configure_role (config specialized_config : dict)
           (primary_max_iterations : value)
           (agents : list (string * RoleAgent)) (role : value)
  : list (string * RoleAgent) * result unit :=
  match role with
  | VList _ | VDict _ => (agents, Raise TypeError)
  | VStr r =>
      match role_lookup r agents with
      | None => (agents, Ok tt)
      | Some agent =>
          let role_config := dict_get r specialized_config (VDict []) in
          match enabled_tools config with
          | Raise e => (agents, Raise e)
          | Ok enabled =>
              let default_role_config :=
                [ ("name", VStr (r ++ "-agent"));
                  ("max_iterations", primary_max_iterations);
                  ("tools", enabled) ] in
              match Orchestrator._merge_configs default_role_config role_config
              with
              | Raise e => (agents, Raise e)
              | Ok merged_config =>
                  let agent' :=
                    mkRoleAgent
                      (dict_get "name" merged_config (role_name agent))
                      (dict_get "max_iterations" merged_config
                                (role_max_iterations agent))
                      (match dict_lookup "tools" merged_config with
                       | Some tools => tools
                       | None => role_tools agent
                       end) in
                  (role_update r agent' agents, Ok tt)
              end
          end
      end
  | _ => (agents, Ok tt)
  end.

(** The loop itself: the agents configured before a role raises stay
    configured. *)
Fixpoint configure_roles (config specialized_config : dict)
         (primary_max_iterations : value)
         (agents : list (string * RoleAgent)) (roles : list value)
  : list (string * RoleAgent) * result unit :=
  match roles with
  | [] => (agents, Ok tt)
  | role :: rest =>
      match configure_role config specialized_config primary_max_iterations
                           agents role with
      | (agents', Raise e) => (agents', Raise e)
      | (agents', Ok _) =>
          configure_roles config specialized_config primary_max_iterations
                          agents' rest
      end
  end.

(** [_create_specialized_agents(primary_agent)]: the primary agent comes
    back with its specialized agents updated in place. *)
Definition _create_specialized_agents (config : dict) (primary_agent : HybridAgent)
  : HybridAgent * result unit :=
  match dict_get "specialized_agents" config (VDict []) with
  | VDict specialized_config =>
      match OllamaModel.iterate
              (dict_get "roles" specialized_config default_roles) with
      | Raise e => (primary_agent, Raise e)
      | Ok roles =>
          let (agents, r) :=
            configure_roles config specialized_config
                            (max_iterations primary_agent)
                            (specialized_agents primary_agent) roles in
          (mkHybridAgent (max_iterations primary_agent) agents, r)
      end
  | _ => (primary_agent, Raise AttributeError)
  end.

(** [x == s] for a string [s] *)
Definition eq_str (x : value) (s : string) : bool :=
  match x with
  | VStr t => String.eqb t s
  | _ => false
  end.

(** [hash(x)] raises [TypeError] for a list or a dict. *)
Definition hashable (x : value) : bool :=
  match x with
  | VList _ | VDict _ => false
  | _ => true
  end.

Section WithConstructor.

(** The constructor [HybridAgent(name, max_iterations, tools, mode,
    complexity_threshold, short_term_memory, long_term_memory)]. *)
Variable new_hybrid_agent :
  value -> value -> value -> value -> value ->
  ShortTermMemory -> option LongTermMemory -> HybridAgent.

(** [_create_primary_agent()]: the agent and the name it is registered
    under in [self.agents]. *)
Definition _create_primary_agent (config : dict)
  : result (value * HybridAgent) :=
  agent_config <- get (VDict config) "agent" (VDict []) ;;
  name <- get agent_config "name" (VStr "jafs") ;;
  mode <- get agent_config "mode" (VStr "single") ;;
  max_iterations <- get agent_config "max_iterations" (VInt 10) ;;
  complexity_threshold <- get agent_config "complexity_threshold" (VInt 7) ;;
  enabled <- enabled_tools config ;;
  short_term_memory <- _create_short_term_memory config ;;
  long_term_memory <- _create_long_term_memory config ;;
  let agent :=
    new_hybrid_agent name max_iterations enabled mode complexity_threshold
                     short_term_memory long_term_memory in
  _ <- py_len enabled ;;
  agent <- (if eq_str mode "multi" || eq_str mode "auto"
            then match _create_specialized_agents config agent with
                 | (_, Raise e) => Raise e
                 | (agent', Ok _) => Ok agent'
                 end
            else Ok agent) ;;
  if hashable name then Ok (name, agent) else Raise TypeError.

End WithConstructor.

(** An entry of the list [list_agents] returns. *)
Record AgentEntry : Type := mkAgentEntry {
  entry_id : string;
  entry_name : value;
  entry_type : string;
  entry_primary : bool
}.

Section WithAgents.

(** An agent object as [list_agents] sees it: its [id], its [name] and
    the name of its class. *)
Variable Agent : Type.
Variable agent_id : Agent -> string.
Variable agent_name : Agent -> value.
Variable agent_type : Agent -> string.

Definition describe (primary : bool) (agent : Agent) : AgentEntry :=
  mkAgentEntry (agent_id agent) (agent_name agent) (agent_type agent) primary.

(** [list_agents()], from [self.primary_agent] and the items of
    [self.agents]. *)
Definition list_agents (primary_agent : Agent) (agents : list (string * Agent))
  : list AgentEntry :=
  describe true primary_agent
  :: map (fun item => describe false (snd item))
         (filter (fun item =>
                    negb (String.eqb (agent_id (snd item))
                                     (agent_id primary_agent)))
                 agents).

End WithAgents.

End OrchestratorSetup.

(* ===================================================================== *)
(** * Runs of the orchestrator and more sample data *)
(* ===================================================================== *)

Module Runs.
Import Py.

(** The inputs of one call of [execute_task]: its arguments and the two
    clock readings. *)
Record Call : Type := mkCall {
  call_task : string;
  call_mode : value;
  call_start : Q;
  call_end : Q
}.

Section WithAgent.
Variable Agent : Type.
Variable agent_execute :
  Agent -> string -> value -> Agent * Py.result value.

Definition run_call (self : Orchestrator.State Agent) (c : Call)
  : Orchestrator.State Agent :=
  fst (Orchestrator.execute_task agent_execute self
         (call_task c) (call_mode c) (call_start c) (call_end c)).

(** A sequence of [execute_task] calls, their results dropped. *)
Definition run_tasks (self : Orchestrator.State Agent) (calls : list Call)
  : Orchestrator.State Agent :=
  fold_left run_call calls self.

(** What the call [c] hands back: a result, or the exception it raises. *)
Definition call_outcome (self : Orchestrator.State Agent) (c : Call)
  : Py.result value :=
  snd (Orchestrator.execute_task agent_execute self
         (call_task c) (call_mode c) (call_start c) (call_end c)).

(** The calls of a sequence that returned, each with its task and its
    result, in order; a call that raised has no entry. *)
Fixpoint returned (self : Orchestrator.State Agent) (calls : list Call)
  : list (string * value) :=
  match calls with
  | [] => []
  | c :: rest =>
      match call_outcome self c with
      | Ok res => (call_task c, res) :: returned (run_call self c) rest
      | Raise _ => returned (run_call self c) rest
      end
  end.

End WithAgent.

(** An agent that answers with the task and raises on the task [crash]. *)
Definition echo_agent (n : nat) (task : string) (mode : value)
  : nat * result value :=
  if String.eqb task "crash" then (S n, Raise (RuntimeError "model down"))
  else (S n, Ok (VDict [("answer", VStr task); ("mode", mode)])).

(** Four calls, the third of which raises. *)
Definition sample_calls : list Call :=
  [ mkCall "first" VNone 0 1;
    mkCall "second" (VStr "multi") 2 3;
    mkCall "crash" VNone 4 5;
    mkCall "third" (VStr "auto") 6 7 ].

Definition after_sample_calls : Orchestrator.State nat :=
  run_tasks echo_agent (Orchestrator.init Orchestrator.default_config 0)
            sample_calls.

(** An override whose [agent] section is a scalar. *)
Definition override_bad_agent : dict :=
  [ ("agent", VStr "jafs"); ("tools", VDict [ ("enabled", VList [VStr "search"]) ]) ].

(** An override that leaves [agent] alone and replaces [memory] by a
    scalar. *)
Definition override_bad_memory : dict :=
  [ ("memory", VInt 5) ].

(** Two configurations without a common key. *)
Definition config_left : dict :=
  [ ("agent", VDict [("mode", VStr "auto")]); ("tools", VDict []) ].

Definition config_right : dict :=
  [ ("models", VDict [("default", VDict [])]); ("memory", VNone) ].

End Runs.

(* ===================================================================== *)
(** * More sample completions *)
(* ===================================================================== *)

Module ExtractionSamples.

(** A completion that is one JSON object and nothing else. *)
Definition completion_direct_json : string := SimpleJson.lit
"{'tool_calls': [{'name': 'search', 'arguments': {'q': 'cats'}}, {'name': 'stop'}]}".

(** A fenced block that is not JSON, then one that holds a tool call. *)
Definition completion_malformed_then_call : string := SimpleJson.lit
"Let me think.
```json
{'tool_calls': [
```
Again:
```json
{'tool_calls':[{'name':'search','arguments':{'q':'cats'}}]}
```".

(** The two fenced blocks of [completion_malformed_then_call]. *)
Definition malformed_block : string := SimpleJson.lit
"{'tool_calls': [
".

Definition search_block : string := SimpleJson.lit
"{'tool_calls':[{'name':'search','arguments':{'q':'cats'}}]}
".

(** A payload whose second entry is a number. *)
Definition completion_non_mapping_entry : string := SimpleJson.lit
"```json
{'tool_calls':[{'name':'a'}, 5, {'name':'b'}]}
```".

Definition non_mapping_block : string := SimpleJson.lit
"{'tool_calls':[{'name':'a'}, 5, {'name':'b'}]}
".

(** [c * n] *)
Fixpoint repeat_char (c : Ascii.ascii) (n : nat) : string :=
  match n with
  | O => EmptyString
  | S n => String c (repeat_char c n)
  end.

(** A reply that is one integer of 4301 digits. *)
Definition completion_long_integer : string := repeat_char "1"%char 4301.

(** The entries of [Samples.completion_two_blocks], payload by payload. *)
Definition two_blocks_entries : list (list Py.dict) :=
  [ [ [("name", Py.VStr "a")] ];
    [ []; [("arguments", Py.VInt 3)] ] ].

(** Three markers: the block after the third one is never closed. *)
Definition completion_unclosed : string := SimpleJson.lit
"```json
{'a': 1}
```
and then
```
{'b': 2}".

End ExtractionSamples.

(* ===================================================================== *)
(** * [jafs.py]: the launcher, and the [--mode] option of [main.py] *)
(* ===================================================================== *)

Module Launcher.
Import PyStr.
Local Open Scope string_scope.

(** [sep.join(parts)] *)
Fixpoint join (sep : string) (parts : list string) : string :=
  match parts with
  | [] => EmptyString
  | [p] => p
  | p :: rest => p ++ sep ++ join sep rest
  end.

(** The mode [main] of [jafs.py] settles on: [args.mode] when it is
    given (and not empty), the detected one otherwise. *)
Definition launch_mode (task : string) (mode_arg : option string) : string :=
  match mode_arg with
  | Some (String c m) => String c m
  | _ => Classifier.detect_task_type task
  end.

(** The command [main] of [jafs.py] runs; [None] when no task is given
    and the help is printed instead.  [task_args] is [args.task],
    [mode_arg] is [args.mode] and [verbose] is [args.verbose]. *)
Definition launch_command (task_args : list string) (mode_arg : option string)
           (verbose : bool) : option (list string) :=
  match task_args with
  | [] => None
  | _ :: _ =>
      let task := join " " task_args in
      let mode := launch_mode task mode_arg in
      let cmd := ["python"; "-m"; "jafs.main"]%list in
      let cmd := match mode with
                 | EmptyString => cmd
                 | _ => (cmd ++ ["--mode"; mode])%list
                 end in
      let cmd := if verbose then (cmd ++ ["--verbose"])%list else cmd in
      Some (cmd ++ ["--task"; task])%list
  end.

(** The values the option [--mode] of [jafs.py] takes. *)
Definition launcher_mode_choices : list string := ["single"; "multi"; "auto"].

(** The values the option [--mode] of [main.py] takes; its parser ends
    the program with an error on any other value. *)
Definition main_mode_choices : list string := ["single"; "multi"].

Definition main_accepts_mode (mode : string) : bool :=
  existsb (String.eqb mode) main_mode_choices.

End Launcher.

(* ===================================================================== *)
(** * Sample agents and configurations for the set-up *)
(* ===================================================================== *)

Module SetupSamples.
Import Py OrchestratorSetup.

(** A primary agent with the four default roles, as its constructor
    leaves them. *)
Definition fresh_role (role : string) : RoleAgent :=
  mkRoleAgent (VStr role) (VInt 3) (VList []).

Definition fresh_primary : HybridAgent :=
  mkHybridAgent (VInt 10)
    [ ("researcher", fresh_role "researcher");
      ("planner", fresh_role "planner");
      ("executor", fresh_role "executor");
      ("critic", fresh_role "critic") ].

(** A configuration that names two roles of the primary agent and one
    it does not have, and overrides the name of one. *)
Definition roles_config : dict :=
  [ ("agent", VDict [("mode", VStr "multi")]);
    ("tools", VDict [("enabled", VList [VStr "search"])]);
    ("specialized_agents",
     VDict [ ("roles", VList [VStr "critic"; VStr "tester"; VStr "planner"]);
             ("critic", VDict [("name", VStr "reviewer")]) ]) ].

(** The constructor of the primary agent for the samples. *)
Definition sample_constructor (name max_iterations tools mode threshold : value)
           (short : ShortTermMemory) (long : option LongTermMemory)
  : HybridAgent :=
  mkHybridAgent max_iterations (specialized_agents fresh_primary).

End SetupSamples.

(* ===================================================================== *)
(** * [cli.py]: the commands [task] and [history] *)
(* ===================================================================== *)

Module Cli.
Import Py PyStr.
Local Open Scope py_scope.

Definition not_space (c : ascii) : bool := negb (is_space c).

(** [s.split(maxsplit=1)]: the first word and, when something other
    than blanks follows, the rest without its leading blanks. *)
Definition split_first (s : string) : list string :=
  match lstrip s with
  | EmptyString => []
  | String c t =>
      let (word, rest) := DirectResponse.span not_space (String c t) in
      match lstrip rest with
      | EmptyString => [word]
      | String c' t' => [word; String c' t']
      end
  end.

Definition task_modes : list string := ["single"; "multi"; "auto"].

(** The first part of [do_task]: the mode and the task handed to the
    orchestrator; [None] when the command stops at "Please provide a task
    description". *)
Definition task_request (arg : string) : option (value * string) :=
  let parts := split_first (strip arg) in
  if Nat.eqb (length parts) 0 || String.eqb (strip arg) EmptyString
  then None
  else
    match parts with
    | p0 :: p1 :: _ =>
        if existsb (String.eqb p0) task_modes
        then Some (VStr p0, p1)
        else Some (VNone, strip arg)
    | _ => Some (VNone, strip arg)
    end.

(** An entry of the history the shell keeps itself. *)
Record Entry : Type := mkEntry {
  entry_timestamp : Q;
  entry_task : string;
  entry_mode : value;
  entry_result : value
}.

Section WithAgent.
Variable Agent : Type.
Variable agent_execute :
  Agent -> string -> value -> Agent * Py.result value.

(** The shell with its orchestrator in place, as
    [start_interactive_mode] leaves it. *)
Record Shell : Type := mkShell {
  verbose : bool;
  orchestrator : Orchestrator.State Agent;
  current_result : value;
  history : list Entry;
  joke_counter : nat
}.

(** What [display_result] evaluates besides printing: the look-ups that
    can raise. *)
Definition display_checks (verbose : bool) (result : value)
  : Py.result unit :=
  _ <- get result "task" (VStr "Unknown task") ;;
  _ <- get result "answer" (VStr "No answer provided") ;;
  if verbose then
    _ <- get result "mode" (VStr "single") ;;
    has_iterations <- OllamaModel.py_in "iterations" result ;;
    if has_iterations then
      _ <- get result "iterations" (VInt 0) ;; Ok tt
    else
      has_steps <- OllamaModel.py_in "steps" result ;;
      if has_steps then
        steps <- get result "steps" (VList []) ;;
        _ <- OrchestratorSetup.py_len steps ;;
        completed <- get result "completed_steps" (VList []) ;;
        _ <- OrchestratorSetup.py_len completed ;;
        Ok tt
      else Ok tt
  else Ok tt.

(** [display_result(result)]: the result is remembered first; the
    counter moves only when the display gets to its end. *)
Definition display_result (self : Shell) (result : value)
  : Shell * Py.result unit :=
  let self :=
    mkShell (verbose self) (orchestrator self) result (history self)
            (joke_counter self) in
  match display_checks (verbose self) result with
  | Raise e => (self, Raise e)
  | Ok _ =>
      (mkShell (verbose self) (orchestrator self) (current_result self)
               (history self) (S (joke_counter self)), Ok tt)
  end.

(** [do_task(arg)]; [t0] and [t1] are the clock readings of
    [execute_task], [now] the one of the history entry. *)
Definition do_task (self : Shell) (arg : string) (t0 t1 now : Q) : Shell :=
  match task_request arg with
  | None => self
  | Some (mode, task) =>
      let (orchestrator', outcome) :=
        Orchestrator.execute_task agent_execute (orchestrator self)
                                  task mode t0 t1 in
      let self :=
        mkShell (verbose self) orchestrator' (current_result self)
                (history self) (joke_counter self) in
      match outcome with
      | Raise _ => self
      | Ok result =>
          match display_result self result with
          | (self', Raise _) => self'
          | (self', Ok _) =>
              mkShell (verbose self') (orchestrator self')
                      (current_result self')
                      (history self' ++ [mkEntry now task mode result])
                      (joke_counter self')
          end
      end
  end.






End WithAgent.

End Cli.

(* ===================================================================== *)
(** * A sample shell *)
(* ===================================================================== *)

Module CliSamples.
Import Py.

(** A shell on a new orchestrator with the default configuration. *)
Definition fresh_shell : Cli.Shell nat :=
  Cli.mkShell false
    (Orchestrator.init Orchestrator.default_config 0) VNone [] 0.

(** The shell after [task multi write a poem], [task crash] and
    [task solve x]. *)
Definition shell_after_tasks : Cli.Shell nat :=
  Cli.do_task Runs.echo_agent
    (Cli.do_task Runs.echo_agent
       (Cli.do_task Runs.echo_agent fresh_shell "multi write a poem" 0 1 1)
       "crash" 2 3 3)
    "  solve x " 4 5 5.

End CliSamples.

Unset Implicit Arguments.

(* ===================================================================== *)
(** * Properties of the task classifier *)
(* ===================================================================== *)

Module ClassifierProps.
Import PyStr Classifier.

Lemma check_keywords_matches (kws : list string) (task m mode : string) :
  check_keywords kws task m mode = if matches kws task then m else mode.
Proof.
  unfold matches.
  induction kws as [|keyword rest IH]; simpl; [reflexivity|].
  destruct (Re.search_word keyword (lower task)); simpl; auto.
Qed.

(** C2.  The three categories are checked in the order research,
    calculation, creative, and a later category that matches overwrites
    the mode: a creative match gives "multi", otherwise a calculation
    match gives "single", otherwise a research match gives "multi",
    otherwise the mode stays "auto".  In particular a task that matches a
    calculation keyword and no creative one is "single", and one that
    matches both is "multi". *)
Theorem detect_task_type_precedence (task : string) :
  detect_task_type task =
    (if matches creative_keywords task then "multi"
     else if matches calc_keywords task then "single"
     else if matches research_keywords task then "multi"
     else "auto")
  /\ (matches calc_keywords task = true ->
      matches creative_keywords task = false ->
      detect_task_type task = "single")
  /\ (matches calc_keywords task = true ->
      matches creative_keywords task = true ->
      detect_task_type task = "multi").
Proof.
  assert (E : detect_task_type task =
    (if matches creative_keywords task then "multi"
     else if matches calc_keywords task then "single"
     else if matches research_keywords task then "multi"
     else "auto")).
  { unfold detect_task_type. now rewrite !check_keywords_matches. }
  split; [exact E|].
  split; intros Hcalc Hcreative; rewrite E, Hcreative, ?Hcalc; reflexivity.
Qed.

Lemma detect_task_type_precedence_witness :
  (matches calc_keywords "calculate 2 + 2" = true /\
   matches creative_keywords "calculate 2 + 2" = false /\
   detect_task_type "calculate 2 + 2" = "single")
  /\ (matches calc_keywords "Calculate the area, then WRITE it up" = true /\
      matches creative_keywords "Calculate the area, then WRITE it up" = true /\
      detect_task_type "Calculate the area, then WRITE it up" = "multi").
Proof.
  split.
  - split; [reflexivity|]. split; [reflexivity|].
    apply (proj1 (proj2 (detect_task_type_precedence "calculate 2 + 2")));
      reflexivity.
  - split; [reflexivity|]. split; [reflexivity|].
    apply (proj2 (proj2 (detect_task_type_precedence
                           "Calculate the area, then WRITE it up")));
      reflexivity.
Defined.

Example detect_research : detect_task_type "research quantum computing" = "multi".
Proof. reflexivity. Qed.

Example detect_default : detect_task_type "hello there" = "auto".
Proof. reflexivity. Qed.

(** A keyword inside a longer word is no match: the search asks for a
    word boundary on both sides. *)
Example detect_inside_word : detect_task_type "the address of the maker" = "auto".
Proof. reflexivity. Qed.

End ClassifierProps.

(* ===================================================================== *)
(** * Properties of dictionaries *)
(* ===================================================================== *)

Module DictProps.
Import Py.

Lemma dict_lookup_set_same (k : string) (v : value) (d : dict) :
  dict_lookup k (dict_set k v d) = Some v.
Proof.
  induction d as [|[k' v'] d IH]; simpl.
  - now rewrite String.eqb_refl.
  - destruct (String.eqb k k') eqn:E; simpl; rewrite E; auto.
Qed.

Lemma dict_lookup_set_other (k k' : string) (v : value) (d : dict) :
  k <> k' -> dict_lookup k (dict_set k' v d) = dict_lookup k d.
Proof.
  intros Hne.
  induction d as [|[k0 v0] d IH]; simpl.
  - destruct (String.eqb_spec k k'); congruence.
  - destruct (String.eqb_spec k' k0) as [->|Hk0]; simpl.
    + destruct (String.eqb_spec k k0); congruence.
    + destruct (String.eqb_spec k k0); auto.
Qed.

Lemma dict_lookup_absent (k : string) (d : dict) :
  ~ In k (keys d) -> dict_lookup k d = None.
Proof.
  induction d as [|[k' v'] d IH]; simpl; intros Hn; [reflexivity|].
  destruct (String.eqb_spec k k') as [->|Hne]; [tauto|].
  apply IH. tauto.
Qed.

Lemma dict_lookup_present (k : string) (d : dict) (v : value) :
  dict_lookup k d = Some v -> In k (keys d).
Proof.
  induction d as [|[k' v'] d IH]; simpl; [discriminate|].
  destruct (String.eqb_spec k k') as [->|Hne]; auto.
Qed.

(** Setting a key keeps the key order; a new key goes last. *)
Lemma keys_dict_set (k : string) (v : value) (d : dict) :
  keys (dict_set k v d) = if dict_mem k d then keys d else keys d ++ [k].
Proof.
  unfold dict_mem.
  induction d as [|[k' v'] d IH]; simpl; [reflexivity|].
  destruct (String.eqb_spec k k') as [->|Hne]; simpl; [reflexivity|].
  rewrite IH. now destruct (dict_lookup k d).
Qed.

End DictProps.

(* ===================================================================== *)
(** * Properties of the orchestrator *)
(* ===================================================================== *)

Module OrchestratorProps.
Import Py Orchestrator DictProps.
Local Open Scope py_scope.

Lemma merge_configs_loop (default override : dict) :
  _merge_configs default (VDict override) = merge_items default override.
Proof.
  simpl. revert default.
  induction override as [|[key value] rest IH]; intros default; simpl;
    [reflexivity|].
  destruct (dict_lookup key default) as [[]|]; try apply IH.
  destruct value; try apply IH.
  match goal with |- context [Py.bind ?c _] => destruct c end; simpl;
    [apply IH | reflexivity].
Qed.

(** Merging never raises when the override is a dict. *)
Lemma merge_configs_total (override : value) :
  is_dict override = true ->
  forall default, exists merged, _merge_configs default override = Ok merged.
Proof.
  induction override as [| | | | | |items IH] using value_nested_ind;
    try discriminate.
  intros _ default. rewrite merge_configs_loop. revert default.
  induction IH as [|[key value] rest Hvalue _ IHrest]; intros default;
    cbn [merge_items]; [eauto|].
  destruct (dict_lookup key default) as [[]|]; try apply IHrest.
  destruct value; try apply IHrest.
  cbn [snd] in Hvalue.
  destruct (Hvalue eq_refl d) as [merged ->]. cbn [bind]. apply IHrest.
Qed.

(** C4.  For an override with distinct keys the merge returns a dict
    that, key by key, holds: for a key of the override, the recursive
    merge when both sides are dicts and the override value otherwise
    (so a key only in the override is added); for any other key, what
    the default holds (so a key only in the default survives). *)
Theorem merge_configs_law (default override : dict) :
  NoDup (keys override) ->
  exists merged,
    _merge_configs default (VDict override) = Ok merged /\
    forall k,
      match dict_lookup k override with
      | Some vo =>
          match dict_lookup k default, vo with
          | Some (VDict sub), VDict _ =>
              exists m, _merge_configs sub vo = Ok m /\
                        dict_lookup k merged = Some (VDict m)
          | _, _ => dict_lookup k merged = Some vo
          end
      | None => dict_lookup k merged = dict_lookup k default
      end.
Proof.
  rewrite merge_configs_loop. revert default.
  induction override as [|[key value] rest IH]; intros default Hnd.
  - exists default. split; [reflexivity|]. intros k. reflexivity.
  - inversion Hnd as [|? ? Hkey Hrest]; subst.
    (* the value stored under [key] by the first iteration *)
    assert (Hstep : exists stored,
               merge_items default ((key, value) :: rest)
               = merge_items (dict_set key stored default) rest /\
               match dict_lookup key default, value with
               | Some (VDict sub), VDict _ =>
                   exists m, _merge_configs sub value = Ok m /\
                             stored = VDict m
               | _, _ => stored = value
               end).
    { cbn [merge_items].
      destruct (dict_lookup key default) as [[]|]; try (eexists; split; reflexivity).
      destruct value; try (eexists; split; reflexivity).
      destruct (merge_configs_total (VDict d0) eq_refl d) as [m Hm].
      exists (VDict m). rewrite Hm. cbn [bind]. split; [reflexivity|eauto]. }
    destruct Hstep as (stored & -> & Hstored).
    destruct (IH (dict_set key stored default) Hrest) as (merged & Hmerged & Hlaw).
    exists merged. split; [exact Hmerged|].
    intros k. specialize (Hlaw k). simpl.
    destruct (String.eqb_spec k key) as [->|Hne].
    + rewrite (dict_lookup_absent _ _ Hkey) in Hlaw.
      rewrite dict_lookup_set_same in Hlaw.
      destruct (dict_lookup key default) as [[]|]; try congruence.
      destruct value; try congruence.
      destruct Hstored as (m & Hm & ->). eauto.
    + rewrite dict_lookup_set_other in Hlaw by assumption. exact Hlaw.
Qed.

Lemma merge_configs_law_witness :
  NoDup (keys Samples.override_config) /\
  exists merged,
    _merge_configs default_config (VDict Samples.override_config) = Ok merged /\
    dict_lookup "tools" merged = Some (VList [VStr "search"]) /\
    dict_lookup "memory" merged = dict_lookup "memory" default_config /\
    dict_lookup "specialized_agents" merged
      = Some (VDict [("roles", VList [VStr "critic"])]).
Proof.
  assert (Hnd : NoDup (keys Samples.override_config)).
  { repeat constructor; simpl; intuition discriminate. }
  split; [exact Hnd|].
  destruct (@merge_configs_law default_config Samples.override_config Hnd)
    as (merged & Hmerged & Hlaw).
  exists merged. split; [exact Hmerged|].
  split; [exact (Hlaw "tools")|].
  split; [exact (Hlaw "memory")|exact (Hlaw "specialized_agents")].
Defined.

Example merge_sample :
  _merge_configs default_config (VDict Samples.override_config)
  = Ok [ ("agent", VDict [ ("name", VStr "jafs");
                           ("mode", VStr "multi");
                           ("max_iterations", VInt 10);
                           ("complexity_threshold", VInt 7) ]);
         ("memory", VDict [ ("short_term", VDict [ ("capacity", VInt 1000);
                                                    ("ttl", VInt 3600) ]);
                            ("long_term", VDict [ ("enabled", VBool true);
                                                   ("storage_path", VNone);
                                                   ("index_in_memory", VBool true) ]) ]);
         ("models", VDict [ ("default", VDict [ ("provider", VStr "openai");
                                                 ("model", VStr "gpt-4");
                                                 ("temperature", VFloat 0) ]) ]);
         ("tools", VList [ VStr "search" ]);
         ("specialized_agents", VDict [ ("roles", VList [ VStr "critic" ]) ]) ].
Proof. reflexivity. Qed.

(** C9.  Loading the configuration never raises: it always returns a
    configuration; when the path does not exist, or opening or parsing
    the file raises, it returns the hard-coded default. *)
Theorem load_config_fallback (path_exists : bool) (safe_load : Py.result value) :
  (exists cfg, _load_config path_exists safe_load = Ok cfg)
  /\ (path_exists = false ->
      _load_config path_exists safe_load = Ok default_config)
  /\ (forall e, safe_load = Raise e ->
      _load_config path_exists safe_load = Ok default_config).
Proof.
  split; [|split].
  - unfold _load_config, try_except.
    destruct (negb path_exists); [eauto|].
    match goal with |- exists cfg, match ?c with _ => _ end = _ =>
      destruct c; eauto end.
  - intros ->. reflexivity.
  - intros e ->. unfold _load_config.
    destruct (negb path_exists); reflexivity.
Qed.

Lemma load_config_fallback_witness :
  _load_config false (Ok (VDict Samples.override_config)) = Ok default_config
  /\ _load_config true (Raise YAMLError) = Ok default_config.
Proof.
  split.
  - apply (proj1 (proj2 (load_config_fallback false
                           (Ok (VDict Samples.override_config))))).
    reflexivity.
  - apply (proj2 (proj2 (load_config_fallback true (Raise YAMLError)))
             YAMLError).
    reflexivity.
Defined.

(** Any exception of the guarded block is absorbed the same way: a
    document that is not a mapping makes [override.items()] raise, and a
    mapping whose [agent] entry is not a mapping makes the inspection of
    the merged configuration raise. *)
Example load_config_not_a_mapping :
  _load_config true (Ok (VList [VStr "agent"])) = Ok default_config.
Proof. reflexivity. Qed.

Example load_config_agent_not_a_mapping :
  _load_config true (Ok (VDict [("agent", VInt 5)])) = Ok default_config.
Proof. reflexivity. Qed.

Example load_config_override :
  exists cfg,
    _load_config true (Ok (VDict Samples.override_config)) = Ok cfg /\
    dict_lookup "tools" cfg = Some (VList [VStr "search"]).
Proof. eexists. split; reflexivity. Qed.

Section WithAgent.
Variable Agent : Type.
Variable agent_execute :
  Agent -> string -> value -> Agent * Py.result value.

Abbreviation execute_task := (Orchestrator.execute_task agent_execute).
Abbreviation reachable := (Orchestrator.reachable agent_execute).

(** One call leaves the history alone (when it raises) or appends one
    record, whose status is the literal. *)
Lemma execute_task_history (self : State Agent) (task : string)
      (mode : value) (t0 t1 : Q) :
  match snd (execute_task self task mode t0 t1) with
  | Raise _ =>
      task_history (fst (execute_task self task mode t0 t1))
      = task_history self
  | Ok res =>
      exists record,
        task_history (fst (execute_task self task mode t0 t1))
        = task_history self ++ [record] /\
        status record = "completed" /\
        Orchestrator.result record = res
  end.
Proof.
  unfold Orchestrator.execute_task.
  destruct (match mode with VNone => _ | _ => _ end) as [m|e];
    [|reflexivity].
  destruct (agent_execute (primary_agent self) task m) as [agent' [res|e]];
    cbn [fst snd task_history]; [|reflexivity].
  eexists. split; [reflexivity|]. split; reflexivity.
Qed.

(** C5.  In every state the orchestrator reaches, each record of the
    history has the status "completed" (so neither "incomplete" nor
    "failed"), and a call that returns the agent's result appends one
    such record around that result, whatever the result is. *)
Theorem task_status_always_completed (self : State Agent) :
  reachable self ->
  (forall record, In record (task_history self) ->
     status record = "completed" /\
     status record <> "incomplete" /\
     status record <> "failed")
  /\ (forall task mode t0 t1 res,
       snd (execute_task self task mode t0 t1) = Ok res ->
       exists record,
         task_history (fst (execute_task self task mode t0 t1))
         = task_history self ++ [record] /\
         status record = "completed" /\
         Orchestrator.result record = res).
Proof.
  intros Hreach. split.
  - assert (Hall : Forall (fun r => status r = "completed")
                          (task_history self)).
    { induction Hreach as [cfg agent|self task mode t0 t1 Hreach IH].
      - constructor.
      - pose proof (execute_task_history self task mode t0 t1) as Hstep.
        destruct (snd (execute_task self task mode t0 t1)).
        + destruct Hstep as (record & -> & Hstatus & _).
          apply Forall_app. split; [exact IH|]. now constructor.
        + now rewrite Hstep. }
    intros record Hin.
    rewrite Forall_forall in Hall. rewrite (Hall record Hin).
    split; [reflexivity|]. split; discriminate.
  - intros task mode t0 t1 res Hres.
    pose proof (execute_task_history self task mode t0 t1) as Hstep.
    now rewrite Hres in Hstep.
Qed.

(** A limit of zero selects the whole list: [-0] is [0], and a slice
    from index 0 drops nothing. *)
Lemma slice_from_zero (A : Type) (lst : list A) : slice_from lst (- 0) = lst.
Proof.
  unfold slice_from. simpl.
  rewrite Z.min_l by lia. reflexivity.
Qed.

(** C6.  With the limit 0, [get_task_history] returns the whole
    history and not its last 0 records. *)
Theorem get_task_history_zero_limit (self : State Agent) :
  get_task_history self 0 = task_history self.
Proof. unfold get_task_history. apply slice_from_zero. Qed.


End WithAgent.

Lemma task_status_always_completed_witness :
  Orchestrator.reachable Samples.failing_agent Samples.after_one_task /\
  (forall record,
      In record (task_history Samples.after_one_task) ->
      status record = "completed" /\
      status record <> "incomplete" /\
      status record <> "failed").
Proof.
  assert (Hreach : Orchestrator.reachable Samples.failing_agent
                                          Samples.after_one_task).
  { unfold Samples.after_one_task. apply reach_exec. apply reach_init. }
  split; [exact Hreach|].
  exact (proj1 (@task_status_always_completed unit Samples.failing_agent
                  Samples.after_one_task Hreach)).
Defined.

(** The record of the sample run: the agent reported a failure, the
    history says "completed". *)
Example after_one_task_history :
  map (fun r => (status r, Orchestrator.result r))
      (task_history Samples.after_one_task)
  = [("completed", VDict [("status", VStr "failed")])].
Proof. reflexivity. Qed.

Example get_task_history_zero_sample :
  length (get_task_history Samples.after_one_task 0) = 1 /\
  Nat.min 0 (length (task_history Samples.after_one_task)) = 0.
Proof. split; reflexivity. Qed.


End OrchestratorProps.

(* ===================================================================== *)
(** * Properties of the tool-call extraction *)
(* ===================================================================== *)

Module OllamaModelProps.
Import Py PyStr OllamaModel.

Lemma Forall_none_by_forallb (A B : Type) (f : A -> option B) (l : list A) :
  forallb (fun x => match f x with None => true | Some _ => false end) l
  = true ->
  Forall (fun x => f x = None) l.
Proof.
  rewrite forallb_forall, Forall_forall.
  intros H x Hx. specialize (H x Hx). now destruct (f x).
Qed.

(** Closed goals are settled by running the model. *)
Ltac evaluate := vm_compute; reflexivity.
Ltac evaluate_all := apply Forall_none_by_forallb; evaluate.

Lemma of_nat_inj (n m : nat) : of_nat n = of_nat m -> n = m.
Proof.
  unfold of_nat. intros H.
  apply (f_equal NilEmpty.uint_of_string) in H.
  rewrite !NilEmpty.usu in H.
  injection H as H. now apply Unsigned.to_uint_inj.
Qed.

Lemma call_id_inj (n m : nat) : call_id n = call_id m -> n = m.
Proof.
  unfold call_id. intros H. apply of_nat_inj.
  simpl in H. congruence.
Qed.

Lemma ids_in_order_snoc (calls : list ToolCall) (nm args : value) :
  ids_in_order calls ->
  ids_in_order (calls ++ [mkToolCall (call_id (length calls)) nm args]).
Proof.
  unfold ids_in_order. intros H.
  rewrite map_app, length_app, H. simpl.
  rewrite Nat.add_1_r, seq_S, map_app. reflexivity.
Qed.

Lemma ids_in_order_NoDup (calls : list ToolCall) :
  ids_in_order calls -> NoDup (map id calls).
Proof.
  unfold ids_in_order. intros ->.
  apply Injective_map_NoDup; [|apply seq_NoDup].
  intros n m. apply call_id_inj.
Qed.

Lemma add_tool_calls_ids (entries : list value) :
  forall calls, ids_in_order calls ->
                ids_in_order (fst (add_tool_calls entries calls)).
Proof.
  induction entries as [|entry rest IH]; intros calls H; simpl; [exact H|].
  destruct (get entry "name" (VStr EmptyString)); [|exact H].
  destruct (get entry "arguments" (VDict [])); [|exact H].
  apply IH. now apply ids_in_order_snoc.
Qed.

(** When every entry is a mapping the loop appends one call per entry. *)
Lemma add_tool_calls_dicts (entries : list dict) :
  forall calls,
    add_tool_calls (map VDict entries) calls
    = (calls ++ normalized (length calls) entries, Ok tt).
Proof.
  induction entries as [|entry rest IH]; intros calls; simpl.
  - now rewrite app_nil_r.
  - rewrite IH, length_app, Nat.add_1_r, <- app_assoc. reflexivity.
Qed.

(** An entry that is not a mapping stops the loop of its payload; the
    calls appended so far stay. *)
Lemma add_tool_calls_stops (entries : list dict) (bad : value)
      (rest : list value) (calls : list ToolCall) :
  is_dict bad = false ->
  add_tool_calls (map VDict entries ++ bad :: rest) calls
  = (calls ++ normalized (length calls) entries, Raise AttributeError).
Proof.
  intros Hbad. revert calls.
  induction entries as [|entry more IH]; intros calls; simpl.
  - rewrite app_nil_r. now destruct bad.
  - rewrite IH, length_app, Nat.add_1_r, <- app_assoc. reflexivity.
Qed.

Lemma normalized_length (entries : list dict) :
  forall n, length (normalized n entries) = length entries.
Proof.
  induction entries as [|entry rest IH]; intros n; simpl; [reflexivity|].
  now rewrite IH.
Qed.

Lemma normalized_append (pre post : list dict) :
  forall n,
    normalized n (pre ++ post)
    = normalized n pre ++ normalized (n + length pre) post.
Proof.
  induction pre as [|entry rest IH]; intros n; simpl.
  - now rewrite Nat.add_0_r.
  - now rewrite IH, Nat.add_succ_r.
Qed.

Lemma leading_mappings_all (entries : list dict) :
  leading_mappings (map VDict entries) = entries.
Proof.
  induction entries as [|entry rest IH]; simpl; [reflexivity|].
  now rewrite IH.
Qed.

Lemma leading_mappings_stops (entries : list dict) (bad : value)
      (rest : list value) :
  is_dict bad = false ->
  leading_mappings (map VDict entries ++ bad :: rest) = entries.
Proof.
  intros Hbad.
  induction entries as [|entry more IH]; simpl.
  - now destruct bad.
  - now rewrite IH.
Qed.

Lemma leading_mappings_strings (A : Type) (f : A -> string) (l : list A) :
  leading_mappings (map (fun x => VStr (f x)) l) = [].
Proof. now destruct l. Qed.

(** The loop over a payload's entries appends the calls of the entries
    before the first one that is not a mapping, whether it then ends or
    raises. *)
Lemma add_tool_calls_leading (entries : list value) :
  forall calls,
    fst (add_tool_calls entries calls)
    = calls ++ normalized (length calls) (leading_mappings entries).
Proof.
  induction entries as [|entry rest IH]; intros calls; simpl.
  - now rewrite app_nil_r.
  - destruct entry; simpl; try (now rewrite app_nil_r).
    rewrite IH, length_app, Nat.add_1_r, <- app_assoc. reflexivity.
Qed.

Section WithJson.
Variable json_loads : string -> option value.
Variable json_error : string -> exn.
Variable json_dumps : value -> string.

Abbreviation process_block := (OllamaModel.process_block json_loads).
Abbreviation generate_with_tools :=
  (OllamaModel.generate_with_tools json_loads json_dumps).
Abbreviation extract_json := (OllamaModel.extract_json json_loads json_error).
Abbreviation candidate_blocks :=
  (OllamaModel.candidate_blocks json_loads json_dumps).
Abbreviation payload_entries := (OllamaModel.payload_entries json_loads).

Lemma process_block_unparsed (st : list ToolCall * string) (b : string) :
  json_loads b = None -> process_block st b = st.
Proof.
  intros H. unfold OllamaModel.process_block. destruct st. now rewrite H.
Qed.

Lemma process_block_ids (st : list ToolCall * string) (b : string) :
  ids_in_order (fst st) -> ids_in_order (fst (process_block st b)).
Proof.
  destruct st as [calls content]. cbn [fst]. intros H.
  unfold OllamaModel.process_block.
  destruct (json_loads b) as [data|]; [|exact H].
  destruct (py_in "tool_calls" data) as [[]|]; try exact H.
  destruct (bind (getitem data "tool_calls") iterate) as [entries|];
    [|exact H].
  pose proof (add_tool_calls_ids entries calls H) as Hids.
  destruct (add_tool_calls entries calls) as [calls' []]; exact Hids.
Qed.

Lemma fold_process_block_ids (blocks : list string) :
  forall st, ids_in_order (fst st) ->
             ids_in_order (fst (fold_left process_block blocks st)).
Proof.
  induction blocks as [|b rest IH]; intros st H; simpl; [exact H|].
  apply IH. now apply process_block_ids.
Qed.

Lemma generate_with_tools_fold (response_text : string) :
  generate_with_tools response_text
  = let st := fold_left process_block
                        (candidate_blocks response_text)
                        ([], response_text) in
    mkExtraction (strip (snd st)) (fst st).
Proof.
  unfold OllamaModel.generate_with_tools.
  now destruct (fold_left _ _ _).
Qed.

Lemma process_block_payload (calls : list ToolCall) (content b : string)
      (d : dict) (entries : list dict) :
  json_loads b = Some (VDict d) ->
  dict_lookup "tool_calls" d = Some (VList (map VDict entries)) ->
  process_block (calls, content) b
  = (calls ++ normalized (length calls) entries, remove_block content b).
Proof.
  intros Hload Hcalls. unfold OllamaModel.process_block.
  rewrite Hload. cbn [py_in getitem]. unfold dict_mem.
  rewrite Hcalls. cbn [bind iterate].
  now rewrite add_tool_calls_dicts.
Qed.

(** What one candidate payload adds to the calls. *)
Lemma process_block_calls (calls : list ToolCall) (content b : string) :
  fst (process_block (calls, content) b)
  = calls ++ normalized (length calls) (payload_entries b).
Proof.
  unfold OllamaModel.process_block, OllamaModel.payload_entries.
  destruct (json_loads b) as [data|]; [|now rewrite app_nil_r].
  destruct data as [| | | |s|l|d]; cbn [py_in];
    try (now rewrite app_nil_r).
  - destruct (contains "tool_calls" s); cbn; now rewrite app_nil_r.
  - destruct (existsb _ l); cbn; now rewrite app_nil_r.
  - unfold dict_mem. cbn [getitem].
    destruct (dict_lookup "tool_calls" d) as [v|]; [|now rewrite app_nil_r].
    cbn [bind].
    destruct v as [| | | |s|l|keyed]; cbn [iterate];
      try (now rewrite app_nil_r).
    + pose proof (add_tool_calls_leading
                    (map (fun c => VStr (String c EmptyString))
                         (list_ascii_of_string s)) calls) as H.
      rewrite leading_mappings_strings in H.
      destruct (add_tool_calls _ calls) as [calls' []]; exact H.
    + pose proof (add_tool_calls_leading l calls) as H.
      destruct (add_tool_calls l calls) as [calls' []]; exact H.
    + pose proof (add_tool_calls_leading (map VStr (keys keyed)) calls) as H.
      rewrite (leading_mappings_strings string (fun k => k)) in H.
      destruct (add_tool_calls _ calls) as [calls' []]; exact H.
Qed.

(** The calls after the loop over the payloads: those of the entries of
    each payload, numbered through. *)
Lemma fold_process_block_calls (blocks : list string) :
  forall st,
    fst (fold_left process_block blocks st)
    = fst st ++ normalized (length (fst st))
                           (concat (map payload_entries blocks)).
Proof.
  induction blocks as [|b rest IH]; intros [calls content]; cbn [fst].
  - simpl. now rewrite app_nil_r.
  - cbn [fold_left map concat]. rewrite IH.
    pose proof (process_block_calls calls content b) as Hb.
    destruct (process_block (calls, content) b) as [calls' content'].
    cbn [fst] in *. subst calls'.
    rewrite length_app, normalized_length, normalized_append, app_assoc.
    reflexivity.
Qed.

(** C7, amended.  For every completion the extracted calls are, payload
    after payload, the calls of the entries of each payload's
    [tool_calls] array that stand before the array's first entry that is
    not a mapping: each such entry gives one call, with the entry's [name]
    or the empty string and its [arguments] or the empty mapping, and the
    number in its id is the count of calls extracted before it over the
    whole completion, so that the ids are [call_0], [call_1], ... in
    order and distinct.  A payload whose entries are all mappings gives
    one call per entry; one with an entry that is not a mapping gives the
    calls of the entries before that entry only. *)
Theorem tool_call_normalization (response_text : string) :
  let calls := tool_calls (generate_with_tools response_text) in
  calls = normalized 0 (concat (map payload_entries
                                    (candidate_blocks response_text)))
  /\ map id calls = map call_id (seq 0 (length calls))
  /\ NoDup (map id calls)
  /\ (forall json_block d entries,
        json_loads json_block = Some (VDict d) ->
        dict_lookup "tool_calls" d = Some (VList (map VDict entries)) ->
        payload_entries json_block = entries)
  /\ (forall json_block d entries bad rest,
        json_loads json_block = Some (VDict d) ->
        dict_lookup "tool_calls" d
        = Some (VList (map VDict entries ++ bad :: rest)) ->
        is_dict bad = false ->
        payload_entries json_block = entries).
Proof.
  intros calls.
  assert (H : ids_in_order calls).
  { subst calls. rewrite generate_with_tools_fold. cbn [tool_calls].
    apply fold_process_block_ids. reflexivity. }
  split.
  { subst calls. rewrite generate_with_tools_fold. cbn [tool_calls].
    now rewrite fold_process_block_calls. }
  split; [exact H|]. split; [now apply ids_in_order_NoDup|]. split.
  - intros json_block d entries Hload Hcalls.
    unfold OllamaModel.payload_entries. rewrite Hload, Hcalls.
    apply leading_mappings_all.
  - intros json_block d entries bad rest Hload Hcalls Hbad.
    unfold OllamaModel.payload_entries. rewrite Hload, Hcalls.
    now apply leading_mappings_stops.
Qed.

Lemma fold_process_block_unparsed (blocks : list string) :
  forall st,
    (forall b, In b blocks -> json_loads b = None) ->
    fold_left process_block blocks st = st.
Proof.
  induction blocks as [|b rest IH]; intros st H; simpl; [reflexivity|].
  rewrite process_block_unparsed by (apply H; now left).
  apply IH. intros b' Hb'. apply H. now right.
Qed.

Lemma fold_process_block_filter (blocks : list string) :
  forall st,
    fold_left process_block blocks st
    = fold_left process_block (filter (parses json_loads) blocks) st.
Proof.
  induction blocks as [|b rest IH]; intros st; simpl; [reflexivity|].
  unfold parses at 1.
  destruct (json_loads b) eqn:E; simpl; [apply IH|].
  rewrite process_block_unparsed by exact E. apply IH.
Qed.

(** C3.  When every fenced block of a completion fails to parse, and,
    there being no fenced block, the completion as a whole fails to
    parse, the extraction returns no tool call and the completion
    stripped of leading and trailing blanks.  A candidate payload that
    fails to parse does not end the extraction: the result is the one of
    the loop over the payloads before and after it, and the calls are
    those of the entries of these other payloads. *)
Theorem extraction_tolerance (response_text : string) :
  ((forall b, In b (find_json_blocks response_text) -> json_loads b = None) ->
   (find_json_blocks response_text = [] -> json_loads response_text = None) ->
   generate_with_tools response_text
   = mkExtraction (strip response_text) [])
  /\ (forall pre bad post,
        candidate_blocks response_text = pre ++ bad :: post ->
        json_loads bad = None ->
        generate_with_tools response_text
        = (let st := fold_left process_block (pre ++ post)
                               ([], response_text) in
           mkExtraction (strip (snd st)) (fst st))
        /\ tool_calls (generate_with_tools response_text)
           = normalized 0 (concat (map payload_entries (pre ++ post)))).
Proof.
  split.
  - intros Hblocks Hwhole.
    rewrite generate_with_tools_fold.
    rewrite fold_process_block_unparsed; [reflexivity|].
    unfold OllamaModel.candidate_blocks.
    destruct (find_json_blocks response_text) as [|b rest] eqn:E.
    + rewrite (Hwhole eq_refl). intros b [].
    + exact Hblocks.
  - intros pre bad post Hblocks Hbad.
    assert (Hskip : generate_with_tools response_text
                    = (let st := fold_left process_block (pre ++ post)
                                           ([], response_text) in
                       mkExtraction (strip (snd st)) (fst st))).
    { rewrite generate_with_tools_fold, Hblocks. cbv zeta.
      rewrite !fold_left_app. cbn [fold_left].
      now rewrite (process_block_unparsed _ bad Hbad). }
    split; [exact Hskip|].
    rewrite Hskip. cbv zeta. cbn [tool_calls].
    now rewrite fold_process_block_calls.
Qed.

Lemma first_brace_line_none (lines : list string) :
  Forall (fun l => brace_line_parse json_loads l = None) lines ->
  first_brace_line json_loads lines = None.
Proof.
  unfold brace_line_parse.
  induction 1 as [|line rest Hline _ IH]; simpl; [reflexivity|].
  destruct (startswith (strip line) "{" && endswith (strip line) "}");
    [now rewrite Hline|exact IH].
Qed.

Lemma first_brace_line_first (pre : list string) (line : string)
      (post : list string) (v : value) :
  Forall (fun l => brace_line_parse json_loads l = None) pre ->
  brace_line_parse json_loads line = Some v ->
  first_brace_line json_loads (pre ++ line :: post) = Some v.
Proof.
  unfold brace_line_parse. intros Hpre Hline.
  induction Hpre as [|l rest Hl _ IH]; simpl.
  - destruct (startswith (strip line) "{" && endswith (strip line) "}");
      [now rewrite Hline|discriminate].
  - destruct (startswith (strip l) "{" && endswith (strip l) "}");
      [now rewrite Hl|exact IH].
Qed.

Lemma first_block_none (blocks : list string) :
  Forall (fun b => json_loads b = None) blocks ->
  first_block json_loads blocks = None.
Proof.
  induction 1 as [|b rest Hb _ IH]; simpl; [reflexivity|].
  now rewrite Hb.
Qed.

Lemma first_block_first (pre : list string) (b : string)
      (post : list string) (v : value) :
  Forall (fun x => json_loads x = None) pre ->
  json_loads b = Some v ->
  first_block json_loads (pre ++ b :: post) = Some v.
Proof.
  intros Hpre Hb.
  induction Hpre as [|x rest Hx _ IH]; simpl; [now rewrite Hb|].
  now rewrite Hx.
Qed.

(** While the first [json.loads] reads the response or fails with a
    [JSONDecodeError], [extract_json] returns the whole response parsed
    when that succeeds; failing that, the parse of the first line that is
    a brace line and parses; failing that, the parse of the first fenced
    block that parses; and when nothing parses, the parse-error
    mapping. *)
Lemma extract_json_strategy_order (response_text : string) :
  (forall v, json_loads response_text = Some v ->
             extract_json response_text = Ok v)
  /\ (json_loads response_text = None ->
      json_error response_text = JSONDecodeError ->
      forall pre line post v,
        split_lines response_text = pre ++ line :: post ->
        Forall (fun l => brace_line_parse json_loads l = None) pre ->
        brace_line_parse json_loads line = Some v ->
        extract_json response_text = Ok v)
  /\ (json_loads response_text = None ->
      json_error response_text = JSONDecodeError ->
      Forall (fun l => brace_line_parse json_loads l = None)
             (split_lines response_text) ->
      forall pre b post v,
        find_json_blocks response_text = pre ++ b :: post ->
        Forall (fun x => json_loads x = None) pre ->
        json_loads b = Some v ->
        extract_json response_text = Ok v)
  /\ (json_loads response_text = None ->
      json_error response_text = JSONDecodeError ->
      Forall (fun l => brace_line_parse json_loads l = None)
             (split_lines response_text) ->
      Forall (fun x => json_loads x = None)
             (find_json_blocks response_text) ->
      extract_json response_text = Ok parse_error).
Proof.
  unfold OllamaModel.extract_json, extract_json_fallback. repeat split.
  - intros v ->. reflexivity.
  - intros -> -> pre line post v -> Hpre Hline.
    now rewrite (first_brace_line_first pre line post v Hpre Hline).
  - intros -> -> Hlines pre b post v -> Hpre Hb.
    rewrite (first_brace_line_none _ Hlines).
    now rewrite (first_block_first pre b post v Hpre Hb).
  - intros -> -> Hlines Hblocks.
    rewrite (first_brace_line_none _ Hlines).
    now rewrite (first_block_none _ Hblocks).
Qed.

(** An exception of the first [json.loads] that is not a
    [JSONDecodeError] is not caught: it leaves [extract_json], whatever
    the later strategies would have found. *)
Lemma extract_json_escapes (response_text : string) :
  json_loads response_text = None ->
  json_error response_text <> JSONDecodeError ->
  extract_json response_text = Raise (json_error response_text).
Proof.
  intros Hload Herror. unfold OllamaModel.extract_json. rewrite Hload.
  now destruct (json_error response_text).
Qed.

(** A completion whose one candidate payload is a mapping with one tool
    call, itself a mapping, yields exactly one call, [call_0]. *)
Lemma one_payload_one_call (response_text json_block : string)
      (d entry : dict) :
  candidate_blocks response_text = [json_block] ->
  json_loads json_block = Some (VDict d) ->
  dict_lookup "tool_calls" d = Some (VList [VDict entry]) ->
  generate_with_tools response_text
  = mkExtraction
      (strip (remove_block response_text json_block))
      [mkToolCall "call_0"
                  (dict_get "name" entry (VStr EmptyString))
                  (dict_get "arguments" entry (VDict []))].
Proof.
  intros Hblocks Hload Hcalls.
  rewrite generate_with_tools_fold, Hblocks. cbn [fold_left].
  rewrite (process_block_payload [] response_text json_block d [entry]
             Hload Hcalls).
  reflexivity.
Qed.

End WithJson.

(** C1.  On a completion with one fenced block that holds one tool
    call, the extraction yields the one call [call_0], but the visible
    content is the whole completion: the fenced block is still in it. *)
Theorem fenced_block_not_removed :
  let r := OllamaModel.generate_with_tools SimpleJson.loads SimpleJson.dumps
             Samples.completion_one_call in
  map id (tool_calls r) = ["call_0"]
  /\ content r = Samples.completion_one_call
  /\ contains Samples.fenced_block_one_call (content r) = true.
Proof. vm_compute. repeat split. Qed.

(** The text the first [replace] looks for has one line break more than
    the completion has before the closing marker, so it is not found. *)
Example removal_pattern_not_found :
  find_json_blocks Samples.completion_one_call
  = [(SimpleJson.lit "{'tool_calls':[{'name':'search','arguments':{'q':'cats'}}]}"
      ++ nl)%string]
  /\ forall b, In b (find_json_blocks Samples.completion_one_call) ->
               contains (fence_json ++ nl ++ b ++ nl ++ fence)%string
                        Samples.completion_one_call = false.
Proof.
  split; [evaluate|].
  intros b [<-|[]]. evaluate.
Qed.

(** A marker that shares its line with other text opens no block. *)
Example inline_fence_not_a_block :
  find_json_blocks (SimpleJson.lit
"Sure! ```json
{'tool_calls':[{'name':'search','arguments':{'q':'cats'}}]}
```") = [].
Proof. evaluate. Qed.

Example one_call_extracted :
  tool_calls (OllamaModel.generate_with_tools SimpleJson.loads SimpleJson.dumps
                Samples.completion_one_call)
  = [mkToolCall "call_0" (VStr "search") (VDict [("q", VStr "cats")])].
Proof. evaluate. Qed.

(** C7, as stated: the payload of this completion parses, its array has
    three entries, the third a mapping named [b]; one call is extracted,
    and none for the third entry. *)
Lemma tool_call_normalization_counterexample :
  let r := OllamaModel.generate_with_tools SimpleJson.loads SimpleJson.dumps
             ExtractionSamples.completion_non_mapping_entry in
  OllamaModel.candidate_blocks SimpleJson.loads SimpleJson.dumps
    ExtractionSamples.completion_non_mapping_entry
  = [ExtractionSamples.non_mapping_block]
  /\ SimpleJson.loads ExtractionSamples.non_mapping_block
     = Some (VDict [("tool_calls",
                     VList [VDict [("name", VStr "a")];
                            VInt 5;
                            VDict [("name", VStr "b")]])])
  /\ tool_calls r = [mkToolCall "call_0" (VStr "a") (VDict [])]
  /\ ~ (exists call, In call (tool_calls r) /\ name call = VStr "b").
Proof.
  cbv zeta. split; [evaluate|]. split; [evaluate|]. split; [evaluate|].
  intros (call & Hin & Hname).
  vm_compute in Hin. destruct Hin as [<-|[]]. discriminate.
Qed.

Lemma tool_call_normalization_witness :
  tool_calls (OllamaModel.generate_with_tools
                SimpleJson.loads SimpleJson.dumps
                ExtractionSamples.completion_non_mapping_entry)
  = normalized 0 [[("name", VStr "a")]]
  /\ OllamaModel.payload_entries SimpleJson.loads
       (SimpleJson.lit "{'tool_calls':[{}, {'arguments': 3}]}" ++ nl)%string
     = [[]; [("arguments", VInt 3)]]
  /\ OllamaModel.payload_entries SimpleJson.loads
       ExtractionSamples.non_mapping_block
     = [[("name", VStr "a")]].
Proof.
  pose proof (tool_call_normalization SimpleJson.loads SimpleJson.dumps
                ExtractionSamples.completion_non_mapping_entry) as H.
  cbv zeta in H. destruct H as (Hcalls & _ & _ & Hall & Hstop).
  split; [|split].
  - rewrite Hcalls. evaluate.
  - apply (Hall _ [("tool_calls",
                    VList [VDict []; VDict [("arguments", VInt 3)]])]);
      evaluate.
  - apply (Hstop _ [("tool_calls",
                     VList [VDict [("name", VStr "a")];
                            VInt 5;
                            VDict [("name", VStr "b")]])]
                 [[("name", VStr "a")]] (VInt 5)
                 [VDict [("name", VStr "b")]]);
      evaluate.
Defined.

Example calls_across_blocks :
  tool_calls (OllamaModel.generate_with_tools SimpleJson.loads SimpleJson.dumps
                Samples.completion_two_blocks)
  = [mkToolCall "call_0" (VStr "a") (VDict []);
     mkToolCall "call_1" (VStr EmptyString) (VDict []);
     mkToolCall "call_2" (VStr EmptyString) (VInt 3)].
Proof. evaluate. Qed.

Lemma extraction_tolerance_witness :
  OllamaModel.generate_with_tools SimpleJson.loads SimpleJson.dumps
    Samples.completion_malformed
  = mkExtraction (strip Samples.completion_malformed) []
  /\ OllamaModel.candidate_blocks SimpleJson.loads SimpleJson.dumps
       ExtractionSamples.completion_malformed_then_call
     = [ExtractionSamples.malformed_block; ExtractionSamples.search_block]
  /\ SimpleJson.loads ExtractionSamples.malformed_block = None
  /\ tool_calls (OllamaModel.generate_with_tools
                   SimpleJson.loads SimpleJson.dumps
                   ExtractionSamples.completion_malformed_then_call)
     = [mkToolCall "call_0" (VStr "search") (VDict [("q", VStr "cats")])].
Proof.
  assert (H1 : forall b, In b (find_json_blocks Samples.completion_malformed) ->
                         SimpleJson.loads b = None).
  { intros b [<-|[]]. evaluate. }
  assert (H2 : find_json_blocks Samples.completion_malformed = [] ->
               SimpleJson.loads Samples.completion_malformed = None).
  { intros _. evaluate. }
  assert (H3 : OllamaModel.candidate_blocks SimpleJson.loads SimpleJson.dumps
                 ExtractionSamples.completion_malformed_then_call
               = [] ++ ExtractionSamples.malformed_block
                       :: [ExtractionSamples.search_block]).
  { evaluate. }
  assert (H4 : SimpleJson.loads ExtractionSamples.malformed_block = None).
  { evaluate. }
  split; [|split; [exact H3|split; [exact H4|]]].
  - exact (proj1 (extraction_tolerance SimpleJson.loads SimpleJson.dumps
                    Samples.completion_malformed) H1 H2).
  - rewrite (proj2 (proj2 (extraction_tolerance
                             SimpleJson.loads SimpleJson.dumps
                             ExtractionSamples.completion_malformed_then_call)
                      [] ExtractionSamples.malformed_block
                      [ExtractionSamples.search_block] H3 H4)).
    evaluate.
Defined.

(** The call of the block after the malformed one. *)
Example call_after_malformed_block :
  OllamaModel.generate_with_tools SimpleJson.loads SimpleJson.dumps
    ExtractionSamples.completion_malformed_then_call
  = mkExtraction ExtractionSamples.completion_malformed_then_call
      [mkToolCall "call_0" (VStr "search") (VDict [("q", VStr "cats")])].
Proof. evaluate. Qed.

Example malformed_content :
  content (OllamaModel.generate_with_tools SimpleJson.loads SimpleJson.dumps
             Samples.completion_malformed)
  = SimpleJson.lit
"Let me think.
```json
{'tool_calls': [
```".
Proof. evaluate. Qed.

Example extract_json_strategies :
  OllamaModel.extract_json SimpleJson.loads SimpleJson.error
    Samples.completion_brace_line
  = Ok (VDict [("city", VStr "Oslo"); ("population", VInt 700000)])
  /\ OllamaModel.extract_json SimpleJson.loads SimpleJson.error
       Samples.completion_fenced_only
     = Ok (VDict [("city", VStr "Bergen")])
  /\ OllamaModel.extract_json SimpleJson.loads SimpleJson.error
       Samples.completion_plain
     = Ok parse_error.
Proof.
  split; [|split].
  - apply (proj1 (proj2 (extract_json_strategy_order
                           SimpleJson.loads SimpleJson.error
                           Samples.completion_brace_line))
             eq_refl eq_refl
             ["Here you go:"]
             (SimpleJson.lit "  {'city': 'Oslo', 'population': 700000}")
             [fence_json; SimpleJson.lit "{'city': 'Bergen'}"; fence]).
    + evaluate.
    + evaluate_all.
    + evaluate.
  - refine (proj1 (proj2 (proj2 (extract_json_strategy_order
                                   SimpleJson.loads SimpleJson.error
                                   Samples.completion_fenced_only)))
              eq_refl eq_refl _ []
              (SimpleJson.lit "{'city':
 'Bergen'}
")
              [] (VDict [("city", VStr "Bergen")]) _ _ _).
    + evaluate_all.
    + evaluate.
    + evaluate_all.
    + evaluate.
  - apply (proj2 (proj2 (proj2 (extract_json_strategy_order
                                  SimpleJson.loads SimpleJson.error
                                  Samples.completion_plain)))
             eq_refl eq_refl);
      evaluate_all.
Qed.

(** An integer of just as many digits as [int] converts is read. *)
Example integer_at_the_limit :
  SimpleJson.loads_result (ExtractionSamples.repeat_char "1"%char 4300)
  <> Raise ValueError
  /\ SimpleJson.loads_result
       (ExtractionSamples.repeat_char "1"%char 4301 ++ " x")%string
     = Raise ValueError
  /\ SimpleJson.loads_result
       ("x " ++ ExtractionSamples.repeat_char "1"%char 4301)%string
     = Raise JSONDecodeError.
Proof.
  split; [|split; evaluate].
  destruct (SimpleJson.loads_result _) eqn:E; [discriminate|].
  vm_compute in E. discriminate.
Qed.

(** C8.  On a response that is one integer of 4301 digits the first
    [json.loads] raises a [ValueError] that is not a [JSONDecodeError].
    No line of the response is a brace line and it has no fenced block,
    so that every strategy fails and the later ones would end in the
    parse-error mapping; but they are not reached: the [ValueError]
    leaves [extract_json]. *)
Theorem extract_json_raises :
  let response_text := ExtractionSamples.completion_long_integer in
  SimpleJson.loads response_text = None
  /\ SimpleJson.error response_text = ValueError
  /\ first_brace_line SimpleJson.loads (split_lines response_text) = None
  /\ first_block SimpleJson.loads (find_json_blocks response_text) = None
  /\ extract_json_fallback SimpleJson.loads response_text = parse_error
  /\ OllamaModel.extract_json SimpleJson.loads SimpleJson.error response_text
     = Raise ValueError.
Proof. vm_compute. repeat split. Qed.

End OllamaModelProps.

(* ===================================================================== *)
(** * Properties of the direct-response tool *)
(* ===================================================================== *)

Module DirectResponseProps.
Import Py PyStr DirectResponse.

Lemma any_keyword_existsb (kws : list string) (prompt : string) :
  any_keyword kws prompt
  = existsb (fun keyword => Re.search_word keyword (lower prompt)) kws.
Proof.
  induction kws as [|keyword rest IH]; simpl; [reflexivity|].
  now destruct (Re.search_word keyword (lower prompt)).
Qed.

Lemma is_creative_task_keyword (prompt : string) :
  _is_creative_task prompt = has_creative_keyword prompt.
Proof. apply any_keyword_existsb. Qed.

(** C10.  When the [prompt] parameter is a string, [_execute] returns a
    [ToolResult] and does not raise; the result has [success] false and
    no data when the prompt has no creative keyword, and [success] true
    otherwise. *)
Theorem execute_total (parameters : dict) (prompt : string) :
  dict_lookup "prompt" parameters = Some (VStr prompt) ->
  exists r,
    _execute parameters = Ok r /\
    if has_creative_keyword prompt
    then success r = true
    else success r = false /\ data r = VNone.
Proof.
  intros Hprompt. unfold _execute, dict_get.
  rewrite Hprompt. cbn [as_str bind].
  rewrite is_creative_task_keyword.
  destruct (has_creative_keyword prompt); cbn [negb];
    eexists; (split; [reflexivity|]); cbn [success data]; auto.
Qed.

Lemma execute_total_witness :
  (exists r,
      _execute [("prompt", VStr "Write a poem about autumn")] = Ok r /\
      success r = true)
  /\ (exists r,
         _execute [("prompt", VStr "calculate 2 + 2")] = Ok r /\
         success r = false /\ data r = VNone).
Proof.
  split.
  - exact (execute_total [("prompt", VStr "Write a poem about autumn")]
                         "Write a poem about autumn" eq_refl).
  - exact (execute_total [("prompt", VStr "calculate 2 + 2")]
                         "calculate 2 + 2" eq_refl).
Defined.

(** Without a [prompt] the default, the empty string, is used. *)
Lemma execute_without_prompt (parameters : dict) :
  dict_lookup "prompt" parameters = None ->
  exists r, _execute parameters = Ok r /\ success r = false /\ data r = VNone.
Proof.
  intros Hprompt. unfold _execute, dict_get. rewrite Hprompt.
  eexists. split; [reflexivity|]. split; reflexivity.
Qed.

(** A prompt that is not a string is outside the claim: lowering it
    raises. *)
Example execute_prompt_not_a_string :
  _execute [("prompt", VInt 3)] = Raise AttributeError.
Proof. reflexivity. Qed.

Example execute_poem :
  _execute [("prompt", VStr "Write a poem about autumn")]
  = Ok (mkToolResult true "Poem generated successfully"
          (VDict [("content",
                   VStr "This is where the language model would generate a poem based on: Write a poem about autumn")])).
Proof. vm_compute. reflexivity. Qed.

Example context_prompt_poem :
  _create_context_prompt "Write a poem about the autumn leaves, please" "poem"
  = "You are a skilled poet. Write a beautiful and thoughtful poem about the autumn leaves. Be creative and expressive.".
Proof. vm_compute. reflexivity. Qed.

End DirectResponseProps.

(* ===================================================================== *)
(** * More properties of the orchestrator *)
(* ===================================================================== *)

Module OrchestratorExtra.
Import Py Orchestrator OrchestratorSetup Runs DictProps.
Local Open Scope py_scope.

Ltac evaluate := vm_compute; reflexivity.

(** ** The history *)

Section WithAgent.
Variable Agent : Type.
Variable agent_execute :
  Agent -> string -> value -> Agent * Py.result value.

Abbreviation execute_task := (Orchestrator.execute_task agent_execute).
Abbreviation reachable := (Orchestrator.reachable agent_execute).
Abbreviation run_tasks := (Runs.run_tasks agent_execute).

(** What one call does to the state, case by case. *)
Lemma execute_task_cases (self : State Agent) (task : string) (mode : value)
      (t0 t1 : Q) :
  let self' := fst (execute_task self task mode t0 t1) in
  config self' = config self /\
  ((exists e, snd (execute_task self task mode t0 t1) = Raise e /\
              task_history self' = task_history self /\
              last_result self' = last_result self)
   \/ (exists res record,
          snd (execute_task self task mode t0 t1) = Ok res /\
          task_history self' = task_history self ++ [record] /\
          status record = "completed" /\
          Orchestrator.result record = res /\
          Orchestrator.task record = task /\
          last_result self' = res)).
Proof.
  unfold Orchestrator.execute_task.
  destruct (match mode with VNone => _ | _ => _ end) as [m|e].
  - destruct (agent_execute (primary_agent self) task m) as [agent' [res|e]];
      cbn [fst snd config task_history last_result].
    + split; [reflexivity|]. right. eexists; eexists.
      repeat (split; [reflexivity|]). reflexivity.
    + split; [reflexivity|]. left. eexists. repeat split.
  - cbn [fst snd]. split; [reflexivity|]. left. eexists. repeat split.
Qed.

(** One call: a call that raises adds nothing, a call that returns adds
    one record, with its task and its result. *)
Lemma run_call_history (self : State Agent) (c : Call) :
  config (run_call agent_execute self c) = config self /\
  ((exists e, call_outcome agent_execute self c = Raise e /\
              task_history (run_call agent_execute self c)
              = task_history self)
   \/ (exists res record,
          call_outcome agent_execute self c = Ok res /\
          task_history (run_call agent_execute self c)
          = task_history self ++ [record] /\
          status record = "completed" /\
          Orchestrator.task record = call_task c /\
          Orchestrator.result record = res)).
Proof.
  unfold run_call, call_outcome.
  destruct (execute_task_cases self (call_task c) (call_mode c)
                               (call_start c) (call_end c))
    as (Hcfg & [(e & Hout & Hh & _)
               |(res & record & Hout & Hh & Hst & Hres & Htask & _)]).
  - split; [exact Hcfg|]. left. exists e. now split.
  - split; [exact Hcfg|]. right. exists res, record. repeat split; auto.
Qed.

(** X3.  A run of calls only appends to the history: the old records
    stay, in their place, and the configuration is not touched.  A call
    that raises adds no record; a call that returns adds exactly one, with
    its task, its result and the status "completed".  So the added
    records are, in order, those of the calls that returned. *)
Theorem history_append_only (calls : list Call) (self : State Agent) :
  config (run_tasks self calls) = config self
  /\ (exists added,
        task_history (run_tasks self calls) = task_history self ++ added /\
        map (fun r => (Orchestrator.task r, Orchestrator.result r)) added
        = returned agent_execute self calls /\
        length added <= length calls /\
        Forall (fun r => status r = "completed") added)
  /\ (forall c e,
        call_outcome agent_execute self c = Raise e ->
        task_history (run_tasks self [c]) = task_history self)
  /\ (forall c res,
        call_outcome agent_execute self c = Ok res ->
        exists record,
          task_history (run_tasks self [c]) = task_history self ++ [record] /\
          Orchestrator.task record = call_task c /\
          Orchestrator.result record = res /\
          status record = "completed").
Proof.
  split; [|split; [|split]].
  - revert self.
    induction calls as [|c rest IH]; intros self; [reflexivity|].
    cbn [Runs.run_tasks fold_left].
    specialize (IH (run_call agent_execute self c)).
    unfold Runs.run_tasks in IH. rewrite IH.
    exact (proj1 (run_call_history self c)).
  - revert self.
    induction calls as [|c rest IH]; intros self.
    + exists []. rewrite app_nil_r. repeat split; auto.
    + cbn [Runs.run_tasks fold_left returned].
      destruct (IH (run_call agent_execute self c))
        as (added & Hhist & Hret & Hlen & Hall).
      unfold Runs.run_tasks in Hhist.
      destruct (run_call_history self c)
        as (_ & [(e & Hout & Hh)|(res & record & Hout & Hh & Hst & Htask & Hres)]).
      * exists added. rewrite Hout, Hhist, Hh.
        repeat split; auto. simpl. lia.
      * exists (record :: added).
        rewrite Hout, Hhist, Hh, <- app_assoc.
        split; [reflexivity|]. split; [|split].
        -- cbn [map]. now rewrite Htask, Hres, Hret.
        -- simpl. lia.
        -- now constructor.
  - intros c e Hout. cbn [Runs.run_tasks fold_left].
    destruct (run_call_history self c)
      as (_ & [(e' & _ & Hh)|(res & record & Hout' & _)]); [exact Hh|].
    congruence.
  - intros c res Hout. cbn [Runs.run_tasks fold_left].
    destruct (run_call_history self c)
      as (_ & [(e' & Hout' & _)|(res' & record & Hout' & Hh & Hst & Htask & Hres)]);
      [congruence|].
    exists record. repeat split; auto. congruence.
Qed.

(** X4.  In every state the orchestrator reaches, [get_last_result] is
    the result stored in the most recent history record, and the empty
    dict while the history is empty. *)
Theorem last_result_matches_history (self : State Agent) :
  reachable self ->
  get_last_result self =
    match rev (task_history self) with
    | [] => VDict []
    | record :: _ => Orchestrator.result record
    end.
Proof.
  unfold get_last_result.
  induction 1 as [cfg agent|self task mode t0 t1 Hreach IH].
  - reflexivity.
  - destruct (execute_task_cases self task mode t0 t1)
      as (_ & [(e & _ & Hh & Hl)|(res & record & _ & Hh & _ & Hres & _ & Hl)]).
    + rewrite Hh, Hl. exact IH.
    + rewrite Hh, Hl, rev_app_distr. simpl. now rewrite Hres.
Qed.

(** X1.  For a limit of at least 1, [get_task_history] returns the end
    of the history: the history is some older records followed by the
    result, and the result has [min limit (length history)] records. *)
Theorem history_recent_records (self : State Agent) (limit : Z) :
  (1 <= limit)%Z ->
  exists older,
    task_history self = older ++ get_task_history self limit /\
    length (get_task_history self limit)
    = Nat.min (Z.to_nat limit) (length (task_history self)).
Proof.
  intros Hpos. unfold get_task_history, slice_from.
  destruct (Z.ltb_spec (- limit) 0) as [_|Hge]; [|lia].
  set (n := Z.to_nat (Z.max 0 (- limit + Z.of_nat (length (task_history self))))).
  exists (firstn n (task_history self)). split.
  - now rewrite firstn_skipn.
  - rewrite length_skipn. subst n. lia.
Qed.

(** X2.  A negative limit [-k] does not bound the result: it drops the
    [k] oldest records and returns all the others. *)
Theorem history_negative_limit (self : State Agent) (limit : Z) :
  (limit < 0)%Z ->
  get_task_history self limit
  = skipn (Z.to_nat (- limit)) (task_history self).
Proof.
  intros Hneg. unfold get_task_history, slice_from.
  destruct (Z.ltb_spec (- limit) 0) as [Hlt|_]; [lia|].
  destruct (Z.le_ge_cases (- limit) (Z.of_nat (length (task_history self))))
    as [Hle|Hge].
  - now rewrite Z.min_l by assumption.
  - rewrite Z.min_r by lia. rewrite Nat2Z.id.
    rewrite !skipn_all2; [reflexivity| |]; lia.
Qed.

End WithAgent.

Lemma history_append_only_witness :
  call_outcome echo_agent (init default_config 0) (mkCall "crash" VNone 4 5)
  = Raise (RuntimeError "model down")
  /\ task_history (Runs.run_tasks echo_agent (init default_config 0)
                                  [mkCall "crash" VNone 4 5])
     = task_history (init default_config 0)
  /\ (exists record,
        task_history (Runs.run_tasks echo_agent (init default_config 0)
                                     [mkCall "first" VNone 0 1])
        = task_history (init default_config 0) ++ [record] /\
        Orchestrator.task record = "first" /\
        Orchestrator.result record
        = VDict [("answer", VStr "first"); ("mode", VStr "single")] /\
        status record = "completed").
Proof.
  split; [evaluate|]. split.
  - apply (proj1 (proj2 (proj2 (history_append_only nat echo_agent []
                                  (init default_config 0))))
             (mkCall "crash" VNone 4 5) (RuntimeError "model down")).
    evaluate.
  - apply (proj2 (proj2 (proj2 (history_append_only nat echo_agent []
                                  (init default_config 0))))
             (mkCall "first" VNone 0 1)).
    evaluate.
Defined.

(** Of the four sample calls the third raises: three records. *)
Example sample_calls_returned :
  returned echo_agent (init default_config 0) sample_calls
  = [ ("first", VDict [("answer", VStr "first"); ("mode", VStr "single")]);
      ("second", VDict [("answer", VStr "second"); ("mode", VStr "multi")]);
      ("third", VDict [("answer", VStr "third"); ("mode", VStr "auto")]) ]
  /\ map Orchestrator.task (task_history after_sample_calls)
     = ["first"; "second"; "third"].
Proof. split; evaluate. Qed.


Example sample_run_tasks :
  map Orchestrator.task (task_history after_sample_calls)
  = ["first"; "second"; "third"].
Proof. evaluate. Qed.

Lemma last_result_matches_history_witness :
  Orchestrator.reachable echo_agent after_sample_calls /\
  get_last_result after_sample_calls
  = VDict [("answer", VStr "third"); ("mode", VStr "auto")].
Proof.
  assert (Hreach : Orchestrator.reachable echo_agent after_sample_calls).
  { unfold after_sample_calls, Runs.run_tasks, sample_calls.
    cbn [fold_left]. unfold run_call.
    repeat apply reach_exec. apply reach_init. }
  split; [exact Hreach|].
  rewrite (last_result_matches_history nat echo_agent after_sample_calls Hreach).
  evaluate.
Defined.

Lemma history_recent_records_witness :
  (1 <= 2)%Z /\
  exists older,
    task_history after_sample_calls
    = older ++ get_task_history after_sample_calls 2 /\
    length (get_task_history after_sample_calls 2) = 2.
Proof.
  split; [lia|].
  exact (history_recent_records nat after_sample_calls 2 ltac:(lia)).
Defined.

Lemma history_negative_limit_witness :
  (-1 < 0)%Z /\
  map Orchestrator.task (get_task_history after_sample_calls (-1))
  = ["second"; "third"].
Proof.
  split; [lia|].
  rewrite (history_negative_limit nat after_sample_calls (-1) ltac:(lia)).
  evaluate.
Defined.

(** ** Merging and loading the configuration *)

(** The value the first iteration of the merge loop stores. *)
Lemma merge_items_step (default rest : dict) (key : string) (value : Py.value)
      (merged : dict) :
  merge_items default ((key, value) :: rest) = Ok merged ->
  exists stored,
    merge_items (dict_set key stored default) rest = Ok merged /\
    match dict_lookup key default, value with
    | Some (VDict sub), VDict _ =>
        exists m, _merge_configs sub value = Ok m /\ stored = VDict m
    | _, _ => stored = value
    end.
Proof.
  cbn [merge_items].
  destruct (dict_lookup key default) as [[| | | | | |sub]|];
    try (intros H; exists value; now split).
  destruct value as [| | | | | |over];
    try (intros H; eexists; split; [exact H|reflexivity]).
  destruct (_merge_configs sub (VDict over)) as [m|e] eqn:E; cbn [bind];
    [|discriminate].
  intros H. exists (VDict m). eauto.
Qed.

(** A key the override does not have keeps what the default holds. *)
Lemma merge_items_untouched (override default merged : dict) (k : string) :
  merge_items default override = Ok merged ->
  dict_lookup k override = None ->
  dict_lookup k merged = dict_lookup k default.
Proof.
  revert default.
  induction override as [|[key value] rest IH]; intros default Hm Hk.
  - simpl in Hm. congruence.
  - apply merge_items_step in Hm. destruct Hm as (stored & Hm & _).
    simpl in Hk. destruct (String.eqb_spec k key) as [->|Hne]; [discriminate|].
    rewrite (IH _ Hm Hk). now apply dict_lookup_set_other.
Qed.

(** A key of the override whose value is not a dict holds that value. *)
Lemma merge_items_replaced (override default merged : dict) (k : string)
      (v : value) :
  NoDup (keys override) ->
  merge_items default override = Ok merged ->
  dict_lookup k override = Some v ->
  is_dict v = false ->
  dict_lookup k merged = Some v.
Proof.
  revert default.
  induction override as [|[key value] rest IH]; intros default Hnd Hm Hk Hv;
    [discriminate|].
  inversion Hnd as [|? ? Hkey Hrest]; subst.
  apply merge_items_step in Hm. destruct Hm as (stored & Hm & Hstored).
  simpl in Hk. destruct (String.eqb_spec k key) as [->|Hne].
  - injection Hk as ->.
    rewrite (merge_items_untouched _ _ _ _ Hm (dict_lookup_absent _ _ Hkey)).
    rewrite dict_lookup_set_same.
    destruct (dict_lookup key default) as [[]|]; try congruence.
    destruct v; try congruence. discriminate.
  - now apply (IH _ Hrest Hm Hk).
Qed.

(** A key that holds a dict on both sides holds a dict afterwards. *)
Lemma merge_items_nested (override default merged : dict) (k : string)
      (sub over : dict) :
  NoDup (keys override) ->
  merge_items default override = Ok merged ->
  dict_lookup k override = Some (VDict over) ->
  dict_lookup k default = Some (VDict sub) ->
  exists m, _merge_configs sub (VDict over) = Ok m /\
            dict_lookup k merged = Some (VDict m).
Proof.
  revert default.
  induction override as [|[key value] rest IH]; intros default Hnd Hm Hk Hd;
    [discriminate|].
  inversion Hnd as [|? ? Hkey Hrest]; subst.
  apply merge_items_step in Hm. destruct Hm as (stored & Hm & Hstored).
  simpl in Hk. destruct (String.eqb_spec k key) as [->|Hne].
  - injection Hk as ->. rewrite Hd in Hstored.
    destruct Hstored as (m & Hsub & ->). exists m. split; [exact Hsub|].
    rewrite (merge_items_untouched _ _ _ _ Hm (dict_lookup_absent _ _ Hkey)).
    apply dict_lookup_set_same.
  - apply (IH _ Hrest Hm Hk).
    rewrite dict_lookup_set_other by assumption. exact Hd.
Qed.

Lemma dict_set_absent (k : string) (v : value) (d : dict) :
  dict_lookup k d = None -> dict_set k v d = d ++ [(k, v)].
Proof.
  induction d as [|[k' v'] d IH]; simpl; [reflexivity|].
  destruct (String.eqb_spec k k'); [discriminate|].
  intros H. now rewrite IH.
Qed.

(** X7.  When the override has distinct keys, none of them a key of the
    default, the merge is the default followed by the override. *)
Theorem merge_disjoint_appends (default override : dict) :
  NoDup (keys override) ->
  (forall k, In k (keys override) -> ~ In k (keys default)) ->
  _merge_configs default (VDict override) = Ok (default ++ override).
Proof.
  rewrite OrchestratorProps.merge_configs_loop. revert default.
  induction override as [|[key value] rest IH]; intros default Hnd Hdisj.
  - simpl. now rewrite app_nil_r.
  - inversion Hnd as [|? ? Hkey Hrest]; subst.
    assert (Habsent : dict_lookup key default = None).
    { apply dict_lookup_absent. apply Hdisj. now left. }
    cbn [merge_items]. rewrite Habsent.
    rewrite (dict_set_absent _ _ _ Habsent).
    rewrite IH; [now rewrite <- app_assoc|exact Hrest|].
    intros k Hk. unfold keys. rewrite map_app, in_app_iff. simpl.
    intros [Hin|[<-|[]]]; [|exact (Hkey Hk)].
    apply (Hdisj k); [now right|exact Hin].
Qed.

(** X8.  The merge keeps the keys of the default in their order and puts
    the new keys of the override after them, in the order of the override;
    no key is lost. *)
Theorem merge_key_order (default override merged : dict) :
  NoDup (keys override) ->
  _merge_configs default (VDict override) = Ok merged ->
  keys merged
  = keys default
    ++ filter (fun k => negb (dict_mem k default)) (keys override).
Proof.
  rewrite OrchestratorProps.merge_configs_loop. revert default.
  induction override as [|[key value] rest IH]; intros default Hnd Hm.
  - simpl in Hm. injection Hm as <-. simpl. now rewrite app_nil_r.
  - inversion Hnd as [|? ? Hkey Hrest]; subst.
    apply merge_items_step in Hm. destruct Hm as (stored & Hm & _).
    rewrite (IH _ Hrest Hm), keys_dict_set.
    assert (Hfilter :
              filter (fun k => negb (dict_mem k (dict_set key stored default)))
                     (keys rest)
              = filter (fun k => negb (dict_mem k default)) (keys rest)).
    { apply filter_ext_in. intros k Hk. unfold dict_mem.
      rewrite dict_lookup_set_other; [reflexivity|].
      intros ->. exact (Hkey Hk). }
    rewrite Hfilter. cbn [keys map fst filter].
    destruct (dict_mem key default); cbn [negb]; [reflexivity|].
    now rewrite <- app_assoc.
Qed.

(** X5.  Whatever the file holds, the configuration [_load_config]
    returns has a mapping under [agent]; so a call of [execute_task]
    without a mode on an orchestrator with that configuration finds its
    mode (the [mode] of [agent], or "single") and reaches the agent: what
    the call returns or raises is what the agent returns or raises. *)
Theorem loaded_config_has_agent (path_exists : bool)
        (safe_load : Py.result value) (cfg : dict) :
  _load_config path_exists safe_load = Ok cfg ->
  exists agent_config,
    dict_get "agent" cfg (VDict []) = VDict agent_config /\
    forall (Agent : Type)
           (agent_execute : Agent -> string -> value -> Agent * Py.result value)
           (self : State Agent) (task : string) (t0 t1 : Q),
      config self = cfg ->
      snd (Orchestrator.execute_task agent_execute self task VNone t0 t1)
      = snd (agent_execute (primary_agent self) task
                           (dict_get "mode" agent_config (VStr "single"))).
Proof.
  intros Hload.
  assert (Hagent : exists agent_config,
             dict_get "agent" cfg (VDict []) = VDict agent_config).
  { unfold _load_config in Hload.
    destruct (negb path_exists).
    - injection Hload as <-. eexists. reflexivity.
    - destruct safe_load as [doc|e]; cbn [bind try_except] in Hload;
        [|injection Hload as <-; eexists; reflexivity].
      destruct (_merge_configs default_config doc) as [merged|e];
        cbn [bind try_except get] in Hload;
        [|injection Hload as <-; eexists; reflexivity].
      destruct (dict_get "agent" merged (VDict [])) as [| | | | | |a] eqn:E;
        cbn [bind get] in Hload; injection Hload as <-;
        try (eexists; reflexivity).
      exists a. exact E. }
  destruct Hagent as (agent_config & Hagent).
  exists agent_config. split; [exact Hagent|].
  intros Agent agent_execute self task t0 t1 Hcfg.
  unfold Orchestrator.execute_task. rewrite Hcfg. cbn [get bind].
  rewrite Hagent. cbn [get bind].
  now destruct (agent_execute _ _ _) as [agent' [res|e]].
Qed.

Lemma loaded_config_has_agent_witness :
  exists agent_config,
    dict_get "agent" default_config (VDict []) = VDict agent_config /\
    snd (Orchestrator.execute_task echo_agent (init default_config 0)
           "crash" VNone 0 1)
    = Raise (RuntimeError "model down").
Proof.
  destruct (loaded_config_has_agent false (Raise OSError) default_config
              eq_refl) as (agent_config & Hagent & Hrun).
  exists agent_config. split; [exact Hagent|].
  rewrite (Hrun nat echo_agent (init default_config 0) "crash" 0%Q 1%Q eq_refl).
  reflexivity.
Defined.

(** X6.  A file that holds a mapping with distinct keys is merged over
    the default, unless its [agent] entry is not a mapping: then the whole
    file is dropped, its other sections too, and the default is returned. *)
Theorem load_config_agent_section (override : dict) :
  NoDup (keys override) ->
  match dict_lookup "agent" override with
  | Some (VDict _) | None =>
      _load_config true (Ok (VDict override))
      = _merge_configs default_config (VDict override)
  | Some _ =>
      _load_config true (Ok (VDict override)) = Ok default_config
  end.
Proof.
  intros Hnd.
  destruct (OrchestratorProps.merge_configs_total (VDict override) eq_refl
              default_config) as (merged & Hmerged).
  unfold _load_config. cbn [negb bind]. rewrite Hmerged. cbn [bind get].
  rewrite OrchestratorProps.merge_configs_loop in Hmerged.
  assert (Hfail : forall v, dict_lookup "agent" override = Some v ->
                            is_dict v = false ->
                            try_except
                              (_ <- (get (dict_get "agent" merged (VDict []))
                                         "mode" VNone) ;; Ok merged)
                              (fun _ => Ok default_config)
                            = Ok default_config).
  { intros v Hv Hnot. unfold dict_get.
    rewrite (merge_items_replaced _ _ _ _ _ Hnd Hmerged Hv Hnot).
    now destruct v. }
  destruct (dict_lookup "agent" override) as [v|] eqn:E.
  - destruct v; try (apply (Hfail _ eq_refl eq_refl)).
    destruct (merge_items_nested _ _ _ "agent" _ d Hnd Hmerged E eq_refl)
      as (m & _ & Hm).
    unfold dict_get. now rewrite Hm.
  - unfold dict_get.
    now rewrite (merge_items_untouched _ _ _ _ Hmerged E).
Qed.

Lemma load_config_agent_section_witness :
  NoDup (keys override_bad_agent) /\
  _load_config true (Ok (VDict override_bad_agent)) = Ok default_config.
Proof.
  assert (Hnd : NoDup (keys override_bad_agent)).
  { repeat constructor; simpl; intuition discriminate. }
  split; [exact Hnd|].
  exact (load_config_agent_section override_bad_agent Hnd).
Defined.

Lemma merge_disjoint_appends_witness :
  NoDup (keys config_right) /\
  (forall k, In k (keys config_right) -> ~ In k (keys config_left)) /\
  _merge_configs config_left (VDict config_right)
  = Ok (config_left ++ config_right).
Proof.
  assert (Hnd : NoDup (keys config_right)).
  { repeat constructor; simpl; intuition discriminate. }
  assert (Hdisj : forall k, In k (keys config_right) ->
                            ~ In k (keys config_left)).
  { simpl. intros k [<-|[<-|[]]]; intuition discriminate. }
  split; [exact Hnd|]. split; [exact Hdisj|].
  exact (merge_disjoint_appends config_left config_right Hnd Hdisj).
Defined.

Lemma merge_key_order_witness :
  NoDup (keys Samples.override_config) /\
  exists merged,
    _merge_configs default_config (VDict Samples.override_config) = Ok merged /\
    keys merged = ["agent"; "memory"; "models"; "tools"; "specialized_agents"].
Proof.
  assert (Hnd : NoDup (keys Samples.override_config)).
  { repeat constructor; simpl; intuition discriminate. }
  split; [exact Hnd|].
  eexists. split; [reflexivity|].
  rewrite (merge_key_order default_config Samples.override_config _ Hnd eq_refl).
  reflexivity.
Defined.

End OrchestratorExtra.

(* ===================================================================== *)
(** * Properties of the string operations *)
(* ===================================================================== *)

Module PyStrProps.
Import PyStr.
Local Open Scope string_scope.

Lemma append_assoc (a b c : string) : (a ++ b) ++ c = a ++ (b ++ c).
Proof. induction a as [|x a IH]; simpl; [reflexivity|now rewrite IH]. Qed.

Lemma append_nil_r (a : string) : a ++ EmptyString = a.
Proof. induction a as [|x a IH]; simpl; [reflexivity|now rewrite IH]. Qed.

Lemma strip_prefix_spec (p s r : string) :
  strip_prefix p s = Some r <-> s = p ++ r.
Proof.
  revert s. induction p as [|a p IH]; intros s; simpl.
  - split; [now intros [= ->]|now intros ->].
  - destruct s as [|b s]; [split; discriminate|].
    destruct (Ascii.eqb_spec a b) as [->|Hne].
    + rewrite IH. split; [now intros ->|now intros [= ->]].
    + split; [discriminate|intros [= Hab _]; symmetry in Hab; contradiction].
Qed.

Lemma startswith_spec (s p : string) :
  startswith s p = true <-> exists r, s = p ++ r.
Proof.
  unfold startswith. destruct (strip_prefix p s) as [r|] eqn:E.
  - apply strip_prefix_spec in E. split; eauto.
  - split; [discriminate|]. intros (r & Hr).
    apply strip_prefix_spec in Hr. congruence.
Qed.

(** [sub in s] holds exactly when [s] is some text, [sub], some text. *)
Lemma contains_spec (sub s : string) :
  contains sub s = true <-> exists pre post, s = pre ++ sub ++ post.
Proof.
  induction s as [|c s IH]; simpl.
  - rewrite orb_false_r, startswith_spec. split.
    + intros (r & Hr). exists EmptyString, r. exact Hr.
    + intros (pre & post & H). destruct pre; [eauto|discriminate].
  - rewrite orb_true_iff, startswith_spec, IH. split.
    + intros [(r & Hr)|(pre & post & ->)].
      * exists EmptyString, r. exact Hr.
      * exists (String c pre), post. reflexivity.
    + intros (pre & post & H). destruct pre as [|x pre].
      * left. eauto.
      * right. injection H as _ ->. eauto.
Qed.

Lemma contains_append_r (a b s : string) :
  contains (a ++ b) s = true -> contains b s = true.
Proof.
  rewrite !contains_spec. intros (pre & post & ->).
  exists (pre ++ a), post. now rewrite !append_assoc.
Qed.

Lemma replace_aux_absent (old new s : string) :
  contains old s = false -> replace_aux old new 0 s = s.
Proof.
  induction s as [|c s IH]; simpl; [reflexivity|].
  rewrite orb_false_iff. intros [-> Htail]. now rewrite IH.
Qed.

(** Replacing a text that does not occur changes nothing. *)
Lemma replace_absent (s old new : string) :
  contains old s = false -> replace s old new = s.
Proof.
  unfold replace. destruct old as [|a old].
  - destruct s; discriminate.
  - apply replace_aux_absent.
Qed.

Lemma rstrip_cons (c : ascii) (s : string) :
  rstrip (String c s)
  = match rstrip s with
    | EmptyString => if is_space c then EmptyString else String c EmptyString
    | String a r => String c (String a r)
    end.
Proof. reflexivity. Qed.

Lemma rstrip_idempotent (s : string) : rstrip (rstrip s) = rstrip s.
Proof.
  induction s as [|c s IH]; [reflexivity|].
  rewrite rstrip_cons.
  destruct (rstrip s) as [|a r] eqn:E.
  - destruct (is_space c) eqn:Hc; [reflexivity|].
    rewrite rstrip_cons. simpl. now rewrite Hc.
  - rewrite rstrip_cons, IH. reflexivity.
Qed.

Lemma rstrip_head (c : ascii) (s : string) :
  is_space c = false -> exists t, rstrip (String c s) = String c t.
Proof.
  intros Hc. simpl. destruct (rstrip s); [rewrite Hc|]; eauto.
Qed.

Lemma lstrip_head (s : string) :
  lstrip s = EmptyString \/
  exists c t, lstrip s = String c t /\ is_space c = false.
Proof.
  induction s as [|c s IH]; simpl; [now left|].
  destruct (is_space c) eqn:Hc; [exact IH|right; eauto].
Qed.

(** Stripping twice is stripping once. *)
Lemma strip_idempotent (s : string) : strip (strip s) = strip s.
Proof.
  unfold strip. destruct (lstrip_head s) as [->|(c & t & -> & Hc)];
    [reflexivity|].
  destruct (rstrip_head c t Hc) as (u & Hu).
  rewrite Hu at 1. cbn [lstrip]. rewrite Hc, <- Hu.
  apply rstrip_idempotent.
Qed.

Lemma lower_idempotent (s : string) : lower (lower s) = lower s.
Proof.
  induction s as [|c s IH]; simpl; [reflexivity|]. rewrite IH. f_equal.
  unfold lower_char. destruct (is_upper c) eqn:Hc; [|now rewrite Hc].
  unfold is_upper, in_range in *.
  apply andb_true_iff in Hc. destruct Hc as [H1 H2].
  apply Nat.leb_le in H1, H2.
  rewrite nat_ascii_embedding by lia.
  replace (Nat.leb (nat_of_ascii c + 32) 90) with false
    by (symmetry; apply Nat.leb_gt; lia).
  now rewrite andb_false_r.
Qed.

End PyStrProps.

(* ===================================================================== *)
(** * More properties of the tool-call extraction *)
(* ===================================================================== *)

Module OllamaModelExtra.
Import Py PyStr OllamaModel PyStrProps ExtractionSamples.

Ltac evaluate := vm_compute; reflexivity.

(** ** The fenced blocks *)

Lemma scan_line_blocks_end (st : Scan) (line : string) :
  (json_content st = EmptyString \/
   exists x, json_content st = (x ++ nl)%string) ->
  Forall (fun b => b = EmptyString \/ exists x, b = (x ++ nl)%string)
         (json_blocks st) ->
  (json_content (scan_line st line) = EmptyString \/
   exists x, json_content (scan_line st line) = (x ++ nl)%string) /\
  Forall (fun b => b = EmptyString \/ exists x, b = (x ++ nl)%string)
         (json_blocks (scan_line st line)).
Proof.
  intros Hc Hb. unfold scan_line.
  destruct (is_fence_line line), (in_json_block st); cbn [json_content json_blocks].
  - split; [now left|]. apply Forall_app. split; [exact Hb|]. now constructor.
  - now split.
  - split; [|exact Hb]. right. exists (json_content st ++ line)%string.
    now rewrite append_assoc.
  - now split.
Qed.

(** Every fenced block is empty or ends with a line break. *)
Lemma find_json_blocks_end (response_text : string) :
  Forall (fun b => b = EmptyString \/ exists x, b = (x ++ nl)%string)
         (find_json_blocks response_text).
Proof.
  unfold find_json_blocks.
  assert (H : forall lines st,
             (json_content st = EmptyString \/
              exists x, json_content st = (x ++ nl)%string) ->
             Forall (fun b => b = EmptyString \/ exists x, b = (x ++ nl)%string)
                    (json_blocks st) ->
             Forall (fun b => b = EmptyString \/ exists x, b = (x ++ nl)%string)
                    (json_blocks (fold_left scan_line lines st))).
  { induction lines as [|line rest IH]; intros st Hc Hb; simpl; [exact Hb|].
    destruct (scan_line_blocks_end st line Hc Hb) as [Hc' Hb'].
    now apply IH. }
  apply H; [now left|constructor].
Qed.

Lemma scan_line_count (st : Scan) (line : string) :
  2 * length (json_blocks (scan_line st line))
  + (if in_json_block (scan_line st line) then 1 else 0)
  = 2 * length (json_blocks st) + (if in_json_block st then 1 else 0)
    + (if is_fence_line line then 1 else 0).
Proof.
  unfold scan_line.
  destruct (is_fence_line line), (in_json_block st) eqn:E;
    cbn [json_blocks in_json_block]; rewrite ?E, ?length_app; simpl; lia.
Qed.

(** X10.  The number of fenced blocks is half the number of marker
    lines, rounded down: a block opened by a last, odd marker is dropped. *)
Theorem fenced_blocks_count (response_text : string) :
  length (find_json_blocks response_text)
  = Nat.div2 (length (filter is_fence_line (split_lines response_text))).
Proof.
  unfold find_json_blocks.
  assert (H : forall lines st,
             2 * length (json_blocks (fold_left scan_line lines st))
             + (if in_json_block (fold_left scan_line lines st) then 1 else 0)
             = 2 * length (json_blocks st)
               + (if in_json_block st then 1 else 0)
               + length (filter is_fence_line lines)).
  { induction lines as [|line rest IH]; intros st; cbn [fold_left filter];
      [cbn [length]; lia|].
    rewrite IH, scan_line_count.
    destruct (is_fence_line line); cbn [length]; lia. }
  specialize (H (split_lines response_text) (mkScan false EmptyString [])).
  cbn [json_blocks in_json_block length] in H.
  set (final := fold_left scan_line (split_lines response_text)
                          (mkScan false EmptyString [])) in *.
  assert (Hcount : length (filter is_fence_line (split_lines response_text))
                   = 2 * length (json_blocks final)
                     + (if in_json_block final then 1 else 0)) by lia.
  rewrite Hcount.
  destruct (in_json_block final).
  - replace (2 * length (json_blocks final) + 1)
      with (S (2 * length (json_blocks final))) by lia.
    apply eq_sym, Nat.div2_succ_double.
  - rewrite Nat.add_0_r. apply eq_sym, Nat.div2_double.
Qed.

Example unclosed_block_dropped :
  length (filter is_fence_line (split_lines completion_unclosed)) = 3 /\
  find_json_blocks completion_unclosed
  = [(SimpleJson.lit "{'a': 1}" ++ nl)%string].
Proof. split; evaluate. Qed.

(** ** Reading a fenced block back *)

Lemma split_lines_nonempty (s : string) : split_lines s <> [].
Proof.
  destruct s as [|c s]; simpl; [discriminate|].
  destruct (Ascii.eqb c newline); [discriminate|].
  destruct (split_lines s); discriminate.
Qed.

(** Splitting undoes joining with a line break. *)
Lemma split_lines_append (a b : string) :
  split_lines (a ++ nl ++ b) = split_lines a ++ split_lines b.
Proof.
  induction a as [|c a IH].
  - reflexivity.
  - cbn [append split_lines]. rewrite IH.
    destruct (Ascii.eqb c newline); [reflexivity|].
    pose proof (split_lines_nonempty a) as Hne.
    destruct (split_lines a); [contradiction|reflexivity].
Qed.

Lemma split_lines_concat (lines : list string) :
  lines <> [] ->
  Forall (fun l => split_lines l = [l]) lines ->
  split_lines (String.concat nl lines) = lines.
Proof.
  induction lines as [|l rest IH]; intros Hne Hall; [contradiction|].
  inversion Hall as [|? ? Hl Hrest]; subst.
  destruct rest as [|l' rest'].
  - simpl. exact Hl.
  - change (String.concat nl (l :: l' :: rest'))
      with (l ++ nl ++ String.concat nl (l' :: rest'))%string.
    rewrite split_lines_append, Hl, IH; [reflexivity|discriminate|exact Hrest].
Qed.

Lemma scan_outside (lines : list string) :
  Forall (fun l => is_fence_line l = false) lines ->
  forall content blocks,
    fold_left scan_line lines (mkScan false content blocks)
    = mkScan false content blocks.
Proof.
  induction 1 as [|l rest Hl _ IH]; intros content blocks; [reflexivity|].
  cbn [fold_left]. unfold scan_line at 2. rewrite Hl.
  cbn [in_json_block]. apply IH.
Qed.

Lemma scan_inside (lines : list string) :
  Forall (fun l => is_fence_line l = false) lines ->
  forall content blocks,
    fold_left scan_line lines (mkScan true content blocks)
    = mkScan true
        (content ++ String.concat EmptyString
                                  (map (fun l => (l ++ nl)%string) lines))
        blocks.
Proof.
  induction 1 as [|l rest Hl _ IH]; intros content blocks.
  - simpl. now rewrite append_nil_r.
  - cbn [fold_left]. unfold scan_line at 2. rewrite Hl.
    cbn [in_json_block json_content json_blocks]. rewrite IH. f_equal.
    rewrite append_assoc. f_equal.
    destruct rest as [|l' rest']; simpl.
    + now rewrite append_nil_r.
    + now rewrite append_assoc.
Qed.

(** X28.  A fenced block is read back as its lines, each followed by a
    line break: for a completion made of lines, with one opening marker
    line, then body lines, then one closing marker line, and no other
    marker line before or after, the fenced blocks are exactly the one
    block that joins the body lines. *)
Theorem fenced_block_read_back (before body after : list string)
        (opening closing : string) :
  Forall (fun l => split_lines l = [l])
         (before ++ opening :: body ++ closing :: after) ->
  is_fence_line opening = true ->
  is_fence_line closing = true ->
  Forall (fun l => is_fence_line l = false) (before ++ body ++ after) ->
  find_json_blocks
    (String.concat nl (before ++ opening :: body ++ closing :: after))
  = [String.concat EmptyString (map (fun l => (l ++ nl)%string) body)].
Proof.
  intros Hlines Hopen Hclose Hplain.
  apply Forall_app in Hplain. destruct Hplain as [Hbefore Hplain].
  apply Forall_app in Hplain. destruct Hplain as [Hbody Hafter].
  unfold find_json_blocks.
  rewrite split_lines_concat; [|now destruct before|exact Hlines].
  rewrite fold_left_app, (scan_outside before Hbefore).
  cbn [fold_left]. unfold scan_line at 2. rewrite Hopen.
  cbn [in_json_block json_content json_blocks].
  rewrite fold_left_app, (scan_inside body Hbody).
  cbn [fold_left]. unfold scan_line at 2. rewrite Hclose.
  cbn [in_json_block json_content json_blocks].
  now rewrite (scan_outside after Hafter).
Qed.

Lemma fenced_block_read_back_witness :
  find_json_blocks
    (String.concat nl
       (["Sure!"] ++ "```json" :: ["{"; "}"] ++ "  ```  " :: ["Done."]))
  = [String.concat EmptyString (map (fun l => (l ++ nl)%string) ["{"; "}"])].
Proof.
  apply (fenced_block_read_back ["Sure!"] ["{"; "}"] ["Done."]
           "```json" "  ```  ").
  - repeat constructor.
  - reflexivity.
  - reflexivity.
  - repeat constructor.
Defined.

(** ** The visible content *)

Lemma remove_block_kept (content x : string) :
  contains (nl ++ nl ++ fence) content = false ->
  remove_block content (x ++ nl) = content.
Proof.
  intros Hno. unfold remove_block.
  assert (H1 : contains (fence_json ++ nl ++ (x ++ nl) ++ nl ++ fence) content
               = false).
  { apply not_true_is_false. intros E.
    replace (fence_json ++ nl ++ (x ++ nl) ++ nl ++ fence)%string
      with ((fence_json ++ nl ++ x) ++ (nl ++ nl ++ fence))%string in E
      by (now rewrite !append_assoc).
    apply contains_append_r in E. congruence. }
  assert (H2 : contains (fence ++ nl ++ (x ++ nl) ++ nl ++ fence) content
               = false).
  { apply not_true_is_false. intros E.
    replace (fence ++ nl ++ (x ++ nl) ++ nl ++ fence)%string
      with ((fence ++ nl ++ x) ++ (nl ++ nl ++ fence))%string in E
      by (now rewrite !append_assoc).
    apply contains_append_r in E. congruence. }
  rewrite (replace_absent _ _ _ H1). now apply replace_absent.
Qed.

Section WithJson.
Variable json_loads : string -> option value.
Variable json_dumps : value -> string.

Abbreviation process_block := (OllamaModel.process_block json_loads).
Abbreviation generate_with_tools :=
  (OllamaModel.generate_with_tools json_loads json_dumps).

Lemma process_block_content_kept (calls : list ToolCall)
      (content b : string) :
  json_loads EmptyString = None ->
  contains (nl ++ nl ++ fence) content = false ->
  (b = EmptyString \/ exists x, b = (x ++ nl)%string) ->
  snd (process_block (calls, content) b) = content.
Proof.
  intros Hempty Hno Hb. unfold OllamaModel.process_block.
  destruct (json_loads b) as [data|] eqn:Hload; [|reflexivity].
  destruct (py_in "tool_calls" data) as [[]|]; try reflexivity.
  destruct (bind (getitem data "tool_calls") iterate) as [entries|];
    [|reflexivity].
  destruct (add_tool_calls entries calls) as [calls' []]; [|reflexivity].
  cbn [snd]. destruct Hb as [->|(x & ->)]; [congruence|].
  now apply remove_block_kept.
Qed.

Lemma fold_content_kept (blocks : list string) :
  json_loads EmptyString = None ->
  Forall (fun b => b = EmptyString \/ exists x, b = (x ++ nl)%string) blocks ->
  forall calls content,
    contains (nl ++ nl ++ fence) content = false ->
    snd (fold_left process_block blocks (calls, content)) = content.
Proof.
  intros Hempty Hall.
  induction Hall as [|b rest Hb _ IH]; intros calls content Hno;
    [reflexivity|].
  cbn [fold_left].
  pose proof (process_block_content_kept calls content b Hempty Hno Hb) as Hkept.
  destruct (process_block (calls, content) b) as [calls' content'].
  cbn [snd] in Hkept. subst content'. now apply IH.
Qed.

(** X9.  No fenced block is ever taken out of the content: for a
    completion that has a fenced block and no empty line right before a
    line that starts with a marker, the content returned is the whole
    completion, stripped.  (The text looked for ends with the block's own
    line break, one more line break and a marker.) *)
Theorem fenced_blocks_stay_in_content (response_text : string) :
  json_loads EmptyString = None ->
  find_json_blocks response_text <> [] ->
  contains (nl ++ nl ++ fence) response_text = false ->
  content (generate_with_tools response_text) = strip response_text.
Proof.
  intros Hempty Hblocks Hno.
  rewrite (OllamaModelProps.generate_with_tools_fold json_loads json_dumps).
  cbn [content]. f_equal.
  apply fold_content_kept; [exact Hempty| |exact Hno].
  unfold candidate_blocks.
  pose proof (find_json_blocks_end response_text) as Hend.
  destruct (find_json_blocks response_text); [contradiction|exact Hend].
Qed.

(** X11.  The content returned never starts or ends with a blank:
    stripping it again changes nothing. *)
Theorem content_is_stripped (response_text : string) :
  strip (content (generate_with_tools response_text))
  = content (generate_with_tools response_text).
Proof.
  rewrite (OllamaModelProps.generate_with_tools_fold json_loads json_dumps).
  cbn [content]. apply strip_idempotent.
Qed.

(** ** Several payloads *)

Lemma normalized_app (a b : list dict) :
  forall n,
    normalized n (a ++ b) = normalized n a ++ normalized (n + length a) b.
Proof.
  induction a as [|e a IH]; intros n; simpl.
  - now rewrite Nat.add_0_r.
  - rewrite IH. do 3 f_equal. lia.
Qed.

Lemma length_normalized (es : list dict) :
  forall n, length (normalized n es) = length es.
Proof. induction es as [|e es IH]; intros n; simpl; [|rewrite IH]; reflexivity. Qed.

Lemma fold_payloads (blocks : list string) (entries : list (list dict)) :
  Forall2 (fun b es =>
             exists d, json_loads b = Some (VDict d) /\
                       dict_lookup "tool_calls" d = Some (VList (map VDict es)))
          blocks entries ->
  forall calls content,
    fst (fold_left process_block blocks (calls, content))
    = calls ++ normalized (length calls) (concat entries).
Proof.
  induction 1 as [|b es blocks entries (d & Hload & Hcalls) _ IH];
    intros calls content.
  - simpl. now rewrite app_nil_r.
  - cbn [fold_left concat].
    rewrite (OllamaModelProps.process_block_payload json_loads calls content
               b d es Hload Hcalls).
    rewrite IH, length_app, length_normalized, normalized_app, app_assoc.
    reflexivity.
Qed.

(** X13.  When every candidate payload is a mapping whose [tool_calls]
    is an array of mappings, the calls returned are the entries of all the
    payloads, in order, numbered from 0 without a gap. *)
Theorem calls_of_all_payloads (response_text : string)
        (entries : list (list dict)) :
  Forall2 (fun b es =>
             exists d, json_loads b = Some (VDict d) /\
                       dict_lookup "tool_calls" d = Some (VList (map VDict es)))
          (candidate_blocks json_loads json_dumps response_text) entries ->
  tool_calls (generate_with_tools response_text)
  = normalized 0 (concat entries).
Proof.
  intros Hall.
  rewrite (OllamaModelProps.generate_with_tools_fold json_loads json_dumps).
  cbn [tool_calls].
  now rewrite (fold_payloads _ _ Hall).
Qed.

(** X12.  A completion without a fenced block that is itself a JSON
    mapping with a [tool_calls] array of mappings yields those calls,
    provided the mapping survives being written out and read again. *)
Theorem calls_of_bare_json (response_text : string) (data : value)
        (d : dict) (entries : list dict) :
  find_json_blocks response_text = [] ->
  json_loads response_text = Some data ->
  json_loads (json_dumps data) = Some (VDict d) ->
  dict_lookup "tool_calls" d = Some (VList (map VDict entries)) ->
  tool_calls (generate_with_tools response_text) = normalized 0 entries.
Proof.
  intros Hnone Hwhole Hround Hcalls.
  rewrite (OllamaModelProps.generate_with_tools_fold json_loads json_dumps).
  cbn [tool_calls]. unfold candidate_blocks. rewrite Hnone, Hwhole.
  rewrite (fold_payloads [json_dumps data] [entries]).
  - simpl. now rewrite app_nil_r.
  - constructor; [|constructor]. eauto.
Qed.

End WithJson.

Lemma fenced_blocks_stay_in_content_witness :
  SimpleJson.loads EmptyString = None /\
  find_json_blocks Samples.completion_one_call <> [] /\
  contains (nl ++ nl ++ fence) Samples.completion_one_call = false /\
  content (OllamaModel.generate_with_tools SimpleJson.loads SimpleJson.dumps
             Samples.completion_one_call)
  = strip Samples.completion_one_call.
Proof.
  assert (H1 : SimpleJson.loads EmptyString = None) by evaluate.
  assert (H2 : find_json_blocks Samples.completion_one_call <> []).
  { vm_compute. discriminate. }
  assert (H3 : contains (nl ++ nl ++ fence) Samples.completion_one_call = false)
    by evaluate.
  repeat (split; [assumption|]).
  exact (fenced_blocks_stay_in_content SimpleJson.loads SimpleJson.dumps
           Samples.completion_one_call H1 H2 H3).
Defined.

Lemma calls_of_all_payloads_witness :
  map id (tool_calls (OllamaModel.generate_with_tools
                        SimpleJson.loads SimpleJson.dumps
                        Samples.completion_two_blocks))
  = ["call_0"; "call_1"; "call_2"].
Proof.
  rewrite (calls_of_all_payloads SimpleJson.loads SimpleJson.dumps
             Samples.completion_two_blocks two_blocks_entries).
  - evaluate.
  - vm_compute.
    repeat (constructor; [eexists; split; reflexivity|]). constructor.
Defined.

Lemma calls_of_bare_json_witness :
  tool_calls (OllamaModel.generate_with_tools SimpleJson.loads SimpleJson.dumps
                completion_direct_json)
  = [ mkToolCall "call_0" (VStr "search") (VDict [("q", VStr "cats")]);
      mkToolCall "call_1" (VStr "stop") (VDict []) ].
Proof.
  refine (calls_of_bare_json SimpleJson.loads SimpleJson.dumps
            completion_direct_json
            (VDict [("tool_calls",
                     VList [VDict [("name", VStr "search");
                                   ("arguments", VDict [("q", VStr "cats")])];
                            VDict [("name", VStr "stop")]])])
            [("tool_calls",
              VList [VDict [("name", VStr "search");
                            ("arguments", VDict [("q", VStr "cats")])];
                     VDict [("name", VStr "stop")]])]
            [ [("name", VStr "search"); ("arguments", VDict [("q", VStr "cats")])];
              [("name", VStr "stop")] ]
            _ _ _ _); evaluate.
Defined.

End OllamaModelExtra.

(* ===================================================================== *)
(** * More properties of the classifier, the launcher and the tool *)
(* ===================================================================== *)

Module ClassifierExtra.
Import PyStr Classifier Launcher PyStrProps.

Lemma detect_task_type_cases (task : string) :
  detect_task_type task =
    (if matches creative_keywords task then "multi"
     else if matches calc_keywords task then "single"
     else if matches research_keywords task then "multi"
     else "auto").
Proof.
  unfold detect_task_type.
  now rewrite !ClassifierProps.check_keywords_matches.
Qed.

(** A word match starts with the keyword, so the keyword is in the text. *)
Lemma word_search_contains (kw : string) :
  forall text prev,
    Re.word_search_from kw prev text = true -> contains kw text = true.
Proof.
  induction text as [|c text IH]; intros prev; simpl.
  - rewrite !orb_false_r. unfold Re.word_at, startswith.
    destruct (strip_prefix kw EmptyString); [reflexivity|].
    now rewrite andb_false_r.
  - intros H. apply orb_true_iff in H. destruct H as [H|H].
    + unfold Re.word_at, startswith in *.
      destruct (strip_prefix kw (String c text)); [reflexivity|].
      now rewrite andb_false_r in H.
    + rewrite (IH _ H). apply orb_true_r.
Qed.

Lemma matches_contains (kws : list string) (task : string) :
  matches kws task = true ->
  exists keyword, In keyword kws /\ contains keyword (lower task) = true.
Proof.
  unfold matches. rewrite existsb_exists. intros (keyword & Hin & H).
  exists keyword. split; [exact Hin|].
  exact (word_search_contains keyword _ _ H).
Qed.

Lemma detect_task_type_values (task : string) :
  In (detect_task_type task) ["auto"; "single"; "multi"].
Proof.
  rewrite detect_task_type_cases.
  destruct (matches creative_keywords task), (matches calc_keywords task),
    (matches research_keywords task); simpl; auto.
Qed.

(** X14.  The mode is "auto", "single" or "multi", and it depends on
    the task only up to the case of its letters. *)
Theorem detect_task_type_range (task : string) :
  In (detect_task_type task) ["auto"; "single"; "multi"]
  /\ detect_task_type (lower task) = detect_task_type task
  /\ (forall other, lower other = lower task ->
                    detect_task_type other = detect_task_type task).
Proof.
  split; [|split].
  - apply detect_task_type_values.
  - rewrite !detect_task_type_cases. unfold matches.
    now rewrite lower_idempotent.
  - intros other Hlower. rewrite !detect_task_type_cases. unfold matches.
    now rewrite Hlower.
Qed.

(** X15.  A task is taken out of the mode "auto" only by a keyword it
    contains: when the mode is "single" a calculation keyword occurs in
    the lower-cased task, and when it is "multi" a research or creative
    keyword does. *)
Theorem detect_task_type_needs_keyword (task : string) :
  (detect_task_type task = "single" ->
   exists keyword, In keyword calc_keywords /\
                   contains keyword (lower task) = true)
  /\ (detect_task_type task = "multi" ->
      exists keyword, In keyword (research_keywords ++ creative_keywords) /\
                      contains keyword (lower task) = true).
Proof.
  rewrite detect_task_type_cases. split.
  - destruct (matches creative_keywords task); [discriminate|].
    destruct (matches calc_keywords task) eqn:Hcalc.
    + intros _. now apply matches_contains.
    + destruct (matches research_keywords task); discriminate.
  - destruct (matches creative_keywords task) eqn:Hcreative.
    + intros _. destruct (matches_contains _ _ Hcreative) as (k & Hin & Hk).
      exists k. split; [|exact Hk]. apply in_or_app. now right.
    + destruct (matches calc_keywords task); [discriminate|].
      destruct (matches research_keywords task) eqn:Hresearch;
        [|discriminate].
      intros _. destruct (matches_contains _ _ Hresearch) as (k & Hin & Hk).
      exists k. split; [|exact Hk]. apply in_or_app. now left.
Qed.

Lemma detect_task_type_needs_keyword_witness :
  detect_task_type "Please COMPUTE the total" = "single" /\
  exists keyword, In keyword calc_keywords /\
                  contains keyword (lower "Please COMPUTE the total") = true.
Proof.
  split; [reflexivity|].
  exact (proj1 (detect_task_type_needs_keyword "Please COMPUTE the total")
               eq_refl).
Defined.

(** X16.  Started without [--mode], the launcher hands [jafs.main] a
    mode that [jafs.main] accepts exactly when the task matches one of the
    keyword categories: for a task without any keyword it passes
    [--mode auto], which is not among the modes of [main.py]. *)
Theorem launcher_mode_accepted (task_args : list string) (verbose : bool) :
  task_args <> [] ->
  let task := join " " task_args in
  exists rest,
    launch_command task_args None verbose
    = Some (["python"; "-m"; "jafs.main"; "--mode"; launch_mode task None]
              ++ rest)
    /\ main_accepts_mode (launch_mode task None)
       = (matches research_keywords task || matches calc_keywords task
          || matches creative_keywords task).
Proof.
  intros Hargs task. unfold launch_command.
  destruct task_args as [|a args]; [contradiction|].
  fold task. cbn [launch_mode].
  exists ((if verbose then ["--verbose"] else []) ++ ["--task"; task]).
  split.
  - assert (Hmode : detect_task_type task <> EmptyString).
    { destruct (detect_task_type_values task) as [H|[H|[H|[]]]];
        rewrite <- H; discriminate. }
    destruct (detect_task_type task); [contradiction|].
    destruct verbose; reflexivity.
  - rewrite detect_task_type_cases.
    destruct (matches creative_keywords task), (matches calc_keywords task),
      (matches research_keywords task); reflexivity.
Qed.

Lemma launcher_mode_accepted_witness :
  ["summarize"; "this"; "page"] <> [] /\
  launch_command ["summarize"; "this"; "page"] None false
  = Some ["python"; "-m"; "jafs.main"; "--mode"; "auto";
          "--task"; "summarize this page"]
  /\ main_accepts_mode "auto" = false.
Proof.
  assert (Hargs : ["summarize"; "this"; "page"] <> []) by discriminate.
  split; [exact Hargs|].
  destruct (launcher_mode_accepted ["summarize"; "this"; "page"] false Hargs)
    as (rest & Hcmd & Haccept).
  split; [reflexivity|exact Haccept].
Defined.

End ClassifierExtra.

Module DirectResponseExtra.
Import Py PyStr DirectResponse.

Lemma determine_task_type_range (prompt : string) :
  In (_determine_task_type prompt)
     ["poem"; "story"; "essay"; "article"; "letter"; "song"; "script";
      "dialogue"; "creative text"].
Proof.
  unfold _determine_task_type.
  repeat match goal with
         | |- context [if ?b then _ else _] => destruct b
         end; simpl; auto 10.
Qed.

(** X17.  A result with [success] true is never made up without a
    prompt: the parameters hold a string under [prompt], one of the
    creative keywords occurs in it (lower-cased), the message names one of
    the nine task types, and the content ends with the prompt as it was
    given. *)
Theorem execute_success_needs_prompt (parameters : dict) (r : ToolResult) :
  _execute parameters = Ok r ->
  success r = true ->
  exists prompt task_type,
    dict_lookup "prompt" parameters = Some (VStr prompt)
    /\ (exists keyword, In keyword creative_keywords /\
                        contains keyword (lower prompt) = true)
    /\ In task_type ["poem"; "story"; "essay"; "article"; "letter"; "song";
                     "script"; "dialogue"; "creative text"]
    /\ message r = (capitalize task_type ++ " generated successfully")%string
    /\ data r
       = VDict [("content",
                 VStr ("This is where the language model would generate a "
                       ++ task_type ++ " based on: " ++ prompt)%string)].
Proof.
  unfold _execute, dict_get. intros Hrun Hsuccess.
  destruct (dict_lookup "prompt" parameters) as [v|] eqn:Hprompt.
  - destruct v as [| | | |prompt| |]; try discriminate.
    cbn [as_str bind] in Hrun.
    destruct (_is_creative_task prompt) eqn:Hcreative; cbn [negb] in Hrun;
      injection Hrun as <-; [|discriminate].
    exists prompt, (_determine_task_type prompt).
    split; [reflexivity|]. split.
    + rewrite DirectResponseProps.is_creative_task_keyword in Hcreative.
      unfold has_creative_keyword in Hcreative.
      apply existsb_exists in Hcreative.
      destruct Hcreative as (keyword & Hin & Hword).
      exists keyword. split; [exact Hin|].
      exact (ClassifierExtra.word_search_contains keyword _ _ Hword).
    + split; [apply determine_task_type_range|]. split; reflexivity.
  - cbn [as_str bind] in Hrun. injection Hrun as <-. discriminate.
Qed.

Lemma execute_success_needs_prompt_witness :
  exists prompt task_type,
    dict_lookup "prompt" [("prompt", VStr "Draft a LETTER to the editor")]
    = Some (VStr prompt)
    /\ task_type = "letter"
    /\ prompt = "Draft a LETTER to the editor".
Proof.
  destruct (execute_success_needs_prompt
              [("prompt", VStr "Draft a LETTER to the editor")]
              (mkToolResult true "Letter generated successfully"
                 (VDict [("content",
                          VStr "This is where the language model would generate a letter based on: Draft a LETTER to the editor")]))
              eq_refl eq_refl)
    as (prompt & task_type & Hprompt & _ & _ & Hmessage & Hdata).
  exists prompt, "letter". split; [exact Hprompt|]. split; [reflexivity|].
  simpl in Hprompt. congruence.
Defined.

(** X18.  The classifier and the tool agree on the five verbs they
    share: a prompt with one of them as a word is sent to the mode
    "multi", and the tool accepts it. *)
Theorem shared_keywords_agree (prompt keyword : string) :
  In keyword ["write"; "compose"; "create"; "generate"; "draft"] ->
  Re.search_word keyword (lower prompt) = true ->
  Classifier.detect_task_type prompt = "multi"
  /\ exists r, _execute [("prompt", VStr prompt)] = Ok r /\ success r = true.
Proof.
  intros Hin Hword. split.
  - rewrite ClassifierExtra.detect_task_type_cases.
    replace (Classifier.matches Classifier.creative_keywords prompt) with true;
      [reflexivity|].
    symmetry. apply existsb_exists. exists keyword. split; [|exact Hword].
    simpl in *. intuition.
  - unfold _execute, dict_get. cbn [dict_lookup as_str bind].
    rewrite String.eqb_refl. cbn [as_str bind].
    rewrite DirectResponseProps.is_creative_task_keyword.
    replace (has_creative_keyword prompt) with true;
      [eexists; split; reflexivity|].
    symmetry. apply existsb_exists. exists keyword. split; [|exact Hword].
    simpl in *. intuition.
Qed.

Lemma shared_keywords_agree_witness :
  Classifier.detect_task_type "calculate it and write it down" = "multi"
  /\ exists r,
      _execute [("prompt", VStr "calculate it and write it down")] = Ok r
      /\ success r = true.
Proof.
  apply (shared_keywords_agree "calculate it and write it down" "write").
  - simpl. auto.
  - reflexivity.
Defined.

End DirectResponseExtra.

(* ===================================================================== *)
(** * Properties of the set-up of the agents *)
(* ===================================================================== *)

Module OrchestratorSetupProps.
Import Py Orchestrator OrchestratorSetup DictProps SetupSamples.
Local Open Scope py_scope.

Ltac evaluate := vm_compute; reflexivity.

(** ** Listing the agents *)

Section WithAgents.
Variable Agent : Type.
Variable agent_id : Agent -> string.
Variable agent_name : Agent -> value.
Variable agent_type : Agent -> string.

Abbreviation list_agents :=
  (OrchestratorSetup.list_agents agent_id agent_name agent_type).
Abbreviation describe :=
  (OrchestratorSetup.describe agent_id agent_name agent_type).

(** X19.  The list of agents starts with the primary agent, marked as
    primary; no other entry is marked primary or carries the primary's id;
    every registered agent with another id is listed; the list is never
    empty. *)
Theorem list_agents_one_primary (primary_agent : Agent)
        (agents : list (string * Agent)) :
  exists others,
    list_agents primary_agent agents = describe true primary_agent :: others
    /\ Forall (fun e => entry_primary e = false /\
                        entry_id e <> agent_id primary_agent) others
    /\ length others <= length agents
    /\ forall key agent,
        In (key, agent) agents ->
        agent_id agent <> agent_id primary_agent ->
        In (describe false agent) others.
Proof.
  unfold OrchestratorSetup.list_agents. eexists. split; [reflexivity|].
  split; [|split].
  - apply Forall_forall. intros e He. apply in_map_iff in He.
    destruct He as ([key agent] & <- & Hin).
    apply filter_In in Hin. destruct Hin as [_ Hid].
    cbn [snd] in *. split; [reflexivity|].
    cbn [entry_id OrchestratorSetup.describe].
    apply negb_true_iff in Hid. now apply String.eqb_neq.
  - rewrite length_map. apply filter_length_le.
  - intros key agent Hin Hid. apply in_map_iff.
    exists (key, agent). split; [reflexivity|].
    apply filter_In. split; [exact Hin|]. cbn [snd].
    apply negb_true_iff. now apply String.eqb_neq.
Qed.

End WithAgents.

(** ** Configuring the specialized agents *)

Lemma role_update_keys (role : string) (a' : RoleAgent)
      (agents : list (string * RoleAgent)) :
  map fst (role_update role a' agents) = map fst agents.
Proof.
  induction agents as [|[r a] rest IH]; simpl; [reflexivity|].
  destruct (String.eqb role r); simpl; [reflexivity|now rewrite IH].
Qed.

Lemma role_lookup_update_same (role : string) (a a' : RoleAgent)
      (agents : list (string * RoleAgent)) :
  role_lookup role agents = Some a ->
  role_lookup role (role_update role a' agents) = Some a'.
Proof.
  induction agents as [|[r b] rest IH]; simpl; [discriminate|].
  destruct (String.eqb role r) eqn:E; simpl; rewrite E; auto.
Qed.

Lemma role_lookup_update_other (role other : string) (a' : RoleAgent)
      (agents : list (string * RoleAgent)) :
  other <> role ->
  role_lookup other (role_update role a' agents) = role_lookup other agents.
Proof.
  intros Hne. induction agents as [|[r b] rest IH]; simpl; [reflexivity|].
  destruct (String.eqb_spec role r) as [->|Hr]; simpl.
  - destruct (String.eqb_spec other r); [contradiction|reflexivity].
  - destruct (String.eqb other r); [reflexivity|exact IH].
Qed.

Lemma configure_role_keys (config sc : dict) (maxit : value)
      (agents : list (string * RoleAgent)) (role : value) :
  map fst (fst (configure_role config sc maxit agents role)) = map fst agents.
Proof.
  unfold configure_role.
  destruct role as [| | | |r| |]; try reflexivity.
  destruct (role_lookup r agents); [|reflexivity].
  destruct (enabled_tools config); [|reflexivity].
  destruct (_merge_configs _ _); [|reflexivity].
  apply role_update_keys.
Qed.

Lemma configure_roles_keys (config sc : dict) (maxit : value)
      (roles : list value) :
  forall agents,
    map fst (fst (configure_roles config sc maxit agents roles))
    = map fst agents.
Proof.
  induction roles as [|role rest IH]; intros agents; [reflexivity|].
  cbn [configure_roles].
  pose proof (configure_role_keys config sc maxit agents role) as Hstep.
  destruct (configure_role config sc maxit agents role) as [agents' [[]|e]];
    cbn [fst] in *; [|exact Hstep].
  now rewrite IH.
Qed.

(** X20.  Configuring the specialized agents never adds, removes or
    reorders a role, whether it ends well or raises: a role named in the
    configuration that the primary agent does not have is skipped, and the
    primary agent keeps its [max_iterations]. *)
Theorem specialized_roles_fixed (config : dict) (primary_agent : HybridAgent) :
  let primary' := fst (_create_specialized_agents config primary_agent) in
  map fst (specialized_agents primary')
  = map fst (specialized_agents primary_agent)
  /\ max_iterations primary' = max_iterations primary_agent.
Proof.
  unfold _create_specialized_agents.
  destruct (dict_get "specialized_agents" config (VDict []));
    try (split; reflexivity).
  destruct (OllamaModel.iterate _) as [roles|e]; [|split; reflexivity].
  pose proof (configure_roles_keys config d (max_iterations primary_agent)
                roles (specialized_agents primary_agent)) as Hkeys.
  destruct (configure_roles _ _ _ _ roles) as [agents r].
  cbn [fst specialized_agents max_iterations] in *. now split.
Qed.

Example roles_config_applied :
  _create_specialized_agents roles_config fresh_primary
  = (mkHybridAgent (VInt 10)
       [ ("researcher", fresh_role "researcher");
         ("planner", mkRoleAgent (VStr "planner-agent") (VInt 10)
                                 (VList [VStr "search"]));
         ("executor", fresh_role "executor");
         ("critic", mkRoleAgent (VStr "reviewer") (VInt 10)
                                (VList [VStr "search"])) ],
     Ok tt).
Proof. evaluate. Qed.

(** A key of the default is still a key after the merge. *)
Lemma merge_keeps_keys (override : value) :
  forall (default merged : dict) (k : string) (x : value),
    _merge_configs default override = Ok merged ->
    dict_lookup k default = Some x ->
    exists y, dict_lookup k merged = Some y.
Proof.
  destruct override as [| | | | | |items]; try discriminate.
  intros default merged k x. rewrite OrchestratorProps.merge_configs_loop.
  revert default x.
  induction items as [|[key value] rest IH]; intros default x Hm Hk.
  - simpl in Hm. injection Hm as <-. eauto.
  - apply OrchestratorExtra.merge_items_step in Hm.
    destruct Hm as (stored & Hm & _).
    destruct (String.eqb_spec k key) as [->|Hne].
    + apply (IH _ stored Hm). apply dict_lookup_set_same.
    + apply (IH _ x Hm). now rewrite dict_lookup_set_other.
Qed.

Lemma role_lookup_keys (role : string) (agents agents' : list (string * RoleAgent))
      (a : RoleAgent) :
  map fst agents' = map fst agents ->
  role_lookup role agents = Some a ->
  exists a', role_lookup role agents' = Some a'.
Proof.
  revert agents'.
  induction agents as [|[r b] rest IH]; intros agents' Hkeys; [discriminate|].
  destruct agents' as [|[r' b'] rest']; [discriminate|].
  injection Hkeys as -> Hrest. simpl.
  destruct (String.eqb role r); [eauto|]. now apply IH.
Qed.

(** A role other than the one configured keeps its agent. *)
Lemma configure_role_other (config sc : dict) (maxit : value)
      (agents : list (string * RoleAgent)) (role : value) (r : string) :
  role <> VStr r ->
  role_lookup r (fst (configure_role config sc maxit agents role))
  = role_lookup r agents.
Proof.
  intros Hne. unfold configure_role.
  destruct role as [| | | |s| |]; try reflexivity.
  destruct (role_lookup s agents); [|reflexivity].
  destruct (enabled_tools config); [|reflexivity].
  destruct (_merge_configs _ _); [|reflexivity].
  apply role_lookup_update_other. congruence.
Qed.

Section RoleSettings.
Variable config sc : dict.
Variable maxit : value.

(** What a configured role looks like: its three attributes are the
    entries of the merge of the role's block over the role's defaults. *)
Let configured (r : string) (x : option RoleAgent) : Prop :=
  exists tools merged name its tls,
    enabled_tools config = Ok tools /\
    _merge_configs [ ("name", VStr (r ++ "-agent"));
                     ("max_iterations", maxit);
                     ("tools", tools) ]
                   (dict_get r sc (VDict [])) = Ok merged /\
    dict_lookup "name" merged = Some name /\
    dict_lookup "max_iterations" merged = Some its /\
    dict_lookup "tools" merged = Some tls /\
    x = Some (mkRoleAgent name its tls).

Lemma configure_role_settings (agents agents' : list (string * RoleAgent))
      (r : string) (a : RoleAgent) :
  configure_role config sc maxit agents (VStr r) = (agents', Ok tt) ->
  role_lookup r agents = Some a ->
  configured r (role_lookup r agents').
Proof.
  unfold configure_role. intros Hrun Ha. rewrite Ha in Hrun.
  destruct (enabled_tools config) as [tools|e] eqn:Htools; [|discriminate].
  destruct (_merge_configs _ _) as [merged|e] eqn:Hmerged; [|discriminate].
  injection Hrun as <-.
  destruct (merge_keeps_keys _ _ _ "name" _ Hmerged eq_refl) as (name & Hname).
  destruct (merge_keeps_keys _ _ _ "max_iterations" _ Hmerged eq_refl)
    as (its & Hits).
  destruct (merge_keeps_keys _ _ _ "tools" _ Hmerged eq_refl) as (tls & Htls).
  exists tools, merged, name, its, tls.
  repeat (split; [assumption||reflexivity|]).
  rewrite (role_lookup_update_same _ _ _ _ Ha).
  unfold dict_get. now rewrite Hname, Hits, Htls.
Qed.

Lemma configure_roles_keep (roles : list value) (r : string) :
  forall agents final,
    configure_roles config sc maxit agents roles = (final, Ok tt) ->
    configured r (role_lookup r agents) ->
    configured r (role_lookup r final).
Proof.
  induction roles as [|role rest IH]; intros agents final Hrun Hdone.
  - simpl in Hrun. now injection Hrun as <-.
  - cbn [configure_roles] in Hrun.
    destruct (configure_role config sc maxit agents role)
      as [agents1 [[]|e]] eqn:Hstep; [|discriminate].
    apply (IH _ _ Hrun).
    assert (Hdec : role = VStr r \/ role <> VStr r).
    { destruct role as [| | | |s| |]; try (right; discriminate).
      destruct (String.eqb_spec s r) as [->|Hne]; [now left|].
      right. congruence. }
    destruct Hdec as [->|Hne].
    + destruct Hdone as (? & ? & ? & ? & ? & _ & _ & _ & _ & _ & Ha).
      exact (configure_role_settings _ _ _ _ Hstep Ha).
    + pose proof (configure_role_other config sc maxit agents role r Hne) as Hsame.
      rewrite Hstep in Hsame. cbn [fst] in Hsame. now rewrite Hsame.
Qed.

Lemma configure_roles_settings (roles : list value) (r : string) :
  forall agents final a,
    configure_roles config sc maxit agents roles = (final, Ok tt) ->
    In (VStr r) roles ->
    role_lookup r agents = Some a ->
    configured r (role_lookup r final).
Proof.
  induction roles as [|role rest IH]; intros agents final a Hrun Hin Ha;
    [contradiction|].
  cbn [configure_roles] in Hrun.
  destruct (configure_role config sc maxit agents role)
    as [agents1 [[]|e]] eqn:Hstep; [|discriminate].
  destruct Hin as [->|Hin].
  - apply (configure_roles_keep rest r _ _ Hrun).
    exact (configure_role_settings _ _ _ _ Hstep Ha).
  - pose proof (configure_role_keys config sc maxit agents role) as Hkeys.
    rewrite Hstep in Hkeys. cbn [fst] in Hkeys.
    destruct (role_lookup_keys r agents agents1 a Hkeys Ha) as (a1 & Ha1).
    exact (IH _ _ a1 Hrun Hin Ha1).
Qed.

Lemma configure_roles_other (roles : list value) (r : string) :
  ~ In (VStr r) roles ->
  forall agents,
    role_lookup r (fst (configure_roles config sc maxit agents roles))
    = role_lookup r agents.
Proof.
  induction roles as [|role rest IH]; intros Hnot agents; [reflexivity|].
  cbn [configure_roles].
  assert (Hne : role <> VStr r) by (intros ->; apply Hnot; now left).
  pose proof (configure_role_other config sc maxit agents role r Hne) as Hsame.
  destruct (configure_role config sc maxit agents role) as [agents1 [[]|e]];
    cbn [fst] in *; [|exact Hsame].
  rewrite IH; [exact Hsame|]. intros Hin. apply Hnot. now right.
Qed.

End RoleSettings.

(** X21.  After a configuration that ends well, every role named in
    [roles] that the primary agent has is set from the merge of the role's
    own block over the role defaults (the name [role-agent], the primary's
    [max_iterations], the enabled tools): its name, iterations and tools
    are the three entries of that merge, and nothing of what the agent
    held before is kept. *)
Theorem specialized_agent_settings (config sc : dict)
        (primary_agent : HybridAgent) (roles : list value) (r : string)
        (previous : RoleAgent) :
  dict_get "specialized_agents" config (VDict []) = VDict sc ->
  OllamaModel.iterate (dict_get "roles" sc default_roles) = Ok roles ->
  snd (_create_specialized_agents config primary_agent) = Ok tt ->
  In (VStr r) roles ->
  role_lookup r (specialized_agents primary_agent) = Some previous ->
  exists tools merged name its tls,
    enabled_tools config = Ok tools /\
    _merge_configs [ ("name", VStr (r ++ "-agent"));
                     ("max_iterations", max_iterations primary_agent);
                     ("tools", tools) ]
                   (dict_get r sc (VDict [])) = Ok merged /\
    dict_lookup "name" merged = Some name /\
    dict_lookup "max_iterations" merged = Some its /\
    dict_lookup "tools" merged = Some tls /\
    role_lookup r (specialized_agents
                     (fst (_create_specialized_agents config primary_agent)))
    = Some (mkRoleAgent name its tls).
Proof.
  unfold _create_specialized_agents. intros Hsc Hroles Hok Hin Hprev.
  rewrite Hsc, Hroles in *.
  destruct (configure_roles config sc (max_iterations primary_agent)
                            (specialized_agents primary_agent) roles)
    as [final res] eqn:Hrun.
  cbn [fst snd specialized_agents] in *. subst res.
  exact (configure_roles_settings config sc _ roles r _ _ previous
           Hrun Hin Hprev).
Qed.

(** X22.  A role that is not named in [roles] keeps its agent as it
    was, whether the configuration ends well or raises. *)
Theorem unlisted_role_untouched (config sc : dict)
        (primary_agent : HybridAgent) (roles : list value) (r : string) :
  dict_get "specialized_agents" config (VDict []) = VDict sc ->
  OllamaModel.iterate (dict_get "roles" sc default_roles) = Ok roles ->
  ~ In (VStr r) roles ->
  role_lookup r (specialized_agents
                   (fst (_create_specialized_agents config primary_agent)))
  = role_lookup r (specialized_agents primary_agent).
Proof.
  unfold _create_specialized_agents. intros Hsc Hroles Hnot.
  rewrite Hsc, Hroles.
  pose proof (configure_roles_other config sc (max_iterations primary_agent)
                roles r Hnot (specialized_agents primary_agent)) as Hsame.
  destruct (configure_roles _ _ _ _ roles) as [final res].
  exact Hsame.
Qed.

Lemma specialized_agent_settings_witness :
  role_lookup "critic"
    (specialized_agents (fst (_create_specialized_agents roles_config
                                                         fresh_primary)))
  = Some (mkRoleAgent (VStr "reviewer") (VInt 10) (VList [VStr "search"])).
Proof.
  destruct (specialized_agent_settings roles_config
              [ ("roles", VList [VStr "critic"; VStr "tester"; VStr "planner"]);
                ("critic", VDict [("name", VStr "reviewer")]) ]
              fresh_primary
              [VStr "critic"; VStr "tester"; VStr "planner"]
              "critic" (fresh_role "critic")
              eq_refl eq_refl eq_refl (or_introl eq_refl) eq_refl)
    as (tools & merged & name & its & tls & Htools & Hmerged & Hname & Hits
        & Htls & Hrole).
  rewrite Hrole.
  injection Htools as <-. injection Hmerged as <-.
  injection Hname as <-. injection Hits as <-. injection Htls as <-.
  reflexivity.
Defined.

Lemma unlisted_role_untouched_witness :
  ~ In (VStr "executor") [VStr "critic"; VStr "tester"; VStr "planner"] /\
  role_lookup "executor"
    (specialized_agents (fst (_create_specialized_agents roles_config
                                                         fresh_primary)))
  = Some (fresh_role "executor").
Proof.
  assert (Hnot : ~ In (VStr "executor")
                      [VStr "critic"; VStr "tester"; VStr "planner"]).
  { simpl. intuition discriminate. }
  split; [exact Hnot|].
  exact (unlisted_role_untouched roles_config
           [ ("roles", VList [VStr "critic"; VStr "tester"; VStr "planner"]);
             ("critic", VDict [("name", VStr "reviewer")]) ]
           fresh_primary
           [VStr "critic"; VStr "tester"; VStr "planner"]
           "executor" eq_refl eq_refl Hnot).
Defined.

(** ** Building the primary agent *)

Lemma enabled_tools_raises (config : dict) (e : exn) :
  enabled_tools config = Raise e -> e = AttributeError.
Proof.
  unfold enabled_tools. cbn [get bind].
  destruct (dict_get "tools" config (VDict [])); cbn [get];
    intros [= <-]; reflexivity.
Qed.

Lemma short_term_memory_needs_mapping (config : dict) (v : value) :
  dict_lookup "memory" config = Some v ->
  is_dict v = false ->
  _create_short_term_memory config = Raise AttributeError.
Proof.
  intros Hv Hnot. unfold _create_short_term_memory, memory_section, dict_get.
  cbn [get bind]. unfold dict_get. rewrite Hv.
  now destruct v.
Qed.

(** X23.  A configuration file can pass [_load_config] and still stop
    the orchestrator from being built: when the file (a mapping with
    distinct keys whose [agent] entry, if any, is a mapping) holds
    something that is not a mapping under [memory], [_load_config] returns
    the merged configuration with that entry, and [_create_primary_agent]
    raises [AttributeError] on it. *)
Theorem memory_section_not_checked
        (new_hybrid_agent :
           value -> value -> value -> value -> value ->
           ShortTermMemory -> option LongTermMemory -> HybridAgent)
        (override : dict) (v : value) :
  NoDup (keys override) ->
  dict_lookup "memory" override = Some v ->
  is_dict v = false ->
  (forall a, dict_lookup "agent" override = Some a -> is_dict a = true) ->
  exists cfg,
    _load_config true (Ok (VDict override)) = Ok cfg /\
    dict_lookup "memory" cfg = Some v /\
    _create_primary_agent new_hybrid_agent cfg = Raise AttributeError.
Proof.
  intros Hnd Hmem Hnot Hagent.
  destruct (OrchestratorProps.merge_configs_total (VDict override) eq_refl
              default_config) as (merged & Hmerged).
  pose proof Hmerged as Hloop.
  rewrite OrchestratorProps.merge_configs_loop in Hloop.
  assert (Hmem' : dict_lookup "memory" merged = Some v).
  { exact (OrchestratorExtra.merge_items_replaced _ _ _ _ _ Hnd Hloop Hmem Hnot). }
  assert (Hagent' : exists a, dict_lookup "agent" merged = Some (VDict a)).
  { destruct (dict_lookup "agent" override) as [a|] eqn:E.
    - specialize (Hagent a eq_refl). destruct a; try discriminate.
      destruct (OrchestratorExtra.merge_items_nested _ _ _ "agent" _ d Hnd
                  Hloop E eq_refl) as (m & _ & Hm).
      eauto.
    - rewrite (OrchestratorExtra.merge_items_untouched _ _ _ _ Hloop E).
      eexists. reflexivity. }
  destruct Hagent' as (a & Ha).
  exists merged. split; [|split; [exact Hmem'|]].
  - unfold _load_config. cbn [negb bind]. rewrite Hmerged.
    cbn [bind get]. unfold dict_get. rewrite Ha. reflexivity.
  - assert (Hget : dict_get "agent" merged (VDict []) = VDict a)
      by (unfold dict_get; now rewrite Ha).
    unfold _create_primary_agent. cbn [get bind].
    rewrite !Hget. cbn [get bind].
    destruct (enabled_tools merged) as [tools|e] eqn:Htools; cbn [bind].
    + now rewrite (short_term_memory_needs_mapping merged v Hmem' Hnot).
    + now rewrite (enabled_tools_raises _ _ Htools).
Qed.

Lemma memory_section_not_checked_witness :
  exists cfg,
    _load_config true (Ok (VDict Runs.override_bad_memory)) = Ok cfg /\
    dict_lookup "memory" cfg = Some (VInt 5) /\
    _create_primary_agent sample_constructor cfg = Raise AttributeError.
Proof.
  apply (memory_section_not_checked sample_constructor
           Runs.override_bad_memory (VInt 5)).
  - repeat constructor; simpl; intuition.
  - reflexivity.
  - reflexivity.
  - intros a Ha. discriminate.
Defined.

(** With the default configuration the agent is built from the default
    values and registered under its name; its specialized agents are not
    configured, the default mode being "single". *)
Example primary_agent_from_defaults :
  _create_primary_agent sample_constructor default_config
  = Ok (VStr "jafs",
        sample_constructor (VStr "jafs") (VInt 10) (VList []) (VStr "single")
          (VInt 7) (mkShortTermMemory (VInt 1000) (VInt 3600))
          (Some (mkLongTermMemory VNone (VBool true)))).
Proof. evaluate. Qed.

End OrchestratorSetupProps.

(* ===================================================================== *)
(** * Properties of the shell commands *)
(* ===================================================================== *)

Module CliProps.
Import Py PyStr PyStrProps Cli CliSamples.
Local Open Scope string_scope.

Ltac evaluate := vm_compute; reflexivity.

Lemma lstrip_idempotent (s : string) : lstrip (lstrip s) = lstrip s.
Proof.
  induction s as [|c s IH]; simpl; [reflexivity|].
  destruct (is_space c) eqn:Hc; [exact IH|]. simpl. now rewrite Hc.
Qed.

Lemma rstrip_strip (s : string) : rstrip (strip s) = strip s.
Proof. apply rstrip_idempotent. Qed.

Lemma lstrip_strip (s : string) : lstrip (strip s) = strip s.
Proof.
  unfold strip. destruct (lstrip_head s) as [->|(c & t & -> & Hc)];
    [reflexivity|].
  destruct (rstrip_head c t Hc) as (u & ->). simpl. now rewrite Hc.
Qed.

(** A text without trailing blanks has no trailing blanks after its
    first character either. *)
Lemma rstrip_tail (c : ascii) (s : string) :
  rstrip (String c s) = String c s -> rstrip s = s.
Proof.
  rewrite rstrip_cons. destruct (rstrip s) as [|a r] eqn:E.
  - destruct (is_space c); [discriminate|]. now intros [= <-].
  - now intros [= <-].
Qed.

Lemma rstrip_lstrip (s : string) : rstrip s = s -> rstrip (lstrip s) = lstrip s.
Proof.
  induction s as [|c s IH]; intros H; [reflexivity|].
  simpl lstrip. destruct (is_space c); [|exact H].
  apply IH. exact (rstrip_tail c s H).
Qed.

Lemma rstrip_span (p : ascii -> bool) (s : string) :
  rstrip s = s ->
  rstrip (snd (DirectResponse.span p s)) = snd (DirectResponse.span p s).
Proof.
  induction s as [|c s IH]; intros H; [reflexivity|].
  simpl. destruct (p c); [|exact H].
  specialize (IH (rstrip_tail c s H)).
  now destruct (DirectResponse.span p s).
Qed.

Lemma span_split (p : ascii -> bool) (s : string) :
  s = fst (DirectResponse.span p s) ++ snd (DirectResponse.span p s).
Proof.
  induction s as [|c s IH]; [reflexivity|].
  simpl. destruct (p c); [|reflexivity].
  destruct (DirectResponse.span p s). simpl in *. now rewrite <- IH.
Qed.

Lemma lstrip_split (s : string) :
  exists blanks, s = blanks ++ lstrip s /\ lstrip blanks = EmptyString.
Proof.
  induction s as [|c s (b & Hs & Hb)]; [exists EmptyString; now split|].
  simpl. destruct (is_space c) eqn:Hc.
  - exists (String c b). simpl. rewrite Hc. split; [now rewrite <- Hs|exact Hb].
  - exists EmptyString. now split.
Qed.

(** What follows the longest run of a class starts outside the class. *)
Lemma span_rest_head (p : ascii -> bool) (s : string) :
  snd (DirectResponse.span p s) = EmptyString
  \/ exists c t, snd (DirectResponse.span p s) = String c t /\ p c = false.
Proof.
  induction s as [|c s IH]; [now left|].
  simpl. destruct (p c) eqn:Hc.
  - destruct (DirectResponse.span p s). exact IH.
  - right. now exists c, s.
Qed.

(** A word in the class, followed by a character outside it. *)
Lemma span_word (p : ascii -> bool) (w : string) (b : ascii) (t : string) :
  forallb p (list_ascii_of_string w) = true ->
  p b = false ->
  DirectResponse.span p (w ++ String b t) = (w, String b t).
Proof.
  intros Hw Hb. induction w as [|c w IH]; simpl.
  - now rewrite Hb.
  - simpl in Hw. apply andb_true_iff in Hw. destruct Hw as [Hc Hw].
    now rewrite Hc, (IH Hw).
Qed.

Lemma blanks_head (blanks : string) :
  blanks <> EmptyString -> lstrip blanks = EmptyString ->
  exists b bs, blanks = String b bs /\ is_space b = true.
Proof.
  destruct blanks as [|b bs]; [contradiction|].
  intros _ H. simpl in H. destruct (is_space b) eqn:Hb; [|discriminate].
  now exists b, bs.
Qed.

Lemma lstrip_blanks_app (blanks rest : string) :
  lstrip blanks = EmptyString -> lstrip (blanks ++ rest) = lstrip rest.
Proof.
  induction blanks as [|b bs IH]; [reflexivity|].
  simpl. destruct (is_space b); [exact IH|discriminate].
Qed.

Lemma task_modes_words (m : string) :
  In m task_modes ->
  forallb not_space (list_ascii_of_string m) = true
  /\ exists c t, m = String c t /\ is_space c = false.
Proof.
  intros [<-|[<-|[<-|[]]]]; (split; [reflexivity|]);
    eexists; eexists; split; reflexivity.
Qed.

(** A mode word, blanks, and a text that starts with something else than
    a blank: the two parts of [split(maxsplit=1)]. *)
Lemma split_first_mode (m blanks task : string) :
  In m task_modes ->
  blanks <> EmptyString -> lstrip blanks = EmptyString ->
  task <> EmptyString -> lstrip task = task ->
  split_first (m ++ blanks ++ task) = [m; task].
Proof.
  intros Hm Hne Hws Htask Hleft.
  destruct (task_modes_words m Hm) as (Hword & c & t & -> & Hc).
  destruct (blanks_head blanks Hne Hws) as (b & bs & -> & Hb).
  unfold split_first.
  replace (lstrip (String c t ++ String b bs ++ task))
    with (String c (t ++ String b (bs ++ task)))
    by (simpl; now rewrite Hc).
  change (String c (t ++ String b (bs ++ task)))
    with (String c t ++ String b (bs ++ task)).
  rewrite (span_word not_space (String c t) b (bs ++ task) Hword)
    by (unfold not_space; now rewrite Hb).
  change (String b (bs ++ task)) with (String b bs ++ task).
  rewrite (lstrip_blanks_app (String b bs) task Hws), Hleft.
  destruct task as [|c' t']; [contradiction|reflexivity].
Qed.

Lemma task_request_mode (arg m blanks task : string) :
  In m task_modes ->
  blanks <> EmptyString -> lstrip blanks = EmptyString ->
  task <> EmptyString -> lstrip task = task ->
  strip arg = m ++ blanks ++ task ->
  task_request arg = Some (VStr m, task).
Proof.
  intros Hm Hne Hws Htask Hleft Harg.
  unfold task_request. rewrite Harg.
  rewrite (split_first_mode m blanks task Hm Hne Hws Htask Hleft).
  destruct (task_modes_words m Hm) as (_ & c & t & Hmc & _).
  assert (Hmode : existsb (String.eqb m) task_modes = true).
  { apply existsb_exists. exists m. split; [exact Hm|apply String.eqb_refl]. }
  rewrite Hmode. subst m. reflexivity.
Qed.

(** X24.  The command [task] hands the orchestrator nothing when its
    argument is blank, and never a blank task: the task is not empty and
    has no blank at either end.  When the stripped argument is [single],
    [multi] or [auto], then blanks, then more text, that word is the mode
    and the text after the blanks is the task; in every other case there
    is no mode and the task is the whole stripped argument. *)
Theorem task_request_wellformed (arg : string) :
  (task_request arg = None <-> strip arg = EmptyString)
  /\ (forall m blanks task,
        In m task_modes ->
        blanks <> EmptyString -> lstrip blanks = EmptyString ->
        task <> EmptyString -> lstrip task = task ->
        strip arg = m ++ blanks ++ task ->
        task_request arg = Some (VStr m, task))
  /\ (forall mode task,
        task_request arg = Some (mode, task) ->
        task <> EmptyString
        /\ strip task = task
        /\ ((mode = VNone /\ task = strip arg
             /\ ~ (exists m blanks rest,
                      In m task_modes /\
                      blanks <> EmptyString /\ lstrip blanks = EmptyString /\
                      rest <> EmptyString /\ lstrip rest = rest /\
                      strip arg = m ++ blanks ++ rest))
            \/ exists m blanks,
                mode = VStr m /\ In m task_modes /\
                blanks <> EmptyString /\ lstrip blanks = EmptyString /\
                strip arg = m ++ blanks ++ task)).
Proof.
  assert (Hshape : forall mode task,
             task_request arg = Some (mode, task) ->
             task <> EmptyString
             /\ strip task = task
             /\ ((mode = VNone /\ task = strip arg)
                 \/ exists m blanks,
                     mode = VStr m /\ In m task_modes /\
                     blanks <> EmptyString /\ lstrip blanks = EmptyString /\
                     strip arg = m ++ blanks ++ task)).
  { intros mode task. unfold task_request.
    pose proof (strip_idempotent arg) as Hstrip.
    pose proof (rstrip_strip arg) as Hright.
    pose proof (lstrip_strip arg) as Hleft.
    set (sa := strip arg) in *. clearbody sa.
    destruct (Nat.eqb _ 0 || String.eqb sa EmptyString) eqn:Hguard;
      [discriminate|].
    apply orb_false_iff in Hguard. destruct Hguard as [_ Hne].
    apply String.eqb_neq in Hne.
    unfold split_first. rewrite Hleft.
    destruct sa as [|c t]; [contradiction|].
    pose proof (span_split not_space (String c t)) as Hsplit.
    pose proof (rstrip_span not_space (String c t) Hright) as Hrest.
    pose proof (span_rest_head not_space (String c t)) as Hhead.
    destruct (DirectResponse.span not_space (String c t)) as [word rest].
    cbn [fst snd] in *.
    destruct (lstrip_split rest) as (blanks & Hblanks & Hws).
    pose proof (rstrip_lstrip rest Hrest) as Htask.
    pose proof (lstrip_idempotent rest) as Hidem.
    pose proof (lstrip_head rest) as Hfirst.
    destruct (lstrip rest) as [|c' t'] eqn:Hl.
    - intros [= <- <-]. repeat split; auto.
    - destruct (existsb (String.eqb word) task_modes) eqn:Hmode.
      + intros [= <- <-]. split; [discriminate|]. split.
        * unfold strip. now rewrite Hidem, Htask.
        * right. exists word, blanks. split; [reflexivity|]. split.
          -- apply existsb_exists in Hmode. destruct Hmode as (m & Hin & Hm).
             apply String.eqb_eq in Hm. now subst m.
          -- split; [|split; [exact Hws|]].
             ++ intros ->. simpl in Hblanks.
                destruct Hfirst as [Hfirst|(a & u & Hfirst & Ha)];
                  [discriminate|].
                injection Hfirst as <- <-.
                destruct Hhead as [Hhead|(a & u & Hhead & Hp)];
                  [congruence|].
                rewrite Hblanks in Hhead. injection Hhead as <- <-.
                unfold not_space in Hp. rewrite Ha in Hp. discriminate.
             ++ rewrite Hsplit. now rewrite <- Hblanks.
      + intros [= <- <-]. repeat split; auto. }
  split; [|split].
  - split.
    + intros Hnone. destruct (strip arg) as [|c t] eqn:Hs; [reflexivity|].
      exfalso. revert Hnone. unfold task_request. rewrite Hs.
      pose proof (lstrip_strip arg) as Hleft. rewrite Hs in Hleft.
      unfold split_first. rewrite Hleft.
      destruct (DirectResponse.span not_space (String c t)) as [word rest].
      destruct (lstrip rest) as [|c' t']; cbn [length Nat.eqb orb String.eqb].
      * discriminate.
      * destruct (existsb (String.eqb word) task_modes); discriminate.
    + intros Hs. unfold task_request. rewrite Hs. reflexivity.
  - intros m blanks task. apply task_request_mode.
  - intros mode task Hreq.
    destruct (Hshape mode task Hreq) as (Hne & Hst & [[Hmode Htask]|Hsplit]).
    + split; [exact Hne|]. split; [exact Hst|]. left.
      split; [exact Hmode|]. split; [exact Htask|].
      intros (m & blanks & rest & Hm & Hb & Hws & Hr & Hl & Harg).
      rewrite (task_request_mode arg m blanks rest Hm Hb Hws Hr Hl Harg)
        in Hreq.
      subst mode. discriminate.
    + split; [exact Hne|]. split; [exact Hst|]. now right.
Qed.

Lemma task_request_wellformed_witness :
  task_request "  multi   write  a poem  " = Some (VStr "multi", "write  a poem")
  /\ strip "write  a poem" = "write  a poem"
  /\ task_request "   " = None.
Proof.
  split; [|split].
  - apply (proj1 (proj2 (task_request_wellformed "  multi   write  a poem  "))
             "multi" "   " "write  a poem").
    + simpl. auto.
    + discriminate.
    + reflexivity.
    + discriminate.
    + reflexivity.
    + reflexivity.
  - exact (proj1 (proj2 (proj2 (proj2 (task_request_wellformed
                                         "  multi   write  a poem  "))
                           (VStr "multi") "write  a poem" eq_refl))).
  - apply (proj2 (proj1 (task_request_wellformed "   "))). reflexivity.
Defined.

(** A mode word alone, or glued to the text, is part of the task. *)
Example task_request_no_mode :
  task_request "multi" = Some (VNone, "multi")
  /\ task_request "multiply 2 by 3" = Some (VNone, "multiply 2 by 3")
  /\ task_request " Multi write a poem" = Some (VNone, "Multi write a poem").
Proof. repeat split. Qed.

Section WithAgent.
Variable Agent : Type.
Variable agent_execute :
  Agent -> string -> value -> Agent * Py.result value.

Abbreviation do_task := (Cli.do_task agent_execute).

(** X25.  One [task] command leaves the shell's own history alone or
    adds one entry to it, and it adds the entry only when the orchestrator
    recorded the task in the same command: the entry and the record hold
    the same task and the same result.  The orchestrator's history only
    grows, also when nothing is added to the shell's. *)
Theorem do_task_histories (self : Shell Agent) (arg : string) (t0 t1 now : Q) :
  let self' := do_task self arg t0 t1 now in
  (exists added,
      Orchestrator.task_history (orchestrator self')
      = (Orchestrator.task_history (orchestrator self) ++ added)%list
      /\ length added <= 1)
  /\ (history self' = history self
      \/ exists entry record,
          history self' = (history self ++ [entry])%list
          /\ Orchestrator.task_history (orchestrator self')
             = (Orchestrator.task_history (orchestrator self) ++ [record])%list
          /\ entry_task entry = Orchestrator.task record
          /\ entry_result entry = Orchestrator.result record
          /\ current_result self' = entry_result entry).
Proof.
  cbv zeta. unfold Cli.do_task.
  destruct (task_request arg) as [[mode task]|].
  2:{ split; [exists []%list; split; [now rewrite app_nil_r|simpl; lia]|now left]. }
  destruct (OrchestratorExtra.execute_task_cases Agent agent_execute
              (orchestrator self) task mode t0 t1)
    as (_ & [(e & Hout & Hh & _)|(res & record & Hout & Hh & _ & Hres & Htask & _)]).
  - destruct (Orchestrator.execute_task agent_execute (orchestrator self)
                                        task mode t0 t1) as [orch' outcome].
    cbn [fst snd] in *. subst outcome. cbn [orchestrator history].
    split; [exists []%list; split; [now rewrite app_nil_r|simpl; lia]|now left].
  - destruct (Orchestrator.execute_task agent_execute (orchestrator self)
                                        task mode t0 t1) as [orch' outcome].
    cbn [fst snd] in *. subst outcome.
    unfold display_result. cbn [verbose orchestrator history joke_counter
                                current_result].
    destruct (display_checks (verbose self) res);
      cbn [orchestrator history current_result].
    + split; [exists [record]%list; split; [assumption|simpl; lia]|].
      right. exists (mkEntry now task mode res), record.
      cbn [entry_task entry_result]. repeat split; auto.
    + split; [exists [record]%list; split; [assumption|simpl; lia]|]. now left.
Qed.






End WithAgent.

Example shell_after_tasks_histories :
  map entry_task (history shell_after_tasks) = ["write a poem"; "solve x"]%list
  /\ map Orchestrator.task
         (Orchestrator.task_history (orchestrator shell_after_tasks))
     = ["write a poem"; "solve x"]%list.
Proof. split; evaluate. Qed.


End CliProps.
